(** * Stateless presence of ShareDB: the client-side reconciliation state

    A shallow embedding of the presence module of the client (the functions
    mixed into a document: [submitPresence], [_handlePresence],
    [_processReceivedPresence], [_transformAllPresence], [pause], [flush],
    [_cacheOp], [destroy], [_hardRollbackPresence], ...) and the properties
    its specification states about them.

    JavaScript values are modelled as follows.
    - [null] and [undefined] are [None]; a payload, an operation body or a
      callback that is there is [Some _].
    - An object used as a dictionary ([presence.current],
      [presence.received]) is a [gmap string _]; [Object.keys] is the list
      of keys of the map (its order is not the insertion order of
      JavaScript, and no statement below depends on the order).
    - Numbers (versions, sequence numbers, timestamps) are integers [Z].
    - [===] on payloads is the decidable equality of [Data].
    - A [TypeError] raised by reading a property of [undefined] is the
      [Throw] outcome; the state reached when it is raised is kept.
    - [Date.now()] is an argument [now] of the function that reads it.
    - Work handed to [process.nextTick] is appended to the queue
      [Doc.nextTick]; calls that leave the module (a callback invoked, an
      event emitted, a message handed to the connection, a fetch) are
      appended to the log [Doc.events]. *)

From stdpp Require Import gmap strings list fin_maps.
From Stdlib Require Import ZArith Lia Sorted.

Local Open Scope Z_scope.

(** ** Data *)

(** An operation as the document hands it to this module: [op] is [None]
    for a create or a delete, [src] is the id of the client it comes from
    (absent for an operation of this client), [time] is when it was
    applied. *)
Module Op.
Record t (OT : Type) : Type := mk {
    op : option OT;
    src : option string;
    time : Z
  }.
Arguments mk {OT}.
Arguments op {OT}.
Arguments src {OT}.
Arguments time {OT}.
End Op.

(** A presence message. The object that arrives from the server is the very
    object stored in [presence.received], where [processedAt] is written
    into it later. A message without [src] is the acknowledgment of this
    client's own submission. *)
Module Envelope.
Record t (Data : Type) : Type := mk {
    seq : Z;
    src : option string;
    v : option Z;
    p : option Data;
    r : bool;
    processedAt : option Z
  }.
Arguments mk {Data}.
Arguments seq {Data}.
Arguments src {Data}.
Arguments v {Data}.
Arguments p {Data}.
Arguments r {Data}.
Arguments processedAt {Data}.

(** [presence.processedAt = now] *)
Definition set_processedAt {Data} (now : Z) (e : t Data) : t Data :=
    mk (seq e) (src e) (v e) (p e) (r e) (Some now).
End Envelope.

(** The presence capabilities of a document type; each one is optional. *)
Module PType.
Record t (Data OT : Type) : Type := mk {
    createPresence : option (Data -> option Data);
    transformPresence : option (option Data -> option OT -> bool -> option Data);
    comparePresence : option (option Data -> Data -> bool)
  }.
Arguments mk {Data OT}.
Arguments createPresence {Data OT}.
Arguments transformPresence {Data OT}.
Arguments comparePresence {Data OT}.
End PType.

Module ShareDBError.
Record t : Type := mk { code : Z; message : string }.
End ShareDBError.

(** The value of [doc.presence]. *)
Module Presence.
Record t (Data OT Callback : Type) : Type := mk {
    current : gmap string Data;
    received : gmap string (Envelope.t Data);
    receivedTimeout : Z;
    requestReply : bool;
    cachedOps : list (Op.t OT);
    cachedOpsTimeout : Z;
    inflightSeq : Z;
    pending : option (list Callback);
    inflight : option (list Callback)
  }.
Arguments mk {Data OT Callback}.
Arguments current {Data OT Callback}.
Arguments received {Data OT Callback}.
Arguments receivedTimeout {Data OT Callback}.
Arguments requestReply {Data OT Callback}.
Arguments cachedOps {Data OT Callback}.
Arguments cachedOpsTimeout {Data OT Callback}.
Arguments inflightSeq {Data OT Callback}.
Arguments pending {Data OT Callback}.
Arguments inflight {Data OT Callback}.

Section Setters.
Context {Data OT Callback : Type}.
#[local] Abbreviation t := (t Data OT Callback).

Definition set_current (x : gmap string Data) (s : t) : t :=
      mk x (received s) (receivedTimeout s) (requestReply s) (cachedOps s)
         (cachedOpsTimeout s) (inflightSeq s) (pending s) (inflight s).
Definition set_received (x : gmap string (Envelope.t Data)) (s : t) : t :=
      mk (current s) x (receivedTimeout s) (requestReply s) (cachedOps s)
         (cachedOpsTimeout s) (inflightSeq s) (pending s) (inflight s).
Definition set_requestReply (x : bool) (s : t) : t :=
      mk (current s) (received s) (receivedTimeout s) x (cachedOps s)
         (cachedOpsTimeout s) (inflightSeq s) (pending s) (inflight s).
Definition set_cachedOps (x : list (Op.t OT)) (s : t) : t :=
      mk (current s) (received s) (receivedTimeout s) (requestReply s) x
         (cachedOpsTimeout s) (inflightSeq s) (pending s) (inflight s).
Definition set_inflightSeq (x : Z) (s : t) : t :=
      mk (current s) (received s) (receivedTimeout s) (requestReply s)
         (cachedOps s) (cachedOpsTimeout s) x (pending s) (inflight s).
Definition set_pending (x : option (list Callback)) (s : t) : t :=
      mk (current s) (received s) (receivedTimeout s) (requestReply s)
         (cachedOps s) (cachedOpsTimeout s) (inflightSeq s) x (inflight s).
Definition set_inflight (x : option (list Callback)) (s : t) : t :=
      mk (current s) (received s) (receivedTimeout s) (requestReply s)
         (cachedOps s) (cachedOpsTimeout s) (inflightSeq s) (pending s) x.
End Setters.
End Presence.

(** What the module hands to [process.nextTick]. *)
Inductive Task (Callback : Type) : Type :=
  (* function() { if (callback) return callback(err); doc.emit('error', err); } *)
  | TFail (callback : option Callback) (err : ShareDBError.t)
  (* callback *)
  | TCallback (callback : Callback)
  (* this.flush.bind(this) *)
  | TFlush
  (* function() { doc.emit('presence', srcList, submitted); } *)
  | TEmitPresence (srcList : list string) (submitted : bool).
Arguments TFail {Callback}.
Arguments TCallback {Callback}.
Arguments TFlush {Callback}.
Arguments TEmitPresence {Callback}.

(** The calls that leave the module, in the order they are made. *)
Inductive Event (Data Callback : Type) : Type :=
  (* callback(err) *)
  | ECall (callback : Callback) (err : option ShareDBError.t)
  (* doc.emit('error', err) *)
  | EEmitError (err : ShareDBError.t)
  (* doc.emit('presence', srcList, submitted) *)
  | EEmitPresenceEvent (srcList : list string) (submitted : bool)
  (* this.connection.sendPresence(this, data, requestReply) *)
  | ESendPresence (data : option Data) (requestReply : bool)
  (* this.fetch() *)
  | EFetch
  (* this._emitNothingPending() *)
  | EEmitNothingPending.
Arguments ECall {Data Callback}.
Arguments EEmitError {Data Callback}.
Arguments EEmitPresenceEvent {Data Callback}.
Arguments ESendPresence {Data Callback}.
Arguments EFetch {Data Callback}.
Arguments EEmitNothingPending {Data Callback}.

(** The document, as far as this module reads and writes it, together with
    the sequence counter of its connection, the [nextTick] queue and the
    log of outgoing calls. *)
Module Doc.
Record t (Data OT Callback : Type) : Type := mk {
    collection : string;
    id : string;
    type : option (PType.t Data OT);
    version : option Z;
    inflightOp : option (Op.t OT);
    pendingOps : list (Op.t OT);
    subscribed : bool;
    presence : option (Presence.t Data OT Callback);
    connection_seq : Z;
    nextTick : list (Task Callback);
    events : list (Event Data Callback)
  }.
Arguments mk {Data OT Callback}.
Arguments collection {Data OT Callback}.
Arguments id {Data OT Callback}.
Arguments type {Data OT Callback}.
Arguments version {Data OT Callback}.
Arguments inflightOp {Data OT Callback}.
Arguments pendingOps {Data OT Callback}.
Arguments subscribed {Data OT Callback}.
Arguments presence {Data OT Callback}.
Arguments connection_seq {Data OT Callback}.
Arguments nextTick {Data OT Callback}.
Arguments events {Data OT Callback}.

Section Setters.
Context {Data OT Callback : Type}.
#[local] Abbreviation t := (t Data OT Callback).

Definition set_presence (x : option (Presence.t Data OT Callback)) (d : t) : t :=
      mk (collection d) (id d) (type d) (version d) (inflightOp d)
         (pendingOps d) (subscribed d) x (connection_seq d) (nextTick d)
         (events d).
Definition set_connection_seq (x : Z) (d : t) : t :=
      mk (collection d) (id d) (type d) (version d) (inflightOp d)
         (pendingOps d) (subscribed d) (presence d) x (nextTick d) (events d).
Definition set_nextTick (x : list (Task Callback)) (d : t) : t :=
      mk (collection d) (id d) (type d) (version d) (inflightOp d)
         (pendingOps d) (subscribed d) (presence d) (connection_seq d) x
         (events d).
Definition set_events (x : list (Event Data Callback)) (d : t) : t :=
      mk (collection d) (id d) (type d) (version d) (inflightOp d)
         (pendingOps d) (subscribed d) (presence d) (connection_seq d)
         (nextTick d) x.
End Setters.
End Doc.


(** ** Sample documents

    A document type whose presence is a cursor position: an operation
    inserts [n] characters in front of the cursors of the other clients and
    leaves the cursor of the client that made it where it is. The documents
    below are the concrete inputs at which the properties are read off. *)
Module Sample.
Definition shift (data : option Z) (op : option Z) (isOwnOperation : bool)
  : option Z :=
  match data, op with
  | Some cursor, Some inserted =>
      Some (if isOwnOperation then cursor else cursor + inserted)
  | _, _ => data
  end.

Definition textType : PType.t Z Z :=
  PType.mk (Some (fun raw => Some raw)) (Some shift) None.

(** A type without presence. *)
Definition plainType : PType.t Z Z := PType.mk None None None.

(** [hasWritePending]: an operation is inflight or pending. *)
Definition hasWritePending (d : Doc.t Z Z string) : bool :=
  match Doc.inflightOp d, Doc.pendingOps d with
  | None, [] => false
  | _, _ => true
  end.

(** [sendPresence] numbers the message and advances the counter. *)
Definition sendPresence_seq (seq : Z) : Z := seq + 1.

Definition presenceWith (current : gmap string Z)
    (received : gmap string (Envelope.t Z)) (cachedOps : list (Op.t Z))
    (inflightSeq : Z) (pending inflight : option (list string))
  : Presence.t Z Z string :=
  Presence.mk current received 60000 false cachedOps 60000 inflightSeq
    pending inflight.

Definition docWith (type : option (PType.t Z Z)) (version : option Z)
    (inflightOp : option (Op.t Z)) (pendingOps : list (Op.t Z))
    (subscribed : bool) (presence : Presence.t Z Z string)
  : Doc.t Z Z string :=
  Doc.mk "notes" "n1" type version inflightOp pendingOps subscribed
    (Some presence) 7 [] [].

(** A message of client B: sequence 1, captured at version 2, cursor 40. *)
Definition fromB : Envelope.t Z :=
  Envelope.mk 1 (Some "B") (Some 2) (Some 40) false None.

(** The same sequence, version null: the server withdraws B. *)
Definition withdrawB : Envelope.t Z :=
  Envelope.mk 1 (Some "B") None None false None.

(** An older message of B. *)
Definition staleB : Envelope.t Z :=
  Envelope.mk 0 (Some "B") (Some 1) (Some 30) false None.

(** B withdraws its presence at version 2. *)
Definition clearB : Envelope.t Z :=
  Envelope.mk 1 (Some "B") (Some 2) None false None.

(** An error of the protocol. *)
Definition protocolError : ShareDBError.t :=
  ShareDBError.mk 4000 "Invalid or unknown message".

(** The acknowledgment of the submission numbered 7. *)
Definition ack7 : Envelope.t Z := Envelope.mk 7 None None None false None.

(** Operations: A inserted 1 character at time 10, B inserted 2 at time 20. *)
Definition opA : Op.t Z := Op.mk (Some 1) (Some "A") 10.
Definition opB : Op.t Z := Op.mk (Some 2) (Some "B") 20.
(** Local operations, one inflight and one pending. *)
Definition opInflight : Op.t Z := Op.mk (Some 10) None 30.
Definition opPending : Op.t Z := Op.mk (Some 100) None 40.
(** A delete of the document by A. *)
Definition opDel : Op.t Z := Op.mk None (Some "A") 20.

(** The document at version 3 with [fromB] waiting for reconciliation. *)
Definition psReconcile : Presence.t Z Z string :=
  presenceWith ∅ {[ "B" := fromB ]} [opA; opB] 0 None None.

Definition docReconcile : Doc.t Z Z string :=
  docWith (Some textType) (Some 3) (Some opInflight) [opPending] true
    psReconcile.

(** A message of B captured at version 1, before the operation of A: the
    slice of the cache that bridges it holds an operation of A and one of
    B itself. The cursor of B is at 30 so far. *)
Definition earlyB : Envelope.t Z :=
  Envelope.mk 1 (Some "B") (Some 1) (Some 40) false None.

Definition psBridge : Presence.t Z Z string :=
  presenceWith {[ "B" := 30 ]} {[ "B" := earlyB ]} [opA; opB] 0 None None.

Definition docBridge : Doc.t Z Z string :=
  docWith (Some textType) (Some 3) (Some opInflight) [opPending] true
    psBridge.

(** The same, still at version 1. *)
Definition psBehind : Presence.t Z Z string :=
  presenceWith {[ "B" := 30 ]} {[ "B" := fromB ]} [] 0 None None.

Definition docBehind : Doc.t Z Z string :=
  docWith (Some textType) (Some 1) None [] true psBehind.

(** Still at version 1, with the withdrawal of B of version 2 waiting. *)
Definition psBehindWithdrawn : Presence.t Z Z string :=
  presenceWith {[ "B" := 30 ]} {[ "B" := clearB ]} [] 0 None None.

Definition docBehindWithdrawn : Doc.t Z Z string :=
  docWith (Some textType) (Some 1) None [] true psBehindWithdrawn.

(** At version 3, B withdrew. *)
Definition psWithdrawn : Presence.t Z Z string :=
  presenceWith {[ "B" := 30 ]} {[ "B" := clearB ]} [opA; opB] 0 None None.

Definition docWithdrawn : Doc.t Z Z string :=
  docWith (Some textType) (Some 3) None [] true psWithdrawn.

(** At version 3, the cached operation that bridges version 2 is a delete. *)
Definition psStructural : Presence.t Z Z string :=
  presenceWith {[ "B" := 30 ]} {[ "B" := fromB ]} [opA; opDel] 0 None None.

Definition docStructural : Doc.t Z Z string :=
  docWith (Some textType) (Some 3) None [] true psStructural.

(** [fromB] was processed at time 50000, when the document was at version
    8; the operations of then have left the cache since, the document is at
    version 9 and the cursor of B is at 40. *)
Definition psProcessed : Presence.t Z Z string :=
  presenceWith {[ "B" := 40 ]}
    {[ "B" := Envelope.set_processedAt 50000 fromB ]}
    [Op.mk (Some 1) (Some "A") 70000] 0 None None.

Definition docProcessed : Doc.t Z Z string :=
  docWith (Some textType) (Some 9) None [] true psProcessed.

(** A subscribed document that knows [fromB]. *)
Definition psSubscribed : Presence.t Z Z string :=
  presenceWith {[ "B" := 40 ]}
    {[ "B" := Envelope.set_processedAt 100 fromB ]} [opA; opB] 0 None None.

Definition docSubscribed : Doc.t Z Z string :=
  docWith (Some textType) (Some 3) None [] true psSubscribed.

(** A document that is not subscribed, with a submission inflight. *)
Definition psUnsubscribed : Presence.t Z Z string :=
  presenceWith {[ "" := 5 ]} ∅ [] 7 None (Some ["cb"]).

Definition docUnsubscribed : Doc.t Z Z string :=
  docWith (Some textType) (Some 3) None [] false psUnsubscribed.

(** A document that was not created yet; the local presence is 5. *)
Definition psNotCreated : Presence.t Z Z string :=
  presenceWith {[ "" := 5 ]} ∅ [] 0 None None.

Definition docNotCreated : Doc.t Z Z string :=
  docWith None None None [] true psNotCreated.

(** A document whose type has no presence. *)
Definition psPlain : Presence.t Z Z string :=
  presenceWith ∅ ∅ [] 0 None None.

Definition docPlain : Doc.t Z Z string :=
  docWith (Some plainType) (Some 3) None [] true psPlain.

(** A submission is inflight under sequence 7, another one is pending. *)
Definition psInflight : Presence.t Z Z string :=
  presenceWith {[ "" := 5; "B" := 9 ]} {[ "B" := fromB ]} [opA; opB] 7
    (Some ["cb2"]) (Some ["cb1"]).

Definition docInflight : Doc.t Z Z string :=
  docWith (Some textType) (Some 3) None [] true psInflight.

(** The cache holds an entry stamped before the one in front of it. *)
Definition psClockStepped : Presence.t Z Z string :=
  presenceWith ∅ ∅
    [Op.mk (Some 1) (Some "A") 150000; Op.mk (Some 2) (Some "B") 100000]
    0 None None.

Definition docClockStepped : Doc.t Z Z string :=
  docWith (Some textType) (Some 3) None [] true psClockStepped.

(** The cache in the order of the timestamps. *)
Definition psCached : Presence.t Z Z string :=
  presenceWith ∅ ∅
    [Op.mk (Some 1) (Some "A") 100000; Op.mk (Some 2) (Some "B") 150000]
    0 None None.

Definition docCached : Doc.t Z Z string :=
  docWith (Some textType) (Some 3) None [] true psCached.

(** The local presence is 5 and a submission is pending; nothing is
    inflight. *)
Definition psPending : Presence.t Z Z string :=
  presenceWith {[ "" := 5 ]} ∅ [] 0 (Some ["cb"]) None.

Definition docPending : Doc.t Z Z string :=
  docWith (Some textType) (Some 3) None [] true psPending.

(** A presence state as [_initializePresence] makes it, in a subscribed
    document. *)
Definition psNew : Presence.t Z Z string :=
  Presence.mk ∅ ∅ 60000 true [] 60000 0 None None.

Definition docNew : Doc.t Z Z string :=
  docWith (Some textType) (Some 3) None [] true psNew.

(** A message of B that is ahead of the document: sequence 2, version 5. *)
Definition aheadB : Envelope.t Z :=
  Envelope.mk 2 (Some "B") (Some 5) (Some 50) false None.

(** Operations that arrive at the times 200000 and 230000. *)
Definition opLate : Op.t Z := Op.mk (Some 3) (Some "A") 200000.
Definition opLater : Op.t Z := Op.mk (Some 4) (Some "B") 230000.
End Sample.

(** ** The module *)

Section Model.
Context {Data OT Callback : Type} `{!EqDecision Data}.

#[local] Abbreviation presence_state := (Presence.t Data OT Callback).
#[local] Abbreviation doc := (Doc.t Data OT Callback).

(** [doc.hasWritePending()] is a method of the document, defined outside
    this module: it is a parameter of the model. *)
Variable hasWritePending : doc -> bool.

(** [connection.sendPresence] is a method of the connection, defined
    outside this module; what it does to [connection.seq] is a parameter of
    the model. *)
Variable sendPresence_seq : Z -> Z.

(** *** Outcomes and the state monad of the module *)

Inductive Outcome (A : Type) : Type :=
  | Return (a : A) (d : doc)
  | Throw (d : doc).
Arguments Return {A}.
Arguments Throw {A}.

Definition state_of {A} (o : Outcome A) : doc :=
  match o with Return _ d => d | Throw d => d end.

Definition M (A : Type) : Type := doc -> Outcome A.

Definition ret {A} (a : A) : M A := fun d => Return a d.

Definition bind {A B} (m : M A) (f : A -> M B) : M B :=
  fun d => match m d with Return a d' => f a d' | Throw d' => Throw d' end.

Notation "'let*' x ':=' m 'in' k" := (bind m (fun x => k))
  (at level 10, x name, m at level 100, k at level 200, only parsing).
Notation "m ';;;' k" := (bind m (fun _ => k))
  (at level 100, k at level 200, right associativity, only parsing).

Definition throw {A} : M A := fun d => Throw d.

Definition get : M doc := fun d => Return d d.

(** Reading [this.presence.x]: a [TypeError] when [this.presence] is not
    there. *)
Definition getPresence : M presence_state :=
  fun d => match Doc.presence d with
           | Some ps => Return ps d
           | None => Throw d
           end.

(** Writing [this.presence.x = ...]. *)
Definition modifyPresence (f : presence_state -> presence_state) : M unit :=
  let* ps := getPresence in
  fun d => Return tt (Doc.set_presence (Some (f ps)) d).

(** [process.nextTick(task)] *)
Definition defer (task : Task Callback) : M unit :=
  fun d => Return tt (Doc.set_nextTick (Doc.nextTick d ++ [task]) d).

(** A call that leaves the module. *)
Definition outgoing (e : Event Data Callback) : M unit :=
  fun d => Return tt (Doc.set_events (Doc.events d ++ [e]) d).

(** The loop
    [for (i...) { var src = srcList[i]; if (f(src)) changedSrcList.push(src); }] *)
Fixpoint collectChanged (f : string -> M bool) (srcList : list string)
  : M (list string) :=
  match srcList with
  | [] => ret []
  | src :: rest =>
      let* changed := f src in
      let* changedSrcList := collectChanged f rest in
      ret (if changed then src :: changedSrcList else changedSrcList)
  end.

(** [Object.keys(map)] *)
Definition keys {V} (m : gmap string V) : list string := (map_to_list m).*1.

(** *** [_emitPresence] and [_setPresence] *)

Definition _emitPresence (srcList : list string) (submitted : bool) : M unit :=
  match srcList with
  | [] => ret tt
  | _ :: _ => defer (TEmitPresence srcList submitted)
  end.

Definition _setPresence (src : string) (data : option Data) (emit : bool)
  : M bool :=
  match data with
  | None =>
      let* ps := getPresence in
      match Presence.current ps !! src with
      | None => ret false
      | Some _ =>
          modifyPresence (fun ps =>
            Presence.set_current (delete src (Presence.current ps)) ps) ;;;
          (if emit then _emitPresence [src] true else ret tt) ;;;
          ret true
      end
  | Some data =>
      let* ps := getPresence in
      let cur := Presence.current ps !! src in
      let* isPresenceEqual :=
        if bool_decide (cur = Some data) then ret true
        else
          let* d := get in
          match Doc.type d with
          | None => throw
          | Some type =>
              match PType.comparePresence type with
              | None => ret false
              | Some comparePresence => ret (comparePresence cur data)
              end
          end in
      if isPresenceEqual then ret false
      else
        modifyPresence (fun ps =>
          Presence.set_current (<[src := data]> (Presence.current ps)) ps) ;;;
        (if emit then _emitPresence [src] true else ret tt) ;;;
        ret true
  end.

(** *** [submitPresence] *)

Definition submitPresence (data : option Data) (callback : option Callback)
  : M unit :=
  let* this := get in
  let continue (data : option Data) : M unit :=
    let* changed := _setPresence "" data true in
    let* ps := getPresence in
    (if changed || bool_decide (is_Some (Presence.pending ps))
                || bool_decide (is_Some (Presence.inflight ps))
     then
       (match Presence.pending ps with
        | None => modifyPresence (Presence.set_pending (Some []))
        | Some _ => ret tt
        end) ;;;
       match callback with
       | Some cb =>
           modifyPresence (fun ps =>
             Presence.set_pending (Some (default [] (Presence.pending ps) ++ [cb])) ps)
       | None => ret tt
       end
     else
       match callback with
       | Some cb => defer (TCallback cb)
       | None => ret tt
       end) ;;;
    defer TFlush in
  match data with
  | Some raw =>
      match Doc.type this with
      | None =>
          defer (TFail callback
            (ShareDBError.mk 4015
               ("Cannot submit presence. Document has not been created. "
                  +:+ Doc.collection this +:+ "." +:+ Doc.id this)))
      | Some type =>
          match PType.createPresence type, PType.transformPresence type with
          | Some createPresence, Some _ => continue (createPresence raw)
          | _, _ =>
              defer (TFail callback
                (ShareDBError.mk 4027
                   ("Cannot submit presence. Document's type does not support presence. "
                      +:+ Doc.collection this +:+ "." +:+ Doc.id this)))
          end
      end
  | None => continue None
  end.

(** *** [flush] *)

Definition flush : M unit :=
  let* this := get in
  if Doc.subscribed this then
    let* ps := getPresence in
    match Presence.inflight ps, Presence.pending ps with
    | None, Some _ =>
        if hasWritePending this then ret tt
        else
          modifyPresence (fun ps => Presence.set_inflight (Presence.pending ps) ps) ;;;
          modifyPresence (Presence.set_inflightSeq (Doc.connection_seq this)) ;;;
          modifyPresence (Presence.set_pending None) ;;;
          (let* ps := getPresence in
           outgoing (ESendPresence (Presence.current ps !! "")
                                   (Presence.requestReply ps))) ;;;
          (fun d => Return tt
             (Doc.set_connection_seq (sendPresence_seq (Doc.connection_seq d)) d)) ;;;
          modifyPresence (Presence.set_requestReply false)
    | _, _ => ret tt
    end
  else ret tt.

(** *** [_processReceivedPresence] *)

(** [x == null] *)
Definition is_null {A} (x : option A) : bool :=
  match x with None => true | Some _ => false end.

(** The number an optional version stands for in a comparison or a
    subtraction: [null] reads as [0]. A message whose version is absent is
    marked processed by [_handlePresence] as soon as it is stored, so the
    arithmetic below meets it only in an entry written by other means. *)
Definition to_number (x : option Z) : Z := default 0 x.

(** Marks [received[src]], the object [presence], processed at [now]. *)
Definition markProcessed (now : Z) (src : string) (presence : Envelope.t Data)
  : M unit :=
  modifyPresence (fun ps =>
    Presence.set_received
      (<[src := Envelope.set_processedAt now presence]> (Presence.received ps)) ps).

Definition _processReceivedPresence (now : Z) (src : string) (emit : bool)
  : M bool :=
  if bool_decide (src = "") then ret false
  else
    let* ps := getPresence in
    match Presence.received ps !! src with
    | None => ret false
    | Some presence =>
        match Envelope.processedAt presence with
        | Some processedAt =>
            (if now >=? processedAt + Presence.receivedTimeout ps
             then modifyPresence (fun ps =>
                    Presence.set_received (delete src (Presence.received ps)) ps)
             else ret tt) ;;;
            ret false
        | None =>
            let* this := get in
            let reject : M bool :=
              markProcessed now src presence ;;; _setPresence src None emit in
            match Doc.version this with
            | None => ret false
            | Some version =>
                if version <? to_number (Envelope.v presence) then ret false
                else
                  match Envelope.p presence, Doc.type this with
                  | None, _ => reject
                  | Some _, None => reject
                  | Some p, Some type =>
                      match PType.createPresence type,
                            PType.transformPresence type with
                      | Some createPresence, Some transformPresence =>
                          if match Doc.inflightOp this with
                             | Some inflightOp => is_null (Op.op inflightOp)
                             | None => false
                             end
                          then reject
                          else if existsb (fun o => is_null (Op.op o))
                                          (Doc.pendingOps this)
                          then reject
                          else
                            let cachedOps := Presence.cachedOps ps in
                            let startIndex :=
                              Z.of_nat (length cachedOps)
                              - (version - to_number (Envelope.v presence)) in
                            if startIndex <? 0 then reject
                            else
                              let past := drop (Z.to_nat startIndex) cachedOps in
                              if existsb (fun o => is_null (Op.op o)) past
                              then reject
                              else
                                let data := createPresence p in
                                let data :=
                                  foldl (fun data o =>
                                    transformPresence data (Op.op o)
                                      (bool_decide (Envelope.src presence = Op.src o)))
                                    data past in
                                let data :=
                                  match Doc.inflightOp this with
                                  | Some inflightOp =>
                                      transformPresence data (Op.op inflightOp) false
                                  | None => data
                                  end in
                                let data :=
                                  foldl (fun data o =>
                                    transformPresence data (Op.op o) false)
                                    data (Doc.pendingOps this) in
                                markProcessed now src presence ;;;
                                _setPresence src data emit
                      | _, _ => reject
                      end
                  end
            end
        end
    end.

Definition _processAllReceivedPresence (now_of : string -> Z) : M unit :=
  let* this := get in
  match Doc.presence this with
  | None => ret tt
  | Some ps =>
      let srcList := keys (Presence.received ps) in
      let* changedSrcList :=
        collectChanged (fun src => _processReceivedPresence (now_of src) src false)
                       srcList in
      _emitPresence changedSrcList true
  end.

(** *** [_handlePresence] *)

(** Modelled from the spec: [doc._callEach(callbacks, err)] is a method of
    the document, defined outside this module. It invokes every
    continuation of the batch with the error the acknowledgment carries and
    tells whether there was one to invoke. *)
Definition _callEach (callbacks : list Callback) (err : option ShareDBError.t)
  : M bool :=
  fun d =>
    Return (match callbacks with [] => false | _ :: _ => true end)
           (Doc.set_events
              (Doc.events d ++ map (fun cb => ECall cb err) callbacks) d).

(** [!src] *)
Definition no_src (src : option string) : bool :=
  match src with
  | None => true
  | Some s => bool_decide (s = "")
  end.

Definition _handlePresence (now : Z) (err : option ShareDBError.t)
    (presence : Envelope.t Data) : M unit :=
  let* this := get in
  if negb (Doc.subscribed this) then ret tt
  else if no_src (Envelope.src presence) then
    let* ps := getPresence in
    if Presence.inflightSeq ps =? Envelope.seq presence then
      let callbacks := Presence.inflight ps in
      modifyPresence (Presence.set_inflight None) ;;;
      modifyPresence (Presence.set_inflightSeq 0) ;;;
      let* called :=
        match callbacks with
        | Some callbacks => _callEach callbacks err
        | None => ret false
        end in
      (match err with
       | Some e => if called then ret tt else outgoing (EEmitError e)
       | None => ret tt
       end) ;;;
      flush ;;;
      outgoing EEmitNothingPending
    else ret tt
  else
    let src := default "" (Envelope.src presence) in
    match err with
    | Some e => outgoing (EEmitError e)
    | None =>
        (let* ps := getPresence in
         if Envelope.r presence && is_null (Presence.pending ps) then
           modifyPresence (Presence.set_pending (Some [])) ;;;
           flush
         else ret tt) ;;;
        let* ps := getPresence in
        if match Presence.received ps !! src with
           | Some old =>
               (Envelope.seq old >? Envelope.seq presence)
               || ((Envelope.seq old =? Envelope.seq presence)
                   && negb (is_null (Envelope.v presence)))
           | None => false
           end
        then ret tt
        else
          modifyPresence (fun ps =>
            Presence.set_received (<[src := presence]> (Presence.received ps)) ps) ;;;
          match Envelope.v presence with
          | None =>
              markProcessed now src presence ;;;
              _setPresence src None true ;;;
              ret tt
          | Some v =>
              let* this := get in
              if match Doc.version this with
                 | None => true
                 | Some version => version <? v
                 end
              then outgoing EFetch
              else
                _processReceivedPresence now src true ;;;
                ret tt
          end
    end.

(** *** [_transformPresence] and [_transformAllPresence] *)

Definition _transformPresence (src : string) (op : Op.t OT) : M bool :=
  let* ps := getPresence in
  let presenceData := Presence.current ps !! src in
  let* presenceData :=
    match Op.op op with
    | Some _ =>
        let isOwnOperation := bool_decide (src = default "" (Op.src op)) in
        let* this := get in
        match Doc.type this with
        | None => throw
        | Some type =>
            match PType.transformPresence type with
            | None => throw
            | Some transformPresence =>
                ret (transformPresence presenceData (Op.op op) isOwnOperation)
            end
        end
    | None => ret None
    end in
  _setPresence src presenceData false.

Definition _transformAllPresence (op : Op.t OT) : M unit :=
  let* this := get in
  match Doc.presence this with
  | None => ret tt
  | Some ps =>
      let srcList := keys (Presence.current ps) in
      let* changedSrcList :=
        collectChanged (fun src => _transformPresence src op) srcList in
      _emitPresence changedSrcList false
  end.

(** *** [pause] *)

Definition pause : M unit :=
  let* this := get in
  match Doc.presence this with
  | None => ret tt
  | Some ps =>
      (match Presence.inflight ps with
       | Some inflight =>
           modifyPresence (Presence.set_pending
             (match Presence.pending ps with
              | Some pending => Some (inflight ++ pending)
              | None => Some inflight
              end)) ;;;
           modifyPresence (Presence.set_inflight None) ;;;
           modifyPresence (Presence.set_inflightSeq 0)
       | None =>
           if is_null (Presence.pending ps)
              && negb (is_null (Presence.current ps !! ""))
           then modifyPresence (Presence.set_pending (Some []))
           else ret tt
       end) ;;;
      modifyPresence (Presence.set_received ∅) ;;;
      modifyPresence (Presence.set_requestReply true) ;;;
      let* ps := getPresence in
      let srcList := keys (Presence.current ps) in
      let* changedSrcList :=
        collectChanged (fun src =>
          if bool_decide (src = "") then ret false
          else _setPresence src None false) srcList in
      _emitPresence changedSrcList false
  end.

(** *** [_cacheOp] *)

(** The index where the loop
    [for (i = 0; i < cachedOps.length; i++) if (cachedOps[i].time >= oldOpTime) break;]
    stops. *)
Fixpoint firstFresh (oldOpTime : Z) (cachedOps : list (Op.t OT)) : nat :=
  match cachedOps with
  | [] => 0%nat
  | o :: rest =>
      if Op.time o >=? oldOpTime then 0%nat else S (firstFresh oldOpTime rest)
  end.

Definition _cacheOp (now : Z) (op : Op.t OT) : M unit :=
  let* this := get in
  match Doc.presence this with
  | None => ret tt
  | Some ps =>
      let oldOpTime := now - Presence.cachedOpsTimeout ps in
      let i := firstFresh oldOpTime (Presence.cachedOps ps) in
      (if (0 <? i)%nat then
         modifyPresence (fun ps =>
           Presence.set_cachedOps (drop i (Presence.cachedOps ps)) ps)
       else ret tt) ;;;
      modifyPresence (fun ps =>
        Presence.set_cachedOps (Presence.cachedOps ps ++ [op]) ps)
  end.

(** *** [destroy] and [_hardRollbackPresence] *)

Definition destroy : M unit :=
  modifyPresence (Presence.set_received ∅) ;;;
  modifyPresence (Presence.set_cachedOps []).

Definition _hardRollbackPresence : M (list (list Callback)) :=
  let* ps := getPresence in
  let pendingPresence :=
    match Presence.inflight ps with Some inflight => [inflight] | None => [] end
    ++ match Presence.pending ps with Some pending => [pending] | None => [] end in
  modifyPresence (Presence.set_inflight None) ;;;
  modifyPresence (Presence.set_inflightSeq 0) ;;;
  modifyPresence (Presence.set_pending None) ;;;
  modifyPresence (Presence.set_cachedOps []) ;;;
  modifyPresence (Presence.set_received ∅) ;;;
  modifyPresence (Presence.set_requestReply true) ;;;
  let* ps := getPresence in
  let srcList := keys (Presence.current ps) in
  let* changedSrcList :=
    collectChanged (fun src => _setPresence src None false) srcList in
  _emitPresence changedSrcList false ;;;
  ret pendingPresence.

(** *** The deferred work *)

Definition runTask (task : Task Callback) : M unit :=
  match task with
  | TFail (Some callback) err => outgoing (ECall callback (Some err))
  | TFail None err => outgoing (EEmitError err)
  | TCallback callback => outgoing (ECall callback None)
  | TFlush => flush
  | TEmitPresence srcList submitted =>
      outgoing (EEmitPresenceEvent srcList submitted)
  end.

(** [_initializePresence] *)
Definition _initializePresence : presence_state :=
  Presence.mk ∅ ∅ 60000 true [] 60000 0 None None.

(** *** States reached, written out *)

(** The document with [ps] as its presence state. *)
Definition withPresence (ps : presence_state) (d : doc) : doc :=
  Doc.set_presence (Some ps) d.

(** The document after the [tasks] were handed to [process.nextTick]. *)
Definition withTicks (tasks : list (Task Callback)) (d : doc) : doc :=
  Doc.set_nextTick (Doc.nextTick d ++ tasks) d.

(** The presence state after [received[src]], the entry [e], was marked
    processed at [now] and [current[src]] was cleared. *)
Definition cleared (now : Z) (src : string) (e : Envelope.t Data)
    (ps : presence_state) : presence_state :=
  Presence.set_current (delete src (Presence.current ps))
    (Presence.set_received
       (<[src := Envelope.set_processedAt now e]> (Presence.received ps)) ps).

(** The outcome of marking [received[src]] processed and clearing
    [current[src]] through [_setPresence(src, null, emit)]. *)
Definition rejected (now : Z) (src : string) (emit : bool)
    (e : Envelope.t Data) (ps : presence_state) (d : doc) : Outcome bool :=
  Return (bool_decide (is_Some (Presence.current ps !! src)))
    (withTicks
       (if emit && bool_decide (is_Some (Presence.current ps !! src))
        then [TEmitPresence [src] true] else [])
       (withPresence (cleared now src e ps) d)).

(** The document type is not there or lacks [createPresence] or
    [transformPresence]. *)
Definition lacksPresence (d : doc) : Prop :=
  match Doc.type d with
  | None => True
  | Some type =>
      PType.createPresence type = None \/ PType.transformPresence type = None
  end.

(** [keeps g m]: running [m] leaves the part [g] of the presence state as
    it was, also when [m] throws. *)
Definition keeps {X A} (g : presence_state -> X) (m : M A) : Prop :=
  forall d, g <$> Doc.presence (state_of (m d)) = g <$> Doc.presence d.

(** The handshake part of the presence state. *)
Definition handshake (ps : presence_state) : option (list Callback) * Z :=
  (Presence.inflight ps, Presence.inflightSeq ps).

(** [inflightSeq == 0] if and only if [inflight] is absent. *)
Definition handshake_ok (d : doc) : Prop :=
  forall ps, Doc.presence d = Some ps ->
    Presence.inflightSeq ps = 0 <-> Presence.inflight ps = None.

(** The operations of the module, as the document and the event loop call
    them. *)
Inductive Call : Type :=
  | CSubmitPresence (data : option Data) (callback : option Callback)
  | CHandlePresence (now : Z) (err : option ShareDBError.t)
      (presence : Envelope.t Data)
  | CProcessReceivedPresence (now : Z) (src : string) (emit : bool)
  | CProcessAllReceivedPresence (now_of : string -> Z)
  | CTransformPresence (src : string) (op : Op.t OT)
  | CTransformAllPresence (op : Op.t OT)
  | CPause
  | CSetPresence (src : string) (data : option Data) (emit : bool)
  | CEmitPresence (srcList : list string) (submitted : bool)
  | CCacheOp (now : Z) (op : Op.t OT)
  | CFlush
  | CDestroy
  | CHardRollbackPresence
  | CRunTask (task : Task Callback).

Definition call (c : Call) : M unit :=
  match c with
  | CSubmitPresence data callback => submitPresence data callback
  | CHandlePresence now err presence => _handlePresence now err presence
  | CProcessReceivedPresence now src emit =>
      _processReceivedPresence now src emit ;;; ret tt
  | CProcessAllReceivedPresence now_of => _processAllReceivedPresence now_of
  | CTransformPresence src op => _transformPresence src op ;;; ret tt
  | CTransformAllPresence op => _transformAllPresence op
  | CPause => pause
  | CSetPresence src data emit => _setPresence src data emit ;;; ret tt
  | CEmitPresence srcList submitted => _emitPresence srcList submitted
  | CCacheOp now op => _cacheOp now op
  | CFlush => flush
  | CDestroy => destroy
  | CHardRollbackPresence => _hardRollbackPresence ;;; ret tt
  | CRunTask task => runTask task
  end.

(** What [_setPresence(src, data)] leaves in [current[src]] when the value
    there was [old], for a document type [type]: a null [data] clears it; a
    [data] that is the value there, or that [comparePresence] takes for
    equal to it, leaves it; any other [data] is stored. *)
Definition afterSetPresence (type : PType.t Data OT) (old data : option Data)
  : option Data :=
  match data with
  | None => None
  | Some x =>
      if bool_decide (old = Some x)
         || match PType.comparePresence type with
            | Some comparePresence => comparePresence old x
            | None => false
            end
      then old
      else Some x
  end.

(** The continuations that wait for an acknowledgment or for a flush, the
    inflight ones first. *)
Definition outstanding (ps : presence_state) : list Callback :=
  default [] (Presence.inflight ps) ++ default [] (Presence.pending ps).

(** A run of [_cacheOp], one call per operation, each at the time given
    with it. *)
Fixpoint cacheAll (ops : list (Z * Op.t OT)) : M unit :=
  match ops with
  | [] => ret tt
  | (now, op) :: rest => _cacheOp now op ;;; cacheAll rest
  end.

(** [flush] fires: the document is subscribed, nothing is inflight, a
    batch is pending and no write is pending. *)
Definition flushFires (d : doc) (ps : presence_state) : bool :=
  Doc.subscribed d
  && is_null (Presence.inflight ps)
  && negb (is_null (Presence.pending ps))
  && negb (hasWritePending d).

(** The document after a [flush] that fired. *)
Definition flushed (d : doc) (ps : presence_state) : doc :=
  Doc.set_connection_seq (sendPresence_seq (Doc.connection_seq d))
    (Doc.set_events
       (Doc.events d
        ++ [ESendPresence (Presence.current ps !! "") (Presence.requestReply ps)])
       (withPresence
          (Presence.set_requestReply false
             (Presence.set_pending None
                (Presence.set_inflightSeq (Doc.connection_seq d)
                   (Presence.set_inflight (Presence.pending ps) ps)))) d)).

(** The document after the acknowledgment of the inflight batch was
    taken: the handshake is reset, every continuation of the batch was
    called with the error of the acknowledgment, and the error was emitted
    if there was one and no continuation to take it. *)
Definition acked (err : option ShareDBError.t) (d : doc) (ps : presence_state)
  : doc :=
  Doc.set_events
    (Doc.events d
     ++ map (fun cb => ECall cb err) (default [] (Presence.inflight ps))
     ++ match err, default [] (Presence.inflight ps) with
        | Some e, [] => [EEmitError e]
        | _, _ => []
        end)
    (withPresence
       (Presence.set_inflightSeq 0 (Presence.set_inflight None ps)) d).

(** What a reconciliation at [now] may leave for one source: [cur] and
    [rcv] are [current[src]] and [received[src]] before, [cur'] and [rcv']
    after, [timeout] is [receivedTimeout]. Nothing happens for the local
    source and for a source without an entry; a processed entry is deleted
    once [timeout] has passed and kept until then, with [current[src]] left
    alone; an entry that is not processed either waits as it is, with
    [current[src]] left alone, or is marked processed at [now]. *)
Definition reconciled (now timeout : Z) (src : string)
    (cur : option Data) (rcv : option (Envelope.t Data))
    (cur' : option Data) (rcv' : option (Envelope.t Data)) : Prop :=
  match rcv with
  | None => cur' = cur /\ rcv' = None
  | Some e =>
      if bool_decide (src = "") then cur' = cur /\ rcv' = Some e
      else
        match Envelope.processedAt e with
        | Some t =>
            cur' = cur
            /\ rcv' = if now >=? t + timeout then None else Some e
        | None =>
            (cur' = cur /\ rcv' = Some e)
            \/ rcv' = Some (Envelope.set_processedAt now e)
        end
  end.

(** The document after [_handlePresence] has dealt with the reply flag [r]
    of a message of another client: when a reply is asked for and no batch
    is pending, an empty batch is made pending and flushed. *)
Definition replied (r : bool) (d : doc) (ps : presence_state) : doc :=
  if r && is_null (Presence.pending ps) then
    let ps1 := Presence.set_pending (Some []) ps in
    let d1 := withPresence ps1 d in
    if flushFires d1 ps1 then flushed d1 ps1 else d1
  else d.

(** ** Properties *)

(** *** Running the primitives *)

Lemma set_presence_same (d : doc) ps :
  Doc.presence d = Some ps -> Doc.set_presence (Some ps) d = d.
Proof. destruct d; simpl; intros ->; reflexivity. Qed.

Lemma withTicks_nil (d : doc) : withTicks [] d = d.
Proof. destruct d; unfold withTicks; simpl. by rewrite app_nil_r. Qed.

Lemma modifyPresence_run f (d : doc) ps :
  Doc.presence d = Some ps ->
  modifyPresence f d = Return tt (withPresence (f ps) d).
Proof. intros Hps. unfold modifyPresence, bind, getPresence. by rewrite Hps. Qed.

Lemma setPresence_clear_run (d : doc) ps src emit :
  Doc.presence d = Some ps ->
  _setPresence src None emit d =
    match Presence.current ps !! src with
    | None => Return false d
    | Some _ =>
        Return true
          (withTicks (if emit then [TEmitPresence [src] true] else [])
             (withPresence
                (Presence.set_current (delete src (Presence.current ps)) ps) d))
    end.
Proof.
  intros Hps. unfold _setPresence, bind, getPresence. rewrite Hps.
  destruct (Presence.current ps !! src) as [x|]; [|reflexivity].
  rewrite (modifyPresence_run _ _ _ Hps).
  destruct emit; simpl; [reflexivity|].
  by rewrite withTicks_nil.
Qed.

Lemma collectChanged_cons (f : string -> M bool) a l (d : doc) :
  collectChanged f (a :: l) d
  = match f a d with
    | Return changed d' =>
        match collectChanged f l d' with
        | Return changedSrcList d'' =>
            Return (if changed then a :: changedSrcList else changedSrcList) d''
        | Throw d'' => Throw d''
        end
    | Throw d' => Throw d'
    end.
Proof. reflexivity. Qed.

(** *** What a computation leaves alone *)

Lemma keeps_ret {X A} (g : presence_state -> X) (a : A) : keeps g (ret a).
Proof. intros d. reflexivity. Qed.

Lemma keeps_throw {X A} (g : presence_state -> X) : keeps g (@throw A).
Proof. intros d. reflexivity. Qed.

Lemma keeps_get {X} (g : presence_state -> X) : keeps g get.
Proof. intros d. reflexivity. Qed.

Lemma keeps_getPresence {X} (g : presence_state -> X) : keeps g getPresence.
Proof.
  intros d. unfold getPresence.
  destruct (Doc.presence d) eqn:Hps; simpl; by rewrite Hps.
Qed.

Lemma keeps_bind {X A B} (g : presence_state -> X) (m : M A) (f : A -> M B) :
  keeps g m -> (forall a, keeps g (f a)) -> keeps g (bind m f).
Proof.
  intros Hm Hf d. unfold bind. specialize (Hm d).
  destruct (m d) as [a d'|d']; simpl in *; [|exact Hm].
  by rewrite Hf.
Qed.

Lemma keeps_modifyPresence {X} (g : presence_state -> X) f :
  (forall ps, g (f ps) = g ps) -> keeps g (modifyPresence f).
Proof.
  intros Hf d. unfold modifyPresence, bind, getPresence.
  destruct (Doc.presence d) as [ps|] eqn:Hps; simpl; [|by rewrite Hps].
  by rewrite Hf.
Qed.

Lemma keeps_defer {X} (g : presence_state -> X) task : keeps g (defer task).
Proof. intros d. reflexivity. Qed.

Lemma keeps_outgoing {X} (g : presence_state -> X) e : keeps g (outgoing e).
Proof. intros d. reflexivity. Qed.

Lemma keeps_callEach {X} (g : presence_state -> X) callbacks err :
  keeps g (_callEach callbacks err).
Proof. intros d. reflexivity. Qed.

Lemma keeps_collectChanged {X} (g : presence_state -> X) f l :
  (forall src, keeps g (f src)) -> keeps g (collectChanged f l).
Proof.
  intros Hf. induction l as [|a l IH]; simpl; [apply keeps_ret|].
  apply keeps_bind; [apply Hf|]. intros changed.
  apply keeps_bind; [apply IH|]. intros changedSrcList. apply keeps_ret.
Qed.

Ltac keeps_step :=
  lazymatch goal with
  | |- keeps _ (bind _ _) => apply keeps_bind; [|intros ?]
  | |- keeps _ (ret _) => apply keeps_ret
  | |- keeps _ throw => apply keeps_throw
  | |- keeps _ get => apply keeps_get
  | |- keeps _ getPresence => apply keeps_getPresence
  | |- keeps _ (modifyPresence _) =>
      apply keeps_modifyPresence; intros ?; reflexivity
  | |- keeps _ (defer _) => apply keeps_defer
  | |- keeps _ (outgoing _) => apply keeps_outgoing
  | |- keeps _ (_callEach _ _) => apply keeps_callEach
  | |- keeps _ (collectChanged _ _) => apply keeps_collectChanged; intros ?
  | |- keeps _ (match ?x with _ => _ end) => destruct x
  | |- keeps _ (let _ := _ in _) => cbv zeta
  end.

Lemma keeps_emitPresence {X} (g : presence_state -> X) srcList submitted :
  keeps g (_emitPresence srcList submitted).
Proof. unfold _emitPresence. repeat keeps_step. Qed.

(** [_setPresence] writes [current] only. *)
Lemma keeps_setPresence {X} (g : presence_state -> X) src data emit :
  (forall ps current, g (Presence.set_current current ps) = g ps) ->
  keeps g (_setPresence src data emit).
Proof.
  intros Hg. unfold _setPresence.
  destruct data as [data|].
  - apply keeps_bind; [apply keeps_getPresence|]. intros ps. cbv zeta.
    apply keeps_bind.
    { case_bool_decide; repeat keeps_step. }
    intros [|]; [apply keeps_ret|].
    apply keeps_bind; [apply keeps_modifyPresence; intros; apply Hg|].
    intros _. apply keeps_bind; [destruct emit|intros _; apply keeps_ret].
    + apply keeps_emitPresence.
    + apply keeps_ret.
  - apply keeps_bind; [apply keeps_getPresence|]. intros ps.
    destruct (Presence.current ps !! src); [|apply keeps_ret].
    apply keeps_bind; [apply keeps_modifyPresence; intros; apply Hg|].
    intros _. apply keeps_bind; [destruct emit|intros _; apply keeps_ret].
    + apply keeps_emitPresence.
    + apply keeps_ret.
Qed.

(** *** [_handlePresence] on a document that is not subscribed *)

(** C10. A presence message, acknowledgment or not, that is handled while
    the document is not subscribed leaves the whole document as it was: no
    field of the presence state changes, nothing is handed to
    [process.nextTick], and no callback, error or notification leaves the
    module. In particular the inflight batch and [inflightSeq] stay in
    place. *)
Theorem handlePresence_unsubscribed (now : Z) (err : option ShareDBError.t)
    (presence : Envelope.t Data) (d : doc) :
  Doc.subscribed d = false ->
  _handlePresence now err presence d = Return tt d.
Proof.
  intros Hsub. unfold _handlePresence, bind, get. rewrite Hsub. reflexivity.
Qed.

(** *** [_cacheOp] *)

Lemma cacheOp_run (now : Z) (op : Op.t OT) (d : doc) ps :
  Doc.presence d = Some ps ->
  _cacheOp now op d =
    Return tt
      (withPresence
         (Presence.set_cachedOps
            (drop (firstFresh (now - Presence.cachedOpsTimeout ps)
                     (Presence.cachedOps ps))
                  (Presence.cachedOps ps) ++ [op]) ps) d).
Proof.
  intros Hps. unfold _cacheOp, bind, get. rewrite Hps.
  destruct (firstFresh _ _) as [|i] eqn:Hi; simpl.
  - by rewrite (modifyPresence_run _ _ _ Hps).
  - rewrite (modifyPresence_run _ _ _ Hps). simpl.
    by erewrite modifyPresence_run by reflexivity.
Qed.

Lemma firstFresh_sorted (oldOpTime : Z) (l : list (Op.t OT)) :
  Sorted (fun a b => Op.time a <= Op.time b) l ->
  Forall (fun o => oldOpTime <= Op.time o) (drop (firstFresh oldOpTime l) l).
Proof.
  intros Hs. apply Sorted_StronglySorted in Hs; [|intros a b c; lia].
  induction Hs as [|o l Hl IH Hall]; simpl; [constructor|].
  destruct (Z.geb_spec (Op.time o) oldOpTime) as [Hge|Hlt]; simpl; [|exact IH].
  constructor; [exact Hge|].
  eapply Forall_impl; [exact Hall|]. simpl. intros; lia.
Qed.

(** C7, as amended. Let the cached operations be in ascending order of
    their timestamps and let the operation that is added carry a timestamp
    that is not older than the insertion time minus [cachedOpsTimeout].
    Then after [_cacheOp] no cached entry is older than the insertion time
    minus [cachedOpsTimeout]. Whatever the cache and the operation are,
    the cache afterwards is what is left of the old one after entries were
    removed from its front, with the new operation appended at the end. *)
Theorem cacheOp_prunes (now : Z) (op : Op.t OT) (d : doc) ps :
  Doc.presence d = Some ps ->
  exists ps' k,
    _cacheOp now op d = Return tt (withPresence ps' d)
    /\ Presence.cachedOps ps' = drop k (Presence.cachedOps ps) ++ [op]
    /\ (Sorted (fun a b => Op.time a <= Op.time b) (Presence.cachedOps ps) ->
        now - Presence.cachedOpsTimeout ps <= Op.time op ->
        Forall (fun o => now - Presence.cachedOpsTimeout ps <= Op.time o)
               (Presence.cachedOps ps')).
Proof.
  intros Hps. eexists _, _. split; [apply (cacheOp_run _ _ _ _ Hps)|].
  split; [reflexivity|]. simpl. intros Hs Hop.
  apply Forall_app. split; [by apply firstFresh_sorted|].
  by constructor.
Qed.

(** *** [_hardRollbackPresence] *)

Lemma lookup_delete_all {V} (l : list string) (m : gmap string V) (k : string) :
  foldl (fun m k => delete k m) m l !! k
  = if decide (k ∈ l) then None else m !! k.
Proof.
  revert m. induction l as [|a l IH]; intros m; simpl.
  - destruct (decide (k ∈ [])) as [H|H]; [by apply elem_of_nil in H|reflexivity].
  - rewrite IH. destruct (decide (k ∈ l)) as [Hin|Hnin].
    + rewrite decide_True; [reflexivity|by right].
    + destruct (decide (k = a)) as [->|Hne].
      * rewrite decide_True; [|by left]. apply lookup_delete_eq.
      * rewrite decide_False; [by apply lookup_delete_ne|].
        intros Hin. apply elem_of_cons in Hin as [?|?]; done.
Qed.

Lemma elem_of_keys {V} (m : gmap string V) (k : string) :
  k ∈ keys m <-> is_Some (m !! k).
Proof.
  unfold keys. rewrite list_elem_of_fmap. split.
  - intros [[k' x] [-> Hin]]. apply elem_of_map_to_list in Hin. by exists x.
  - intros [x Hx]. exists (k, x). split; [reflexivity|].
    by apply elem_of_map_to_list.
Qed.

Lemma NoDup_keys {V} (m : gmap string V) : NoDup (keys m).
Proof. apply NoDup_fst_map_to_list. Qed.

Lemma delete_all_keys {V} (m : gmap string V) :
  foldl (fun m k => delete k m) m (keys m) = ∅.
Proof.
  apply map_eq. intros k. rewrite lookup_delete_all, lookup_empty.
  case_decide as Hin; [reflexivity|].
  destruct (m !! k) eqn:Hk; [|reflexivity].
  exfalso. apply Hin, elem_of_keys. by rewrite Hk.
Qed.

Lemma clear_each_run (l : list string) : forall (d : doc) ps,
  Doc.presence d = Some ps ->
  NoDup l ->
  (forall k, k ∈ l -> is_Some (Presence.current ps !! k)) ->
  collectChanged (fun src => _setPresence src None false) l d
  = Return l
      (withPresence
         (Presence.set_current
            (foldl (fun m k => delete k m) (Presence.current ps) l) ps) d).
Proof.
  induction l as [|a l IH]; intros d ps Hps Hnd Hin.
  - simpl. unfold ret. f_equal. unfold withPresence. destruct ps; simpl.
    by rewrite set_presence_same.
  - rewrite collectChanged_cons, (setPresence_clear_run _ _ _ _ Hps).
    destruct (Hin a) as [x Hx]; [by left|]. rewrite Hx, withTicks_nil.
    apply NoDup_cons in Hnd as [Ha Hnd].
    rewrite (IH (withPresence
                   (Presence.set_current (delete a (Presence.current ps)) ps) d)
               (Presence.set_current (delete a (Presence.current ps)) ps)
               eq_refl Hnd); [reflexivity|].
    intros k Hk. simpl. rewrite lookup_delete_ne; [apply Hin; by right|].
    intros ->. done.
Qed.

(** C5. [_hardRollbackPresence] clears [inflight], [inflightSeq],
    [pending], [cachedOps] and [received], sets [requestReply], and removes
    every entry of [current], the one of the local source [""] too. It
    returns the inflight batch (if there is one) followed by the pending
    batch (if there is one), so that the continuations of the returned
    batches are exactly the outstanding ones, each occurrence once. It
    invokes none of them: no call leaves the module, and all it hands to
    [process.nextTick] is one change notification for the sources whose
    presence it cleared. *)
Theorem hardRollback_clears (d : doc) ps :
  Doc.presence d = Some ps ->
  exists ps',
    _hardRollbackPresence d
    = Return
        (match Presence.inflight ps with Some b => [b] | None => [] end
         ++ match Presence.pending ps with Some b => [b] | None => [] end)
        (withTicks
           (match keys (Presence.current ps) with
            | [] => []
            | srcList => [TEmitPresence srcList false]
            end)
           (withPresence ps' d))
    /\ Presence.inflight ps' = None
    /\ Presence.inflightSeq ps' = 0
    /\ Presence.pending ps' = None
    /\ Presence.cachedOps ps' = []
    /\ Presence.received ps' = ∅
    /\ Presence.requestReply ps' = true
    /\ Presence.current ps' = ∅
    /\ concat (match Presence.inflight ps with Some b => [b] | None => [] end
               ++ match Presence.pending ps with Some b => [b] | None => [] end)
       = default [] (Presence.inflight ps) ++ default [] (Presence.pending ps)
    /\ Doc.events (withPresence ps' d) = Doc.events d.
Proof.
  intros Hps.
  exists (Presence.mk ∅ ∅ (Presence.receivedTimeout ps) true []
            (Presence.cachedOpsTimeout ps) 0 None None).
  split; [|repeat split].
  - unfold _hardRollbackPresence, bind at 1, getPresence at 1. rewrite Hps.
    unfold bind.
    rewrite (modifyPresence_run _ _ _ Hps).
    do 5 (erewrite modifyPresence_run by reflexivity).
    unfold getPresence. simpl Doc.presence. cbv iota beta.
    erewrite clear_each_run;
      [|reflexivity|apply NoDup_keys|intros k Hk; by apply elem_of_keys in Hk].
    simpl Presence.current. rewrite delete_all_keys.
    unfold _emitPresence.
    destruct (keys (Presence.current ps)) as [|a l]; unfold ret; simpl.
    + by rewrite withTicks_nil.
    + reflexivity.
  - destruct (Presence.inflight ps), (Presence.pending ps); simpl;
      by rewrite ?app_nil_r.
Qed.

(** *** [_processReceivedPresence] *)

Lemma reject_run (now : Z) (src : string) (emit : bool) (e : Envelope.t Data)
    (d : doc) ps :
  Doc.presence d = Some ps ->
  bind (markProcessed now src e) (fun _ => _setPresence src None emit) d
  = rejected now src emit e ps d.
Proof.
  intros Hps. unfold bind, markProcessed.
  rewrite (modifyPresence_run _ _ _ Hps).
  erewrite setPresence_clear_run by reflexivity. simpl Presence.current.
  unfold rejected, cleared.
  destruct (Presence.current ps !! src) as [x|] eqn:Hx.
  - rewrite bool_decide_true by eauto. rewrite andb_true_r. reflexivity.
  - rewrite bool_decide_false by (intros [? ?]; done). rewrite andb_false_r.
    rewrite withTicks_nil. do 2 f_equal.
    destruct ps; unfold Presence.set_current, Presence.set_received; simpl in *.
    f_equal. symmetry. by apply delete_id.
Qed.

Lemma existsb_Exists {A} (f : A -> bool) (l : list A) :
  existsb f l = true <-> Exists (fun x => f x = true) l.
Proof.
  induction l as [|a l IH]; simpl.
  - split; [done|intros H; inversion H].
  - rewrite orb_true_iff, IH. split.
    + intros [?|?]; [by left|by right].
    + intros H; inversion H; subst; [by left|by right].
Qed.

Lemma is_null_true {A} (x : option A) : is_null x = true <-> x = None.
Proof. destruct x; simpl; split; done. Qed.

Lemma processReceived_cases (now : Z) (src : string) (emit : bool) (d : doc)
    ps e version :
  src <> "" ->
  Doc.presence d = Some ps ->
  Presence.received ps !! src = Some e ->
  Envelope.processedAt e = None ->
  Doc.version d = Some version ->
  to_number (Envelope.v e) <= version ->
  let startIndex :=
    Z.of_nat (length (Presence.cachedOps ps))
    - (version - to_number (Envelope.v e)) in
  let past := drop (Z.to_nat startIndex) (Presence.cachedOps ps) in
  ((Envelope.p e = None
    \/ lacksPresence d
    \/ (exists o, Doc.inflightOp d = Some o /\ Op.op o = None)
    \/ Exists (fun o => Op.op o = None) (Doc.pendingOps d)
    \/ startIndex < 0
    \/ Exists (fun o => Op.op o = None) past)
   /\ _processReceivedPresence now src emit d = rejected now src emit e ps d)
  \/ (exists raw type createPresence transformPresence,
        Envelope.p e = Some raw
        /\ Doc.type d = Some type
        /\ PType.createPresence type = Some createPresence
        /\ PType.transformPresence type = Some transformPresence
        /\ (forall o, Doc.inflightOp d = Some o -> Op.op o <> None)
        /\ Forall (fun o => Op.op o <> None) (Doc.pendingOps d)
        /\ 0 <= startIndex
        /\ Forall (fun o => Op.op o <> None) past
        /\ _processReceivedPresence now src emit d
           = _setPresence src
               (foldl (fun data o => transformPresence data (Op.op o) false)
                  (match Doc.inflightOp d with
                   | Some inflightOp =>
                       transformPresence
                         (foldl (fun data o =>
                            transformPresence data (Op.op o)
                              (bool_decide (Envelope.src e = Op.src o)))
                            (createPresence raw) past)
                         (Op.op inflightOp) false
                   | None =>
                       foldl (fun data o =>
                         transformPresence data (Op.op o)
                           (bool_decide (Envelope.src e = Op.src o)))
                         (createPresence raw) past
                   end)
                  (Doc.pendingOps d))
               emit
               (withPresence
                  (Presence.set_received
                     (<[src := Envelope.set_processedAt now e]>
                        (Presence.received ps)) ps) d)).
Proof.
  intros Hsrc Hps He Hproc Hver Hle startIndex past.
  remember (_processReceivedPresence now src emit d) as out eqn:Hout.
  unfold _processReceivedPresence in Hout.
  rewrite bool_decide_false in Hout by done.
  unfold bind at 1, getPresence at 1 in Hout. rewrite Hps, He, Hproc in Hout.
  unfold bind at 1, get at 1 in Hout. rewrite Hver in Hout.
  destruct (Z.ltb_spec version (to_number (Envelope.v e))) as [?|_]; [lia|].
  fold startIndex in Hout. fold past in Hout.
  assert (Hrej : bind (markProcessed now src e)
                   (fun _ => _setPresence src None emit) d
                 = rejected now src emit e ps d) by by apply reject_run.
  destruct (Envelope.p e) as [raw|] eqn:Hp;
    [|left; split; [by left|congruence]].
  destruct (Doc.type d) as [type|] eqn:Hty;
    [|left; split; [right; left; unfold lacksPresence; by rewrite Hty
                   |congruence]].
  destruct (PType.createPresence type) as [createPresence|] eqn:Hcp;
    [|left; split; [right; left; unfold lacksPresence; rewrite Hty; by left
                   |congruence]].
  destruct (PType.transformPresence type) as [transformPresence|] eqn:Htp;
    [|left; split; [right; left; unfold lacksPresence; rewrite Hty; by right
                   |congruence]].
  destruct (match Doc.inflightOp d with
            | Some inflightOp => is_null (Op.op inflightOp)
            | None => false
            end) eqn:Hinfl.
  { left. split; [|congruence]. do 2 right; left.
    destruct (Doc.inflightOp d) as [o|]; [|done].
    exists o. split; [reflexivity|by apply is_null_true]. }
  destruct (existsb (fun o => is_null (Op.op o)) (Doc.pendingOps d)) eqn:Hpend.
  { left. split; [|congruence]. do 3 right; left.
    apply existsb_Exists in Hpend. eapply Exists_impl; [exact Hpend|].
    intros o. apply is_null_true. }
  destruct (Z.ltb_spec startIndex 0) as [Hneg|Hnonneg].
  { left. split; [|congruence]. do 4 right; by left. }
  destruct (existsb (fun o => is_null (Op.op o)) past) eqn:Hpast.
  { left. split; [|congruence]. do 5 right.
    apply existsb_Exists in Hpast. eapply Exists_impl; [exact Hpast|].
    intros o. apply is_null_true. }
  right. exists raw, type, createPresence, transformPresence.
  repeat split; try done.
  - intros o Ho Hnull. rewrite Ho in Hinfl. apply is_null_true in Hnull.
    congruence.
  - apply Forall_forall. intros o Ho Hnull.
    assert (existsb (fun o => is_null (Op.op o)) (Doc.pendingOps d) = true);
      [|congruence].
    apply existsb_Exists, Exists_exists. exists o.
    split; [exact Ho|by apply is_null_true].
  - apply Forall_forall. intros o Ho Hnull.
    assert (existsb (fun o => is_null (Op.op o)) past = true); [|congruence].
    apply existsb_Exists, Exists_exists. exists o.
    split; [exact Ho|by apply is_null_true].
  - rewrite Hout. unfold bind, markProcessed.
    by rewrite (modifyPresence_run _ _ _ Hps).
Qed.

Lemma cleared_lookups (now : Z) (src : string) (e : Envelope.t Data)
    (ps : presence_state) :
  Presence.received (cleared now src e ps) !! src
    = Some (Envelope.set_processedAt now e)
  /\ Presence.current (cleared now src e ps) !! src = None
  /\ (forall k, k <> src ->
        Presence.current (cleared now src e ps) !! k = Presence.current ps !! k).
Proof.
  unfold cleared. simpl. split; [apply lookup_insert_eq|].
  split; [apply lookup_delete_eq|]. intros k Hk. by apply lookup_delete_ne.
Qed.

(** C1, as amended. For every entry [received[src]], reconciliation
    reports "no change" and leaves [current] as it is whenever the version
    of the document is null or behind the version of the entry (an entry
    that is not yet marked processed then stays as it is, too). For an entry
    of a source other than [""] that is not yet marked processed, and a
    document version that is known and not behind the version of the entry,
    reconciliation marks the entry processed and clears [current[src]]
    whenever the payload of the entry is null, or the document type is
    missing or lacks [createPresence] or [transformPresence], or the
    inflight operation or a pending operation has a null [op], or
    [cachedOps] has fewer entries than the document version exceeds the
    version of the entry by. An entry that is already marked processed is
    not reconciled again: the call reports "no change" and does nothing but
    delete the entry once [receivedTimeout] has passed since it was
    processed. *)
Theorem processReceived_defers_or_rejects (now : Z) (src : string)
    (emit : bool) (d : doc) ps e :
  Doc.presence d = Some ps ->
  Presence.received ps !! src = Some e ->
  ((Doc.version d = None
    \/ exists version,
         Doc.version d = Some version /\ version < to_number (Envelope.v e)) ->
   exists ps',
     _processReceivedPresence now src emit d = Return false (withPresence ps' d)
     /\ Presence.current ps' = Presence.current ps
     /\ (Envelope.processedAt e = None -> ps' = ps))
  /\ (src <> "" ->
      Envelope.processedAt e = None ->
      forall version,
        Doc.version d = Some version ->
        to_number (Envelope.v e) <= version ->
        Envelope.p e = None
        \/ lacksPresence d
        \/ (exists o, Doc.inflightOp d = Some o /\ Op.op o = None)
        \/ Exists (fun o => Op.op o = None) (Doc.pendingOps d)
        \/ Z.of_nat (length (Presence.cachedOps ps))
           < version - to_number (Envelope.v e) ->
        _processReceivedPresence now src emit d = rejected now src emit e ps d
        /\ Presence.received (cleared now src e ps) !! src
           = Some (Envelope.set_processedAt now e)
        /\ Presence.current (cleared now src e ps) !! src = None)
  /\ (src <> "" ->
      forall processedAt,
        Envelope.processedAt e = Some processedAt ->
        _processReceivedPresence now src emit d
        = Return false
            (if now >=? processedAt + Presence.receivedTimeout ps
             then withPresence
                    (Presence.set_received (delete src (Presence.received ps)) ps)
                    d
             else d)).
Proof.
  intros Hps He. split; [|split].
  - intros Hbehind. unfold _processReceivedPresence.
    case_bool_decide as Hsrc.
    { exists ps. unfold ret, withPresence. by rewrite set_presence_same. }
    unfold bind at 1, getPresence at 1. rewrite Hps, He.
    destruct (Envelope.processedAt e) as [processedAt|] eqn:Hproc.
    + unfold bind.
      destruct (now >=? processedAt + Presence.receivedTimeout ps).
      * rewrite (modifyPresence_run _ _ _ Hps). unfold ret.
        eexists. split; [reflexivity|]. split; [reflexivity|done].
      * exists ps. unfold ret, withPresence. by rewrite set_presence_same.
    + exists ps. unfold bind, get, withPresence. rewrite set_presence_same by done.
      destruct Hbehind as [->|(version & -> & Hlt)]; [done|].
      destruct (Z.ltb_spec version (to_number (Envelope.v e))); [done|lia].
  - intros Hsrc Hproc version Hver Hle Hcond.
    split; [|split; apply cleared_lookups].
    destruct (processReceived_cases now src emit d ps e version
                Hsrc Hps He Hproc Hver Hle)
      as [[_ Hout]|(raw & type & cp & tp & Hp & Hty & Hcp & Htp & Hinfl
                    & Hpend & Hstart & _)]; [exact Hout|exfalso].
    destruct Hcond as [Hnull|[Hlacks|[(o & Ho & Hnull)|[Hex|Hwin]]]].
    + congruence.
    + unfold lacksPresence in Hlacks. rewrite Hty in Hlacks.
      destruct Hlacks; congruence.
    + by apply (Hinfl o).
    + apply Exists_exists in Hex as (o & Ho & Hnull).
      rewrite Forall_forall in Hpend. by apply (Hpend o).
    + lia.
  - intros Hsrc processedAt Hproc. unfold _processReceivedPresence.
    rewrite bool_decide_false by done.
    unfold bind at 1, getPresence at 1. rewrite Hps, He, Hproc. unfold bind.
    destruct (now >=? processedAt + Presence.receivedTimeout ps);
      [|reflexivity].
    by rewrite (modifyPresence_run _ _ _ Hps).
Qed.

(** C9. Reconciliation of an entry that is not yet marked processed, for a
    source other than [""] and a document version that is not behind the
    version of the entry, also marks the entry processed and clears
    [current[src]] when [cachedOps] reaches back far enough but one of its
    operations in the slice from the version of the entry to the version of
    the document (index [cachedOps.length - (version - v)] onwards) has a
    null [op], whatever the inflight and the pending operations are. *)
Theorem processReceived_rejects_structural_cached (now : Z) (src : string)
    (emit : bool) (d : doc) ps e version (i : nat) o :
  src <> "" ->
  Doc.presence d = Some ps ->
  Presence.received ps !! src = Some e ->
  Envelope.processedAt e = None ->
  Doc.version d = Some version ->
  to_number (Envelope.v e) <= version ->
  version - to_number (Envelope.v e) <= Z.of_nat (length (Presence.cachedOps ps)) ->
  Z.of_nat (length (Presence.cachedOps ps)) - (version - to_number (Envelope.v e))
    <= Z.of_nat i ->
  Presence.cachedOps ps !! i = Some o ->
  Op.op o = None ->
  _processReceivedPresence now src emit d = rejected now src emit e ps d
  /\ Presence.received (cleared now src e ps) !! src
     = Some (Envelope.set_processedAt now e)
  /\ Presence.current (cleared now src e ps) !! src = None.
Proof.
  intros Hsrc Hps He Hproc Hver Hle Hwin Hi Ho Hnull.
  split; [|split; apply cleared_lookups].
  destruct (processReceived_cases now src emit d ps e version
              Hsrc Hps He Hproc Hver Hle)
    as [[_ Hout]|(raw & type & cp & tp & _ & _ & _ & _ & _ & _ & _ & Hpast & _)];
    [exact Hout|exfalso].
  rewrite Forall_forall in Hpast. apply (Hpast o); [|exact Hnull].
  apply list_elem_of_lookup.
  exists (i - Z.to_nat (Z.of_nat (length (Presence.cachedOps ps))
                        - (version - to_number (Envelope.v e))))%nat.
  rewrite lookup_drop. rewrite <- Ho. f_equal. lia.
Qed.

Lemma setPresence_run src data emit (d : doc) ps type :
  Doc.presence d = Some ps ->
  Doc.type d = Some type ->
  exists changed current',
    _setPresence src data emit d
    = Return changed
        (withTicks (if emit && changed then [TEmitPresence [src] true] else [])
           (withPresence (Presence.set_current current' ps) d))
    /\ current' !! src
       = afterSetPresence type (Presence.current ps !! src) data
    /\ (forall k, k <> src -> current' !! k = Presence.current ps !! k)
    /\ (changed = true <-> current' !! src <> Presence.current ps !! src).
Proof.
  intros Hps Hty.
  assert (Hsame : d = withPresence (Presence.set_current (Presence.current ps) ps) d).
  { unfold withPresence. destruct ps; simpl. by rewrite set_presence_same. }
  assert (Hunchanged :
    Return false d
    = Return false
        (withTicks (if emit && false then [TEmitPresence [src] true] else [])
           (withPresence (Presence.set_current (Presence.current ps) ps) d))).
  { rewrite andb_false_r, withTicks_nil. by rewrite <- Hsame. }
  assert (Hinstall : forall x,
    bind (modifyPresence (fun ps =>
            Presence.set_current (<[src := x]> (Presence.current ps)) ps))
         (fun _ => bind (if emit then _emitPresence [src] true else ret tt)
                     (fun _ => ret true)) d
    = Return true
        (withTicks (if emit && true then [TEmitPresence [src] true] else [])
           (withPresence
              (Presence.set_current (<[src := x]> (Presence.current ps)) ps) d))).
  { intros x. unfold bind. rewrite (modifyPresence_run _ _ _ Hps).
    destruct emit; simpl; [reflexivity|]. unfold ret. by rewrite withTicks_nil. }
  destruct data as [x|].
  - unfold _setPresence, bind at 1, getPresence at 1. rewrite Hps.
    unfold afterSetPresence. cbv zeta.
    case_bool_decide as Hid.
    + unfold bind, ret. exists false, (Presence.current ps).
      split; [exact Hunchanged|]. simpl. split; [done|].
      split; [done|]. split; [done|]. intros H; by destruct H.
    + unfold bind at 1 2, get. rewrite Hty. simpl orb.
      destruct (PType.comparePresence type) as [cmp|].
      * unfold ret at 1.
        destruct (cmp (Presence.current ps !! src) x).
        -- unfold ret. exists false, (Presence.current ps).
           split; [exact Hunchanged|]. split; [done|].
           split; [done|]. split; [done|]. intros H; by destruct H.
        -- rewrite Hinstall.
           exists true, (<[src := x]> (Presence.current ps)).
           split; [reflexivity|]. rewrite lookup_insert_eq.
           split; [done|]. split; [intros; by apply lookup_insert_ne|].
           split; [congruence|done].
      * unfold ret at 1. rewrite Hinstall.
        exists true, (<[src := x]> (Presence.current ps)).
        split; [reflexivity|]. rewrite lookup_insert_eq.
        split; [done|]. split; [intros; by apply lookup_insert_ne|].
        split; [congruence|done].
  - rewrite (setPresence_clear_run _ _ _ _ Hps). simpl afterSetPresence.
    destruct (Presence.current ps !! src) as [y|] eqn:Hy.
    + exists true, (delete src (Presence.current ps)).
      rewrite andb_true_r.
      split; [reflexivity|]. rewrite lookup_delete_eq.
      split; [done|]. split; [intros; by apply lookup_delete_ne|].
      split; [congruence|done].
    + exists false, (Presence.current ps).
      split; [exact Hunchanged|]. split; [done|]. split; [done|].
      split; [done|]. rewrite Hy. intros H; by destruct H.
Qed.

(** C2. When reconciliation of [received[src]] transforms (the entry is not
    yet marked processed, the document version is not behind, the payload
    is there, the type has both capabilities, neither the inflight nor a
    pending operation nor an operation of the slice has a null [op], and
    [cachedOps] reaches back far enough), it never throws, the entry is
    marked processed at [now] in [received[src]], and [_setPresence]
    installs for [src] the payload of the entry, normalized by
    [createPresence] and then transformed, from left to right, by (1) the
    last [version - v] entries of [cachedOps], each with the flag
    [presence.src === op.src], (2) the inflight operation, if there is one,
    with the flag [false], (3) the pending operations in their order, with
    the flag [false]. Afterwards [current[src]] is what [_setPresence]
    leaves for that value ([afterSetPresence]): it is the value itself,
    unless [comparePresence] takes the value that was there for equal to
    it, and then the value that was there stays. The presence of the other
    sources and the other fields of the presence state are as before, the
    call returns [true] exactly when [current[src]] changed, and a
    notification for [src] is handed to [process.nextTick] exactly when
    [emit] is set and it returns [true]. *)
Theorem processReceived_transforms (now : Z) (src : string) (emit : bool)
    (d : doc) ps e version raw type createPresence transformPresence :
  src <> "" ->
  Doc.presence d = Some ps ->
  Presence.received ps !! src = Some e ->
  Envelope.processedAt e = None ->
  Doc.version d = Some version ->
  to_number (Envelope.v e) <= version ->
  Envelope.p e = Some raw ->
  Doc.type d = Some type ->
  PType.createPresence type = Some createPresence ->
  PType.transformPresence type = Some transformPresence ->
  (forall o, Doc.inflightOp d = Some o -> Op.op o <> None) ->
  Forall (fun o => Op.op o <> None) (Doc.pendingOps d) ->
  version - to_number (Envelope.v e) <= Z.of_nat (length (Presence.cachedOps ps)) ->
  let past :=
    drop (length (Presence.cachedOps ps)
          - Z.to_nat (version - to_number (Envelope.v e)))%nat
         (Presence.cachedOps ps) in
  Forall (fun o => Op.op o <> None) past ->
  let data0 := createPresence raw in
  let data1 :=
    foldl (fun data o =>
      transformPresence data (Op.op o)
        (bool_decide (Envelope.src e = Op.src o))) data0 past in
  let data2 :=
    match Doc.inflightOp d with
    | Some inflightOp => transformPresence data1 (Op.op inflightOp) false
    | None => data1
    end in
  let data3 :=
    foldl (fun data o => transformPresence data (Op.op o) false)
      data2 (Doc.pendingOps d) in
  let marked :=
    Presence.set_received
      (<[src := Envelope.set_processedAt now e]> (Presence.received ps)) ps in
  exists changed current',
    _processReceivedPresence now src emit d
    = Return changed
        (withTicks (if emit && changed then [TEmitPresence [src] true] else [])
           (withPresence (Presence.set_current current' marked) d))
    /\ current' !! src
       = afterSetPresence type (Presence.current ps !! src) data3
    /\ ((forall comparePresence x,
           PType.comparePresence type = Some comparePresence ->
           data3 = Some x ->
           comparePresence (Presence.current ps !! src) x = true ->
           Presence.current ps !! src = Some x) ->
        current' !! src = data3)
    /\ (forall k, k <> src -> current' !! k = Presence.current ps !! k)
    /\ (changed = true <-> current' !! src <> Presence.current ps !! src)
    /\ _processReceivedPresence now src emit d
       = _setPresence src data3 emit (withPresence marked d).
Proof.
  intros Hsrc Hps He Hproc Hver Hle Hp Hty Hcp Htp Hinfl Hpend Hwin past Hpast
    data0 data1 data2 data3 marked.
  assert (Hidx : Z.to_nat (Z.of_nat (length (Presence.cachedOps ps))
                           - (version - to_number (Envelope.v e)))
                 = (length (Presence.cachedOps ps)
                    - Z.to_nat (version - to_number (Envelope.v e)))%nat) by lia.
  assert (Hrun : _processReceivedPresence now src emit d
                 = _setPresence src data3 emit (withPresence marked d)).
  { destruct (processReceived_cases now src emit d ps e version
                Hsrc Hps He Hproc Hver Hle)
      as [[Hcond _]|(raw' & type' & cp & tp & Hp' & Hty' & Hcp' & Htp' & _ & _
                     & _ & _ & Hout)].
    - exfalso. rewrite Hidx in Hcond. fold past in Hcond.
      destruct Hcond as [Hnull|[Hlacks|[(o & Ho & Hnull)|[Hex|[Hneg|Hex]]]]].
      + congruence.
      + unfold lacksPresence in Hlacks. rewrite Hty in Hlacks.
        destruct Hlacks; congruence.
      + by apply (Hinfl o).
      + apply Exists_exists in Hex as (o & Ho & Hnull).
        rewrite Forall_forall in Hpend. by apply (Hpend o).
      + lia.
      + apply Exists_exists in Hex as (o & Ho & Hnull).
        rewrite Forall_forall in Hpast. by apply (Hpast o).
    - rewrite Hidx in Hout. fold past in Hout.
      assert (raw' = raw) as -> by congruence.
      assert (type' = type) as -> by congruence.
      assert (cp = createPresence) as -> by congruence.
      assert (tp = transformPresence) as -> by congruence.
      rewrite Hout. subst marked data3 data2 data1 data0.
      destruct (Doc.inflightOp d); reflexivity. }
  destruct (setPresence_run src data3 emit (withPresence marked d) marked type
              eq_refl Hty)
    as (changed & current' & Hset & Hat & Hothers & Hchanged).
  exists changed, current'.
  split; [by rewrite Hrun, Hset|].
  split; [exact Hat|].
  split.
  { intros Hcmp. rewrite Hat. simpl Presence.current.
    unfold afterSetPresence.
    destruct data3 as [x|] eqn:Hx; [|reflexivity].
    case_bool_decide as Hold; [exact Hold|]. simpl orb.
    destruct (PType.comparePresence type) as [cmp|] eqn:Hc; [|reflexivity].
    destruct (cmp (Presence.current ps !! src) x) eqn:Heq; [|reflexivity].
    exfalso. apply Hold. by apply (Hcmp cmp x). }
  split; [exact Hothers|]. split; [exact Hchanged|exact Hrun].
Qed.

(** *** The handshake invariant *)

Ltac keeps_handshake :=
  repeat first
    [ keeps_step
    | apply keeps_emitPresence
    | apply keeps_setPresence; intros; reflexivity ].

Lemma keeps_handshake_processReceived now src emit :
  keeps handshake (_processReceivedPresence now src emit).
Proof. unfold _processReceivedPresence, markProcessed. keeps_handshake. Qed.

Lemma keeps_handshake_transformPresence src op :
  keeps handshake (_transformPresence src op).
Proof. unfold _transformPresence. keeps_handshake. Qed.

Lemma keeps_handshake_submitPresence data callback :
  keeps handshake (submitPresence data callback).
Proof. unfold submitPresence. keeps_handshake. Qed.

Lemma handshake_ok_keeps {A} (m : M A) (d : doc) :
  keeps handshake m -> handshake_ok d -> handshake_ok (state_of (m d)).
Proof.
  intros Hm Hd ps' Hps'. specialize (Hm d). rewrite Hps' in Hm. simpl in Hm.
  destruct (Doc.presence d) as [ps|] eqn:Hps; [|done].
  injection Hm as Hinfl Hseq. rewrite Hinfl, Hseq. by apply Hd.
Qed.

Lemma handshake_ok_bind {A B} (m : M A) (f : A -> M B) (d : doc) :
  handshake_ok (state_of (m d)) ->
  (forall a d', handshake_ok d' -> handshake_ok (state_of (f a d'))) ->
  handshake_ok (state_of (bind m f d)).
Proof.
  intros Hm Hf. unfold bind. destruct (m d) as [a d'|d']; [|exact Hm].
  by apply Hf.
Qed.

Lemma flush_ok (d : doc) :
  handshake_ok d -> Doc.connection_seq d <> 0 ->
  handshake_ok (state_of (flush d)).
Proof.
  intros Hd Hseq. unfold flush, bind at 1, get at 1.
  destruct (Doc.subscribed d); [|exact Hd].
  unfold bind at 1, getPresence at 1.
  destruct (Doc.presence d) as [ps|] eqn:Hps; [|exact Hd].
  destruct (Presence.inflight ps) eqn:Hinfl; [exact Hd|].
  destruct (Presence.pending ps) as [pending|] eqn:Hpend; [|exact Hd].
  destruct (hasWritePending d); [exact Hd|].
  unfold bind. rewrite (modifyPresence_run _ _ _ Hps).
  do 2 (erewrite modifyPresence_run by reflexivity).
  unfold getPresence, outgoing. simpl.
  intros ps' Hps'. simpl in Hps'. injection Hps' as <-. simpl.
  rewrite Hpend. split; [done|done].
Qed.

Lemma pause_ok (d : doc) : handshake_ok d -> handshake_ok (state_of (pause d)).
Proof.
  intros Hd. unfold pause, bind at 1, get at 1.
  destruct (Doc.presence d) as [ps|] eqn:Hps; [|exact Hd].
  apply handshake_ok_bind.
  - destruct (Presence.inflight ps) as [inflight|] eqn:Hinfl.
    + unfold bind. rewrite (modifyPresence_run _ _ _ Hps).
      do 2 (erewrite modifyPresence_run by reflexivity).
      intros ps' Hps'. simpl in Hps'. by injection Hps' as <-.
    + destruct (_ && _); [|exact Hd].
      apply handshake_ok_keeps; [|exact Hd]. keeps_handshake.
  - intros _ d' Hd'. apply handshake_ok_keeps; [|exact Hd']. keeps_handshake.
Qed.

Lemma hardRollback_ok (d : doc) :
  handshake_ok (state_of (_hardRollbackPresence d)).
Proof.
  unfold _hardRollbackPresence, bind at 1, getPresence at 1.
  destruct (Doc.presence d) as [ps|] eqn:Hps;
    [|intros ps' Hps'; simpl in Hps'; congruence].
  unfold bind at 1 2 3. rewrite (modifyPresence_run _ _ _ Hps).
  do 2 (erewrite modifyPresence_run by reflexivity).
  apply handshake_ok_keeps; [keeps_handshake|].
  intros ps' Hps'. simpl in Hps'. by injection Hps' as <-.
Qed.

Lemma flush_then_ok {A} (k : M A) (d : doc) :
  keeps handshake k ->
  handshake_ok d -> Doc.connection_seq d <> 0 ->
  handshake_ok (state_of (bind flush (fun _ => k) d)).
Proof.
  intros Hk Hd Hseq. apply handshake_ok_bind; [by apply flush_ok|].
  intros _ d' Hd'. by apply handshake_ok_keeps.
Qed.

Lemma handlePresence_ok now err presence (d : doc) :
  handshake_ok d -> Doc.connection_seq d <> 0 ->
  handshake_ok (state_of (_handlePresence now err presence d)).
Proof.
  intros Hd Hseq. unfold _handlePresence, bind at 1, get at 1.
  destruct (negb (Doc.subscribed d)); [exact Hd|].
  destruct (no_src (Envelope.src presence)).
  - unfold bind at 1, getPresence at 1.
    destruct (Doc.presence d) as [ps|] eqn:Hps; [|exact Hd].
    destruct (Presence.inflightSeq ps =? Envelope.seq presence); [|exact Hd].
    unfold bind at 1 2. rewrite (modifyPresence_run _ _ _ Hps).
    erewrite modifyPresence_run by reflexivity.
    unfold bind at 1.
    destruct (Presence.inflight ps) as [callbacks|]; unfold _callEach, ret;
      unfold bind at 1;
      destruct err as [e|];
      try destruct callbacks as [|callback callbacks];
      unfold outgoing, ret;
      (apply flush_then_ok;
         [intros ?; reflexivity
         |intros ps' Hps'; simpl in Hps'; by injection Hps' as <-
         |exact Hseq]).
  - destruct err as [e|].
    { apply handshake_ok_keeps; [keeps_handshake|exact Hd]. }
    apply handshake_ok_bind.
    + unfold bind at 1, getPresence at 1.
      destruct (Doc.presence d) as [ps|] eqn:Hps; [|exact Hd].
      destruct (_ && _); [|exact Hd].
      unfold bind. rewrite (modifyPresence_run _ _ _ Hps).
      apply flush_ok; [|exact Hseq].
      intros ps' Hps'. simpl in Hps'. injection Hps' as <-. simpl.
      by apply Hd.
    + intros _ d' Hd'. apply handshake_ok_keeps; [|exact Hd'].
      unfold markProcessed. keeps_handshake.
      apply keeps_handshake_processReceived.
Qed.

Lemma runTask_ok task (d : doc) :
  handshake_ok d -> Doc.connection_seq d <> 0 ->
  handshake_ok (state_of (runTask task d)).
Proof.
  intros Hd Hseq. destruct task as [[callback|] err|callback| |srcList submitted];
    simpl; try exact Hd.
  by apply flush_ok.
Qed.

(** C8. [inflightSeq == 0] if and only if [inflight] is absent: this holds
    of the presence state [_initializePresence] makes, and every operation
    of the module (submitting, flushing, handling an acknowledgment or a
    remote message, reconciling, transforming, caching an operation,
    pausing, destroying, rolling back, and the work deferred to the next
    tick) takes a document where it holds to one where it holds, also when
    the operation throws, as long as [connection.seq] is not 0 when the
    operation starts (it is read by the one flush the operation may
    make). *)
Theorem inflightSeq_invariant :
  (Presence.inflightSeq _initializePresence = 0
   <-> Presence.inflight _initializePresence = None)
  /\ forall (c : Call) (d : doc),
       handshake_ok d ->
       Doc.connection_seq d <> 0 ->
       handshake_ok (state_of (call c d)).
Proof.
  split; [done|]. intros c d Hd Hseq.
  destruct c; simpl.
  - apply handshake_ok_keeps; [apply keeps_handshake_submitPresence|exact Hd].
  - by apply handlePresence_ok.
  - apply handshake_ok_keeps; [|exact Hd].
    keeps_handshake. apply keeps_handshake_processReceived.
  - apply handshake_ok_keeps; [|exact Hd].
    unfold _processAllReceivedPresence. keeps_handshake.
    apply keeps_handshake_processReceived.
  - apply handshake_ok_keeps; [|exact Hd].
    keeps_handshake. apply keeps_handshake_transformPresence.
  - apply handshake_ok_keeps; [|exact Hd].
    unfold _transformAllPresence. keeps_handshake.
    apply keeps_handshake_transformPresence.
  - by apply pause_ok.
  - apply handshake_ok_keeps; [|exact Hd]. keeps_handshake.
  - apply handshake_ok_keeps; [|exact Hd]. keeps_handshake.
  - apply handshake_ok_keeps; [|exact Hd]. unfold _cacheOp. keeps_handshake.
  - by apply flush_ok.
  - apply handshake_ok_keeps; [|exact Hd]. unfold destroy. keeps_handshake.
  - apply handshake_ok_bind; [apply hardRollback_ok|]. intros; assumption.
  - by apply runTask_ok.
Qed.

(** *** [submitPresence] before creation or on a type without presence *)

(** C4, as amended. For every data argument that is not null: when the
    document has no type yet, [submitPresence] hands one task to
    [process.nextTick] and does nothing else, so [current], [pending] and
    [inflight] stay as they are and nothing is called on the stack of the
    caller; the task, when it runs, calls the continuation with the error
    4015 (document not created), or emits the error when there is no
    continuation. When the type is there but lacks [createPresence] or
    [transformPresence], the same holds with the error 4027 (type without
    presence). *)
Theorem submitPresence_fails_async (raw : Data) (callback : option Callback)
    (d : doc) :
  (Doc.type d = None ->
   exists message,
     submitPresence (Some raw) callback d
     = Return tt (withTicks [TFail callback (ShareDBError.mk 4015 message)] d))
  /\ (forall type,
        Doc.type d = Some type ->
        PType.createPresence type = None \/ PType.transformPresence type = None ->
        exists message,
          submitPresence (Some raw) callback d
          = Return tt
              (withTicks [TFail callback (ShareDBError.mk 4027 message)] d))
  /\ (forall err,
        Doc.presence (withTicks [TFail callback err] d) = Doc.presence d
        /\ Doc.events (withTicks [TFail callback err] d) = Doc.events d)
  /\ (forall err d',
        runTask (TFail callback err) d'
        = match callback with
          | Some cb => outgoing (ECall cb (Some err)) d'
          | None => outgoing (EEmitError err) d'
          end).
Proof.
  split; [|split; [|split]].
  - intros Hty. unfold submitPresence, bind, get. rewrite Hty.
    eexists. reflexivity.
  - intros type Hty Hcap. unfold submitPresence, bind, get. rewrite Hty.
    destruct (PType.createPresence type), (PType.transformPresence type);
      try (eexists; reflexivity).
    destruct Hcap; done.
  - intros err. split; reflexivity.
  - intros err d'. by destruct callback.
Qed.

(** *** The ordering rule of [_handlePresence] *)

Lemma flush_returns (d : doc) ps :
  Doc.presence d = Some ps ->
  exists d' ps',
    flush d = Return tt d'
    /\ Doc.presence d' = Some ps'
    /\ Presence.received ps' = Presence.received ps.
Proof.
  intros Hps. unfold flush, bind at 1, get at 1.
  destruct (Doc.subscribed d); [|by exists d, ps].
  unfold bind at 1, getPresence at 1. rewrite Hps.
  destruct (Presence.inflight ps); [by exists d, ps|].
  destruct (Presence.pending ps); [|by exists d, ps].
  destruct (hasWritePending d); [by exists d, ps|].
  unfold bind. rewrite (modifyPresence_run _ _ _ Hps).
  do 2 (erewrite modifyPresence_run by reflexivity).
  unfold getPresence, outgoing. simpl.
  eexists _, _. split; [reflexivity|]. split; reflexivity.
Qed.

Lemma state_of_bind_ret {A} (m : M A) (d : doc) :
  state_of (bind m (fun _ => ret tt) d) = state_of (m d).
Proof. unfold bind. by destruct (m d). Qed.

Lemma received_after_setPresence src data emit (d : doc) ps :
  Doc.presence d = Some ps ->
  exists ps',
    Doc.presence (state_of (_setPresence src data emit d)) = Some ps'
    /\ Presence.received ps' = Presence.received ps.
Proof.
  intros Hps.
  pose proof (keeps_setPresence Presence.received src data emit
                (fun _ _ => eq_refl) d) as Hk.
  rewrite Hps in Hk. simpl in Hk.
  destruct (Doc.presence (state_of (_setPresence src data emit d))) as [ps'|];
    [|done].
  exists ps'. split; [reflexivity|]. by injection Hk.
Qed.

(** C3, as amended. Let a message with a source id other than [""], which
    carries no [processedAt] mark yet, be handled without a protocol error
    while the document is subscribed. If [received[src]] holds an entry
    whose sequence is strictly greater, or whose sequence is equal while
    the message carries a version that is not null, the message is
    discarded: [received] stays as it is. Otherwise the message replaces
    [received[src]], as it arrived or already marked processed at [now]. In
    particular a message with the sequence of the stored entry and a null
    version is accepted (and marked processed at once). *)
Theorem handlePresence_ordering (now : Z) (presence : Envelope.t Data)
    (d : doc) ps src :
  Doc.subscribed d = true ->
  Doc.presence d = Some ps ->
  Envelope.src presence = Some src ->
  src <> "" ->
  Envelope.processedAt presence = None ->
  let stale :=
    exists old,
      Presence.received ps !! src = Some old
      /\ (Envelope.seq old > Envelope.seq presence
          \/ (Envelope.seq old = Envelope.seq presence
              /\ Envelope.v presence <> None)) in
  exists ps',
    Doc.presence (state_of (_handlePresence now None presence d)) = Some ps'
    /\ (stale -> Presence.received ps' = Presence.received ps)
    /\ (~ stale ->
        Presence.received ps' = <[src := presence]> (Presence.received ps)
        \/ Presence.received ps'
           = <[src := Envelope.set_processedAt now presence]>
               (Presence.received ps))
    /\ (forall old,
          Presence.received ps !! src = Some old ->
          Envelope.seq old = Envelope.seq presence ->
          Envelope.v presence = None ->
          Presence.received ps'
          = <[src := Envelope.set_processedAt now presence]>
              (Presence.received ps)).
Proof.
  intros Hsub Hps Hsrc Hne Hproc stale.
  unfold _handlePresence, bind at 1, get at 1. rewrite Hsub, Hsrc.
  change (negb true) with false. unfold no_src.
  rewrite bool_decide_false by done.
  change (default "" (Some src)) with src.
  (* the request for a reply *)
  assert (Hreply : exists d1 ps1,
    bind getPresence (fun ps =>
      if Envelope.r presence && is_null (Presence.pending ps)
      then bind (modifyPresence (Presence.set_pending (Some []))) (fun _ => flush)
      else ret tt) d = Return tt d1
    /\ Doc.presence d1 = Some ps1
    /\ Presence.received ps1 = Presence.received ps).
  { unfold bind at 1, getPresence at 1. rewrite Hps.
    destruct (_ && _); [|by exists d, ps].
    unfold bind. rewrite (modifyPresence_run _ _ _ Hps).
    destruct (flush_returns
                (withPresence (Presence.set_pending (Some []) ps) d)
                (Presence.set_pending (Some []) ps) eq_refl)
      as (d1 & ps1 & Hrun & Hps1 & Hrec).
    exists d1, ps1. by rewrite Hrun. }
  destruct Hreply as (d1 & ps1 & Hrun & Hps1 & Hrec).
  unfold bind at 1. rewrite Hrun.
  unfold bind at 1, getPresence at 1. rewrite Hps1, Hrec.
  (* the ordering rule *)
  destruct (match Presence.received ps !! src with
            | Some old =>
                (Envelope.seq old >? Envelope.seq presence)
                || ((Envelope.seq old =? Envelope.seq presence)
                    && negb (is_null (Envelope.v presence)))
            | None => false
            end) eqn:Hstale.
  - (* discarded *)
    assert (Hs : stale).
    { destruct (Presence.received ps !! src) as [old|]; [|done].
      exists old. split; [reflexivity|].
      apply orb_true_iff in Hstale as [Hgt|Heq]; [left; lia|right].
      apply andb_true_iff in Heq as [Heq Hv]. split; [lia|].
      by destruct (Envelope.v presence). }
    exists ps1. split; [exact Hps1|]. split; [done|]. split; [done|].
    intros old Hold Hseq Hv. rewrite Hold, Hv in Hstale.
    simpl in Hstale. rewrite andb_false_r, orb_false_r in Hstale. lia.
  - (* accepted *)
    assert (Hs : ~ stale).
    { intros (old & Hold & Hcond). rewrite Hold in Hstale.
      apply orb_false_iff in Hstale as [Hgt Heq].
      destruct Hcond as [?|[Hseq Hv]]; [lia|].
      apply andb_false_iff in Heq as [?|Hnull]; [lia|].
      by destruct (Envelope.v presence). }
    unfold bind at 1. rewrite (modifyPresence_run _ _ _ Hps1).
    set (ps2 := Presence.set_received
                  (<[src := presence]> (Presence.received ps1)) ps1).
    set (d2 := withPresence ps2 d1).
    assert (Hps2 : Doc.presence d2 = Some ps2) by reflexivity.
    assert (Hmarked :
      Presence.received (cleared now src presence ps2)
      = <[src := Envelope.set_processedAt now presence]> (Presence.received ps)).
    { unfold cleared, ps2. simpl. rewrite Hrec. apply insert_insert_eq. }
    destruct (Envelope.v presence) as [v|] eqn:Hv.
    + unfold bind at 1, get at 1.
      destruct (match Doc.version d2 with
                | Some version => version <? v
                | None => true
                end) eqn:Hbehind.
      { exists ps2. split; [reflexivity|]. split; [done|].
        split; [|done]. intros _. left. unfold ps2. simpl. by rewrite Hrec. }
      rewrite state_of_bind_ret.
      destruct (Doc.version d2) as [version|] eqn:Hver; [|done].
      apply Z.ltb_ge in Hbehind.
      assert (Hlook : Presence.received ps2 !! src = Some presence)
        by apply lookup_insert_eq.
      assert (Hle : to_number (Envelope.v presence) <= version)
        by (rewrite Hv; exact Hbehind).
      destruct (processReceived_cases now src true d2 ps2 presence version
                  Hne Hps2 Hlook Hproc Hver Hle)
        as [[_ Hout]|(raw & type & cp & tp & _ & _ & _ & _ & _ & _ & _ & _
                      & Hout)]; rewrite Hout.
      * eexists. split; [reflexivity|]. split; [done|]. split; [|done].
        intros _. right. exact Hmarked.
      * edestruct (received_after_setPresence src) as (ps' & Hps' & Hrec');
          [|exists ps'; split; [exact Hps'|]]; [reflexivity|].
        split; [done|]. split; [|done]. intros _. right.
        rewrite Hrec'. simpl. rewrite Hrec. apply insert_insert_eq.
    + unfold bind at 1, markProcessed.
      rewrite (modifyPresence_run _ _ _ Hps2), state_of_bind_ret.
      edestruct (received_after_setPresence src None true)
        as (ps' & Hps' & Hrec'); [|exists ps'; split; [exact Hps'|]];
        [reflexivity|].
      assert (Hfinal : Presence.received ps'
        = <[src := Envelope.set_processedAt now presence]> (Presence.received ps)).
      { rewrite Hrec'. simpl. rewrite Hrec. apply insert_insert_eq. }
      split; [done|]. split; [intros _; by right|]. intros; exact Hfinal.
Qed.

(** *** [_transformAllPresence] *)

Lemma collectChanged_ext (f g : string -> M bool) :
  (forall src d, f src d = g src d) ->
  forall l (d : doc), collectChanged f l d = collectChanged g l d.
Proof.
  intros Hfg. induction l as [|a l IH]; intros d; [reflexivity|].
  rewrite !collectChanged_cons, Hfg. destruct (g a d) as [c d'|d']; [|done].
  by rewrite IH.
Qed.

Lemma transformPresence_structural src (op : Op.t OT) (d : doc) :
  Op.op op = None ->
  _transformPresence src op d = _setPresence src None false d.
Proof.
  intros Hop. unfold _transformPresence, bind at 1, getPresence at 1.
  rewrite Hop. destruct (Doc.presence d) as [ps|] eqn:Hps; [reflexivity|].
  unfold _setPresence, bind, getPresence. by rewrite Hps.
Qed.

Lemma setPresence_step src data (d : doc) ps type :
  Doc.presence d = Some ps ->
  Doc.type d = Some type ->
  exists changed current',
    _setPresence src data false d
    = Return changed (withPresence (Presence.set_current current' ps) d)
    /\ current' !! src
       = afterSetPresence type (Presence.current ps !! src) data
    /\ (forall k, k <> src -> current' !! k = Presence.current ps !! k)
    /\ (changed = true <-> current' !! src <> Presence.current ps !! src).
Proof.
  intros Hps Hty.
  assert (Hsame : d = withPresence (Presence.set_current (Presence.current ps) ps) d).
  { unfold withPresence. destruct ps; simpl. by rewrite set_presence_same. }
  destruct data as [x|].
  - unfold _setPresence, bind at 1, getPresence at 1. rewrite Hps.
    unfold afterSetPresence. cbv zeta.
    case_bool_decide as Hid.
    + unfold bind, ret. exists false, (Presence.current ps).
      rewrite <- Hsame. simpl. split; [reflexivity|]. split; [done|].
      split; [done|]. split; [done|]. intros H; by destruct H.
    + unfold bind at 1 2, get. rewrite Hty. simpl orb.
      destruct (PType.comparePresence type) as [cmp|].
      * unfold ret at 1.
        destruct (cmp (Presence.current ps !! src) x).
        -- unfold ret. exists false, (Presence.current ps).
           rewrite <- Hsame. split; [reflexivity|]. split; [done|].
           split; [done|]. split; [done|]. intros H; by destruct H.
        -- unfold bind. rewrite (modifyPresence_run _ _ _ Hps). unfold ret.
           exists true, (<[src := x]> (Presence.current ps)).
           split; [reflexivity|]. rewrite lookup_insert_eq.
           split; [done|]. split; [intros; by apply lookup_insert_ne|].
           split; [congruence|done].
      * unfold ret at 1. unfold bind.
        rewrite (modifyPresence_run _ _ _ Hps). unfold ret.
        exists true, (<[src := x]> (Presence.current ps)).
        split; [reflexivity|]. rewrite lookup_insert_eq.
        split; [done|]. split; [intros; by apply lookup_insert_ne|].
        split; [congruence|done].
  - rewrite (setPresence_clear_run _ _ _ _ Hps). simpl afterSetPresence.
    destruct (Presence.current ps !! src) as [y|] eqn:Hy.
    + rewrite withTicks_nil. exists true, (delete src (Presence.current ps)).
      split; [reflexivity|]. rewrite lookup_delete_eq.
      split; [done|]. split; [intros; by apply lookup_delete_ne|].
      split; [congruence|done].
    + exists false, (Presence.current ps). rewrite <- Hsame.
      split; [reflexivity|]. split; [done|]. split; [done|].
      split; [done|]. rewrite Hy. intros H; by destruct H.
Qed.

Lemma transform_each_run (op : Op.t OT) type transformPresence
    (l : list string) : forall (d : doc) ps,
  Doc.presence d = Some ps ->
  Doc.type d = Some type ->
  PType.transformPresence type = Some transformPresence ->
  is_Some (Op.op op) ->
  NoDup l ->
  exists changedSrcList current',
    collectChanged (fun src => _transformPresence src op) l d
    = Return changedSrcList
        (withPresence (Presence.set_current current' ps) d)
    /\ (forall k,
          current' !! k
          = if decide (k ∈ l)
            then afterSetPresence type (Presence.current ps !! k)
                   (transformPresence (Presence.current ps !! k) (Op.op op)
                      (bool_decide (k = default "" (Op.src op))))
            else Presence.current ps !! k)
    /\ NoDup changedSrcList
    /\ (forall k,
          k ∈ changedSrcList
          <-> k ∈ l /\ current' !! k <> Presence.current ps !! k).
Proof.
  induction l as [|a l IH]; intros d ps Hps Hty Htp Hop Hnd.
  - exists [], (Presence.current ps). simpl. unfold ret, withPresence.
    destruct ps; simpl. rewrite set_presence_same by done.
    split; [reflexivity|]. split; [done|]. split; [constructor|].
    intros k. split; [by intros ?%elem_of_nil|by intros [?%elem_of_nil _]].
  - apply NoDup_cons in Hnd as [Ha Hnd].
    rewrite collectChanged_cons.
    assert (Hstep : _transformPresence a op d
      = _setPresence a
          (transformPresence (Presence.current ps !! a) (Op.op op)
             (bool_decide (a = default "" (Op.src op)))) false d).
    { unfold _transformPresence, bind at 1, getPresence at 1. rewrite Hps.
      destruct Hop as [o Ho]. rewrite Ho. unfold bind at 1 2, get.
      rewrite Hty, Htp. reflexivity. }
    rewrite Hstep.
    destruct (setPresence_step a
                (transformPresence (Presence.current ps !! a) (Op.op op)
                   (bool_decide (a = default "" (Op.src op)))) d ps type
                Hps Hty)
      as (changed & cur1 & Hrun & Hat & Hother & Hchanged).
    rewrite Hrun.
    destruct (IH (withPresence (Presence.set_current cur1 ps) d)
                 (Presence.set_current cur1 ps) eq_refl Hty Htp Hop Hnd)
      as (changedSrcList & current' & Hrest & Hlook & Hnd' & Hin).
    rewrite Hrest. simpl Presence.current in *.
    assert (Hlook_a : current' !! a = cur1 !! a).
    { rewrite Hlook. by rewrite decide_False. }
    exists (if changed then a :: changedSrcList else changedSrcList), current'.
    split; [reflexivity|]. split; [|split].
    + intros k. destruct (decide (k = a)) as [->|Hne].
      * rewrite Hlook_a, Hat. rewrite decide_True; [reflexivity|by left].
      * rewrite Hlook, (Hother k Hne).
        destruct (decide (k ∈ l)) as [Hk|Hk].
        -- rewrite decide_True; [reflexivity|by right].
        -- rewrite decide_False; [reflexivity|].
           intros [?|?]%elem_of_cons; done.
    + destruct changed; [|exact Hnd'].
      apply NoDup_cons. split; [|exact Hnd'].
      intros Hin_a%Hin. by destruct Hin_a.
    + intros k.
      assert (Hk_l : k ∈ l -> cur1 !! k = Presence.current ps !! k).
      { intros Hk. apply Hother. by intros ->. }
      destruct changed.
      * rewrite elem_of_cons, Hin, elem_of_cons. split.
        -- intros [->|[Hk Hneq]].
           ++ split; [by left|]. rewrite Hlook_a. by apply Hchanged.
           ++ split; [by right|]. by rewrite <- (Hk_l Hk).
        -- intros [[->|Hk] Hneq]; [by left|right].
           split; [exact Hk|]. by rewrite (Hk_l Hk).
      * rewrite Hin, elem_of_cons. split.
        -- intros [Hk Hneq]. split; [by right|]. by rewrite <- (Hk_l Hk).
        -- intros [[->|Hk] Hneq].
           ++ exfalso. rewrite Hlook_a in Hneq.
              apply Hchanged in Hneq. done.
           ++ split; [exact Hk|]. by rewrite (Hk_l Hk).
Qed.

(** C6, as amended. When an operation is applied, every source in
    [current], the local source [""] included, has its payload transformed
    by the operation, with the flag [src === (op.src || '')], and the result
    is put in place by [_setPresence] (the type of the document has to
    provide [transformPresence]). An operation with a null [op] clears
    the presence of every source, the local one included. One change
    notification is handed to [process.nextTick] for the sources whose
    presence changed, and none when no presence changed. *)
Theorem transformAll_transforms (op : Op.t OT) (d : doc) ps :
  Doc.presence d = Some ps ->
  (Op.op op = None ->
   _transformAllPresence op d
   = Return tt
       (withTicks
          (match keys (Presence.current ps) with
           | [] => []
           | srcList => [TEmitPresence srcList false]
           end)
          (withPresence (Presence.set_current ∅ ps) d)))
  /\ (forall type transformPresence,
        is_Some (Op.op op) ->
        Doc.type d = Some type ->
        PType.transformPresence type = Some transformPresence ->
        exists changedSrcList current',
          _transformAllPresence op d
          = Return tt
              (withTicks
                 (match changedSrcList with
                  | [] => []
                  | _ => [TEmitPresence changedSrcList false]
                  end)
                 (withPresence (Presence.set_current current' ps) d))
          /\ (forall src,
                current' !! src
                = match Presence.current ps !! src with
                  | Some x =>
                      afterSetPresence type (Some x)
                        (transformPresence (Some x) (Op.op op)
                           (bool_decide (src = default "" (Op.src op))))
                  | None => None
                  end)
          /\ NoDup changedSrcList
          /\ (forall src,
                src ∈ changedSrcList
                <-> current' !! src <> Presence.current ps !! src)).
Proof.
  intros Hps. split.
  - intros Hop. unfold _transformAllPresence, bind at 1, get at 1. rewrite Hps.
    unfold bind.
    rewrite (collectChanged_ext _ (fun src => _setPresence src None false))
      by (intros; by apply transformPresence_structural).
    rewrite (clear_each_run _ _ _ Hps);
      [|apply NoDup_keys|intros k Hk; by apply elem_of_keys in Hk].
    rewrite delete_all_keys. unfold _emitPresence.
    destruct (keys (Presence.current ps)); unfold ret; simpl;
      [by rewrite withTicks_nil|reflexivity].
  - intros type transformPresence Hop Hty Htp.
    destruct (transform_each_run op type transformPresence
                (keys (Presence.current ps)) d ps Hps Hty Htp Hop
                (NoDup_keys _))
      as (changedSrcList & current' & Hrun & Hlook & Hnd & Hin).
    exists changedSrcList, current'.
    unfold _transformAllPresence, bind at 1, get at 1. rewrite Hps.
    unfold bind. rewrite Hrun. unfold _emitPresence.
    split; [|split; [|split; [exact Hnd|]]].
    + destruct changedSrcList; unfold ret; simpl;
        [by rewrite withTicks_nil|reflexivity].
    + intros src. rewrite Hlook.
      destruct (Presence.current ps !! src) as [x|] eqn:Hx.
      * rewrite decide_True; [reflexivity|]. apply elem_of_keys. by rewrite Hx.
      * rewrite decide_False; [reflexivity|].
        intros Hk%elem_of_keys. rewrite Hx in Hk. by destruct Hk.
    + intros src. rewrite Hin. split; [by intros [_ ?]|].
      intros Hneq. split; [|exact Hneq].
      apply elem_of_keys. destruct (Presence.current ps !! src) eqn:Hx; [done|].
      exfalso. apply Hneq. rewrite Hlook, decide_False; [done|].
      intros Hk%elem_of_keys. rewrite Hx in Hk. by destruct Hk.
Qed.

(** ** Further properties of the module *)

(** *** [_setPresence] *)

(** X1. On a document with a type, [_setPresence(src, data, emit)] never
    throws; it returns [true] exactly when it changes [current], it changes
    no entry of [current] but the one of [src], where it leaves what
    [afterSetPresence] says, it touches no other field of the presence
    state, and it hands a change notification for [src] to
    [process.nextTick] exactly when [emit] is set and it returns [true]. *)
Theorem setPresence_reports_change src data emit (d : doc) ps type :
  Doc.presence d = Some ps ->
  Doc.type d = Some type ->
  exists changed current',
    _setPresence src data emit d
    = Return changed
        (withTicks (if emit && changed then [TEmitPresence [src] true] else [])
           (withPresence (Presence.set_current current' ps) d))
    /\ current' !! src
       = afterSetPresence type (Presence.current ps !! src) data
    /\ (forall k, k <> src -> current' !! k = Presence.current ps !! k)
    /\ (changed = true <-> current' <> Presence.current ps).
Proof.
  intros Hps Hty.
  destruct (setPresence_run src data emit d ps type Hps Hty)
    as (changed & current' & Hrun & Hat & Hother & Hchanged).
  exists changed, current'. split; [exact Hrun|]. split; [exact Hat|].
  split; [exact Hother|]. rewrite Hchanged. split.
  - intros Hneq Heq. apply Hneq. by rewrite Heq.
  - intros Hneq Heq. apply Hneq. apply map_eq. intros k.
    destruct (decide (k = src)) as [->|Hk]; [exact Heq|by apply Hother].
Qed.

(** *** [_cacheOp] *)

Lemma firstFresh_old (oldOpTime : Z) (l : list (Op.t OT)) :
  Forall (fun o => Op.time o < oldOpTime) (take (firstFresh oldOpTime l) l).
Proof.
  induction l as [|o l IH]; simpl; [constructor|].
  destruct (Z.geb_spec (Op.time o) oldOpTime) as [Hge|Hlt]; simpl;
    [constructor|].
  constructor; [lia|exact IH].
Qed.

(** X2. Whatever the cache holds, [_cacheOp] removes only entries that are
    older than [now - cachedOpsTimeout]: the cache afterwards is the old one
    without its first [k] entries, followed by the new operation, and each of
    these [k] entries is older than that. An operation is therefore kept for
    at least [cachedOpsTimeout] after its timestamp. *)
Theorem cacheOp_removes_only_old (now : Z) (op : Op.t OT) (d : doc) ps :
  Doc.presence d = Some ps ->
  exists k,
    _cacheOp now op d
    = Return tt
        (withPresence
           (Presence.set_cachedOps (drop k (Presence.cachedOps ps) ++ [op]) ps)
           d)
    /\ Forall (fun o => Op.time o < now - Presence.cachedOpsTimeout ps)
         (take k (Presence.cachedOps ps))
    /\ forall o, o ∈ Presence.cachedOps ps ->
         now - Presence.cachedOpsTimeout ps <= Op.time o ->
         o ∈ drop k (Presence.cachedOps ps).
Proof.
  intros Hps. eexists. split; [apply (cacheOp_run _ _ _ _ Hps)|].
  split; [apply firstFresh_old|].
  intros o Ho Hfresh.
  rewrite <- (take_drop (firstFresh (now - Presence.cachedOpsTimeout ps)
                           (Presence.cachedOps ps)) (Presence.cachedOps ps)) in Ho.
  apply elem_of_app in Ho as [Ho|Ho]; [|exact Ho].
  pose proof (firstFresh_old (now - Presence.cachedOpsTimeout ps)
                (Presence.cachedOps ps)) as Hold.
  rewrite Forall_forall in Hold. specialize (Hold o Ho). simpl in Hold. lia.
Qed.

Lemma Sorted_time_drop (k : nat) (l : list (Op.t OT)) :
  Sorted (fun a b => Op.time a <= Op.time b) l ->
  Sorted (fun a b => Op.time a <= Op.time b) (drop k l).
Proof.
  revert l. induction k as [|k IH]; intros l Hs; [by rewrite drop_0|].
  destruct l as [|o l]; [constructor|]. simpl. apply IH.
  by inversion Hs.
Qed.

Lemma Sorted_time_snoc (l : list (Op.t OT)) (op : Op.t OT) :
  Sorted (fun a b => Op.time a <= Op.time b) l ->
  Forall (fun o => Op.time o <= Op.time op) l ->
  Sorted (fun a b => Op.time a <= Op.time b) (l ++ [op]).
Proof.
  induction l as [|o l IH]; intros Hs Hall; simpl.
  - repeat constructor.
  - inversion Hs as [|? ? Hs' Hhd]; subst.
    inversion Hall as [|? ? Ho Hall']; subst.
    constructor; [by apply IH|].
    destruct l as [|o' l]; simpl; constructor; [exact Ho|].
    by inversion Hhd.
Qed.

Lemma cacheOp_sorted_run (now : Z) (op : Op.t OT) (l : list (Op.t OT))
    (timeout : Z) :
  Sorted (fun a b => Op.time a <= Op.time b) l ->
  Forall (fun o => Op.time o <= Op.time op) l ->
  Sorted (fun a b => Op.time a <= Op.time b)
    (drop (firstFresh (now - timeout) l) l ++ [op]).
Proof.
  intros Hs Hall. apply Sorted_time_snoc; [by apply Sorted_time_drop|].
  by apply Forall_drop.
Qed.

(** X3. Starting from a cache that is in the order of its timestamps, let
    operations be cached one after the other, each stamped with the time at
    which it is cached, the clock never running backwards and never behind a
    timestamp of the cache, and [cachedOpsTimeout] not negative. Then the
    run does not throw, the cache stays in the order of its timestamps, and
    after the last operation it holds no entry older than the time of that
    operation minus [cachedOpsTimeout]. *)
Theorem cacheAll_ordered_fresh (ops : list (Z * Op.t OT)) :
  forall (d : doc) ps,
    Doc.presence d = Some ps ->
    0 <= Presence.cachedOpsTimeout ps ->
    Sorted (fun a b => Op.time a <= Op.time b) (Presence.cachedOps ps) ->
    (forall o p, o ∈ Presence.cachedOps ps -> p ∈ ops -> Op.time o <= p.1) ->
    Sorted Z.le (ops.*1) ->
    Forall (fun p => Op.time p.2 = p.1) ops ->
    exists cachedOps',
      cacheAll ops d
      = Return tt (withPresence (Presence.set_cachedOps cachedOps' ps) d)
      /\ Sorted (fun a b => Op.time a <= Op.time b) cachedOps'
      /\ forall now op,
           last ops = Some (now, op) ->
           Forall (fun o => now - Presence.cachedOpsTimeout ps <= Op.time o)
             cachedOps'.
Proof.
  induction ops as [|[now op] rest IH];
    intros d ps Hps Htimeout Hsorted Hbefore Hclock Hstamped.
  - exists (Presence.cachedOps ps). simpl. unfold ret, withPresence.
    split; [|split; [exact Hsorted|intros ? ? [=]]].
    destruct ps; simpl. by rewrite set_presence_same.
  - simpl cacheAll. unfold bind. rewrite (cacheOp_run _ _ _ _ Hps).
    set (cached1 := drop (firstFresh (now - Presence.cachedOpsTimeout ps)
                            (Presence.cachedOps ps))
                         (Presence.cachedOps ps) ++ [op]).
    apply Forall_cons in Hstamped as [Hop Hstamped]. simpl in Hop.
    assert (Hsorted1 : Sorted (fun a b => Op.time a <= Op.time b) cached1).
    { apply cacheOp_sorted_run; [exact Hsorted|].
      apply Forall_forall. intros o Ho. rewrite Hop.
      apply (Hbefore o (now, op) Ho). by left. }
    assert (Hclock' : StronglySorted Z.le (now :: rest.*1)).
    { apply Sorted_StronglySorted; [intros a b c; lia|exact Hclock]. }
    apply StronglySorted_inv in Hclock' as [Hrest Hnow].
    destruct (IH (withPresence (Presence.set_cachedOps cached1 ps) d)
                 (Presence.set_cachedOps cached1 ps) eq_refl Htimeout Hsorted1)
      as (cachedOps' & Hrun & Hsorted' & Hfresh'); [| |exact Hstamped|].
    + intros o p Ho Hp. simpl in Ho. unfold cached1 in Ho.
      apply elem_of_app in Ho as [Ho|Ho].
      * apply (Hbefore o p); [|by right]. by apply subseteq_drop in Ho.
      * apply list_elem_of_singleton in Ho as ->. rewrite Hop.
        rewrite Forall_forall in Hnow. apply Hnow.
        apply list_elem_of_fmap. by exists p.
    + by apply StronglySorted_Sorted.
    + rewrite Hrun. exists cachedOps'. split; [reflexivity|].
      split; [exact Hsorted'|].
      intros now' op' Hlast. destruct rest as [|p rest'].
      * simpl in Hlast. injection Hlast as <- <-.
        simpl in Hrun. unfold ret in Hrun. injection Hrun as Hrun.
        rewrite <- Hrun. unfold cached1. apply Forall_app. split.
        -- by apply firstFresh_sorted.
        -- constructor; [|constructor]. lia.
      * apply (Hfresh' now' op'). exact Hlast.
Qed.

(** *** [flush] *)

Lemma flush_run (d : doc) ps :
  Doc.presence d = Some ps ->
  flush d = Return tt (if flushFires d ps then flushed d ps else d).
Proof.
  intros Hps. unfold flush, flushFires, bind at 1, get at 1.
  destruct (Doc.subscribed d); [|reflexivity].
  unfold bind at 1, getPresence at 1. rewrite Hps.
  destruct (Presence.inflight ps) eqn:Hinfl; [reflexivity|].
  destruct (Presence.pending ps) as [pending|] eqn:Hpend; [|reflexivity].
  destruct (hasWritePending d); [reflexivity|].
  unfold bind. rewrite (modifyPresence_run _ _ _ Hps).
  do 2 (erewrite modifyPresence_run by reflexivity).
  unfold getPresence, outgoing. simpl. unfold flushed. simpl.
  rewrite ?Hinfl, ?Hpend. reflexivity.
Qed.

(** X4. [flush] is idempotent: a second [flush] right after the first one
    does nothing, whatever the document is (after a flush that fired, a
    batch is inflight; after one that did not, nothing has changed). *)
Theorem flush_idempotent (d : doc) :
  flush (state_of (flush d)) = match flush d with
                               | Return _ d' => Return tt d'
                               | Throw d' => Throw d'
                               end.
Proof.
  destruct (Doc.presence d) as [ps|] eqn:Hps.
  - rewrite (flush_run d ps Hps). simpl state_of.
    destruct (flushFires d ps) eqn:Hfires; [|by rewrite (flush_run d ps Hps), Hfires].
    erewrite flush_run by reflexivity.
    unfold flushFires in *. simpl.
    apply andb_true_iff in Hfires as [Hfires _].
    apply andb_true_iff in Hfires as [_ Hpend].
    destruct (Presence.pending ps); [|done].
    by rewrite andb_false_r.
  - unfold flush, bind, get, getPresence. destruct (Doc.subscribed d) eqn:Hsub.
    + rewrite Hps. simpl. by rewrite Hsub, Hps.
    + simpl. by rewrite Hsub.
Qed.

(** X5. [flush] loses no continuation and calls none: the continuations
    that are inflight or pending are the same before and after, in the same
    order; [current], [received] and [cachedOps] stay as they are; and the
    only call that leaves the module is at most one [sendPresence], which
    carries the local presence and the [requestReply] flag, after which the
    flag is cleared and [inflightSeq] is the sequence number the connection
    had. *)
Theorem flush_conserves (d : doc) ps :
  Doc.presence d = Some ps ->
  exists ps',
    flush d
    = Return tt
        (if flushFires d ps
         then Doc.set_connection_seq (sendPresence_seq (Doc.connection_seq d))
                (Doc.set_events
                   (Doc.events d
                    ++ [ESendPresence (Presence.current ps !! "")
                          (Presence.requestReply ps)])
                   (withPresence ps' d))
         else d)
    /\ outstanding ps' = outstanding ps
    /\ Presence.current ps' = Presence.current ps
    /\ Presence.received ps' = Presence.received ps
    /\ Presence.cachedOps ps' = Presence.cachedOps ps
    /\ (flushFires d ps = true ->
        Presence.inflight ps' = Presence.pending ps
        /\ Presence.pending ps' = None
        /\ Presence.inflightSeq ps' = Doc.connection_seq d
        /\ Presence.requestReply ps' = false)
    /\ (flushFires d ps = false -> ps' = ps).
Proof.
  intros Hps. rewrite (flush_run d ps Hps).
  destruct (flushFires d ps) eqn:Hfires.
  - eexists. split; [reflexivity|]. simpl.
    unfold flushFires in Hfires.
    apply andb_true_iff in Hfires as [Hfires _].
    apply andb_true_iff in Hfires as [Hfires _].
    apply andb_true_iff in Hfires as [_ Hinfl].
    apply is_null_true in Hinfl.
    split; [|by repeat split].
    unfold outstanding. simpl. rewrite Hinfl. simpl. by rewrite app_nil_r.
  - exists ps. by repeat split.
Qed.

(** *** [pause] *)

Lemma clear_others_run (l : list string) : forall (d : doc) ps,
  Doc.presence d = Some ps ->
  NoDup l ->
  (forall k, k ∈ l -> is_Some (Presence.current ps !! k)) ->
  collectChanged (fun src =>
    if bool_decide (src = "") then ret false
    else _setPresence src None false) l d
  = Return (filter (fun k => k <> "") l)
      (withPresence
         (Presence.set_current
            (foldl (fun m k => delete k m) (Presence.current ps)
               (filter (fun k => k <> "") l)) ps) d).
Proof.
  induction l as [|a l IH]; intros d ps Hps Hnd Hin.
  - simpl. unfold ret. f_equal. unfold withPresence. destruct ps; simpl.
    by rewrite set_presence_same.
  - rewrite collectChanged_cons. apply NoDup_cons in Hnd as [Ha Hnd].
    case_bool_decide as Hsrc.
    + unfold ret at 1. rewrite (IH d ps Hps Hnd);
        [|intros k Hk; apply Hin; by right].
      rewrite filter_cons_False by (intros H; by apply H). reflexivity.
    + rewrite (setPresence_clear_run _ _ _ _ Hps).
      destruct (Hin a) as [x Hx]; [by left|]. rewrite Hx, withTicks_nil.
      rewrite (IH (withPresence
                     (Presence.set_current (delete a (Presence.current ps)) ps) d)
                  (Presence.set_current (delete a (Presence.current ps)) ps)
                  eq_refl Hnd).
      * rewrite filter_cons_True by done. reflexivity.
      * intros k Hk. simpl. rewrite lookup_delete_ne; [apply Hin; by right|].
        intros ->. done.
Qed.

Lemma lookup_clear_others {V} (m : gmap string V) (k : string) :
  foldl (fun m k => delete k m) m (filter (fun k => k <> "") (keys m)) !! k
  = if decide (k = "") then m !! "" else None.
Proof.
  rewrite lookup_delete_all. destruct (decide (k = "")) as [->|Hk].
  - rewrite decide_False; [reflexivity|].
    intros [H _]%list_elem_of_filter. by apply H.
  - destruct (m !! k) eqn:Hlook.
    + rewrite decide_True; [reflexivity|]. apply list_elem_of_filter.
      split; [exact Hk|]. apply elem_of_keys. by rewrite Hlook.
    + by case_decide.
Qed.

Lemma pause_run (d : doc) ps :
  Doc.presence d = Some ps ->
  pause d
  = Return tt
      (withTicks
         (match filter (fun k => k <> "") (keys (Presence.current ps)) with
          | [] => []
          | srcList => [TEmitPresence srcList false]
          end)
         (withPresence
            (Presence.mk
               (foldl (fun m k => delete k m) (Presence.current ps)
                  (filter (fun k => k <> "") (keys (Presence.current ps))))
               ∅ (Presence.receivedTimeout ps) true (Presence.cachedOps ps)
               (Presence.cachedOpsTimeout ps)
               (match Presence.inflight ps with
                | Some _ => 0
                | None => Presence.inflightSeq ps
                end)
               (match Presence.inflight ps, Presence.pending ps with
                | Some inflight, Some pending => Some (inflight ++ pending)
                | Some inflight, None => Some inflight
                | None, Some pending => Some pending
                | None, None =>
                    if is_null (Presence.current ps !! "") then None
                    else Some []
                end)
               None) d)).
Proof.
  intros Hps. unfold pause, bind at 1, get at 1. rewrite Hps.
  assert (Hrest : forall (d1 : doc) (ps1 : presence_state),
    Doc.presence d1 = Some ps1 ->
    Presence.current ps1 = Presence.current ps ->
    bind (modifyPresence (Presence.set_received ∅)) (fun _ =>
      bind (modifyPresence (Presence.set_requestReply true)) (fun _ =>
        bind getPresence (fun ps =>
          bind (collectChanged (fun src =>
                  if bool_decide (src = "") then ret false
                  else _setPresence src None false)
                  (keys (Presence.current ps)))
               (fun changedSrcList => _emitPresence changedSrcList false))))
      d1
    = Return tt
        (withTicks
           (match filter (fun k => k <> "") (keys (Presence.current ps)) with
            | [] => []
            | srcList => [TEmitPresence srcList false]
            end)
           (withPresence
              (Presence.set_current
                 (foldl (fun m k => delete k m) (Presence.current ps)
                    (filter (fun k => k <> "") (keys (Presence.current ps))))
                 (Presence.set_requestReply true
                    (Presence.set_received ∅ ps1))) d1))).
  { intros d1 ps1 Hps1 Hcur. unfold bind at 1 2 3.
    rewrite (modifyPresence_run _ _ _ Hps1).
    erewrite modifyPresence_run by reflexivity.
    unfold getPresence. simpl Doc.presence. cbv iota beta.
    simpl Presence.current. rewrite Hcur. unfold bind.
    erewrite clear_others_run;
      [|reflexivity|apply NoDup_keys
       |intros k Hk; simpl; rewrite Hcur; by apply elem_of_keys in Hk].
    simpl Presence.current. rewrite Hcur. unfold _emitPresence.
    destruct (filter _ _); unfold ret; simpl;
      [by rewrite withTicks_nil|reflexivity]. }
  unfold bind at 1.
  destruct (Presence.inflight ps) as [inflight|] eqn:Hinfl.
  - unfold bind at 1 2. rewrite (modifyPresence_run _ _ _ Hps).
    do 2 (erewrite modifyPresence_run by reflexivity).
    erewrite Hrest; [|reflexivity|reflexivity].
    destruct (Presence.pending ps); reflexivity.
  - destruct (Presence.pending ps) as [pending|] eqn:Hpend;
      cbn [is_null andb negb].
    + unfold ret at 1. cbv beta iota. rewrite (Hrest d ps Hps eq_refl).
      unfold withTicks, withPresence, Doc.set_presence, Doc.set_nextTick,
        Presence.set_current, Presence.set_requestReply,
        Presence.set_received, Presence.set_pending; simpl.
      rewrite ?Hinfl, ?Hpend. reflexivity.
    + destruct (Presence.current ps !! "") eqn:Hlocal; cbn [is_null negb].
      * rewrite (modifyPresence_run _ _ _ Hps).
        erewrite Hrest; [|reflexivity|reflexivity].
        unfold withTicks, withPresence, Doc.set_presence, Doc.set_nextTick,
        Presence.set_current, Presence.set_requestReply,
        Presence.set_received, Presence.set_pending; simpl.
      rewrite ?Hinfl, ?Hpend. reflexivity.
      * unfold ret at 1. cbv beta iota. rewrite (Hrest d ps Hps eq_refl).
        unfold withTicks, withPresence, Doc.set_presence, Doc.set_nextTick,
        Presence.set_current, Presence.set_requestReply,
        Presence.set_received, Presence.set_pending; simpl.
      rewrite ?Hinfl, ?Hpend. reflexivity.
Qed.

Lemma notification_of_list (srcList : list string) (submitted : bool) :
  match srcList with
  | [] => []
  | src :: rest => [TEmitPresence (Callback:=Callback) (src :: rest) submitted]
  end
  = match srcList with
    | [] => []
    | _ :: _ => [TEmitPresence srcList submitted]
    end.
Proof. by destruct srcList. Qed.

(** X6. [pause] never throws on a document with a presence state. It clears
    the presence of every source but the local one, whose presence stays,
    drops every received entry, sets [requestReply], and leaves nothing
    inflight; the continuations that were inflight or pending are all
    pending afterwards, the inflight ones first, none lost and none called;
    a pending batch exists afterwards exactly when there was a batch before
    or the local presence is set; and one change notification is deferred
    for the sources whose presence was cleared. *)
Theorem pause_resets (d : doc) ps :
  Doc.presence d = Some ps ->
  exists ps' srcList,
    pause d
    = Return tt
        (withTicks
           (match srcList with
            | [] => []
            | _ => [TEmitPresence srcList false]
            end)
           (withPresence ps' d))
    /\ (forall k,
          Presence.current ps' !! k
          = if decide (k = "") then Presence.current ps !! "" else None)
    /\ (forall k,
          k ∈ srcList <-> k <> "" /\ is_Some (Presence.current ps !! k))
    /\ Presence.received ps' = ∅
    /\ Presence.requestReply ps' = true
    /\ Presence.inflight ps' = None
    /\ Presence.inflightSeq ps'
       = match Presence.inflight ps with
         | Some _ => 0
         | None => Presence.inflightSeq ps
         end
    /\ default [] (Presence.pending ps') = outstanding ps
    /\ (is_Some (Presence.pending ps')
        <-> is_Some (Presence.inflight ps) \/ is_Some (Presence.pending ps)
            \/ is_Some (Presence.current ps !! ""))
    /\ Presence.cachedOps ps' = Presence.cachedOps ps.
Proof.
  intros Hps. eexists _, _.
  split; [rewrite (pause_run d ps Hps), notification_of_list; reflexivity|].
  simpl. split; [intros k; apply lookup_clear_others|].
  split.
  { intros k. rewrite list_elem_of_filter, elem_of_keys. reflexivity. }
  do 3 (split; [reflexivity|]).
  split; [reflexivity|].
  unfold outstanding. split; [|split; [|reflexivity]].
  - destruct (Presence.inflight ps), (Presence.pending ps); simpl;
      rewrite ?app_nil_r; try reflexivity.
    by destruct (is_null _).
  - destruct (Presence.inflight ps), (Presence.pending ps),
      (Presence.current ps !! ""); simpl; split;
      try (intros _; eauto; fail);
      try (intros [? [=]]);
      try (intros [[? [=]]|[[? [=]]|[? [=]]]]).
Qed.

(** X7. Pausing and then flushing re-announces the local presence: when the
    document is subscribed, has no write pending, and a batch was inflight
    or pending or the local presence is set, the flush after [pause] sends
    the local presence with [requestReply] set, and the continuations that
    were inflight or pending before the pause are all inflight under the
    sequence number the connection had. *)
Theorem pause_then_flush_resends (d : doc) ps :
  Doc.presence d = Some ps ->
  Doc.subscribed d = true ->
  hasWritePending (state_of (pause d)) = false ->
  is_Some (Presence.inflight ps) \/ is_Some (Presence.pending ps)
  \/ is_Some (Presence.current ps !! "") ->
  exists d' ps',
    flush (state_of (pause d)) = Return tt d'
    /\ Doc.events d'
       = Doc.events d ++ [ESendPresence (Presence.current ps !! "") true]
    /\ Doc.presence d' = Some ps'
    /\ Presence.inflight ps' = Some (outstanding ps)
    /\ Presence.inflightSeq ps' = Doc.connection_seq d
    /\ Presence.pending ps' = None
    /\ Presence.requestReply ps' = false.
Proof.
  intros Hps Hsub Hwrite Hsome.
  rewrite (pause_run d ps Hps) in *. simpl state_of in *.
  erewrite flush_run by reflexivity.
  unfold flushFires. rewrite Hwrite. simpl Doc.subscribed. rewrite Hsub.
  unfold flushed, outstanding. simpl.
  rewrite lookup_clear_others, decide_True by reflexivity.
  destruct (Presence.inflight ps) as [inflight|],
    (Presence.pending ps) as [pending|],
    (Presence.current ps !! "") as [local|]; simpl;
    try (eexists _, _; split; [reflexivity|]; simpl;
         rewrite ?app_nil_r; by repeat split).
  destruct Hsome as [[? [=]]|[[? [=]]|[? [=]]]].
Qed.

(** *** The acknowledgment path of [_handlePresence] *)

Lemma ack_run (now : Z) (err : option ShareDBError.t) (ack : Envelope.t Data)
    (d : doc) ps :
  Doc.subscribed d = true ->
  no_src (Envelope.src ack) = true ->
  Doc.presence d = Some ps ->
  _handlePresence now err ack d
  = if Presence.inflightSeq ps =? Envelope.seq ack
    then bind flush (fun _ => outgoing EEmitNothingPending) (acked err d ps)
    else Return tt d.
Proof.
  intros Hsub Hsrc Hps. unfold _handlePresence, bind at 1, get at 1.
  rewrite Hsub, Hsrc. change (negb true) with false. cbv iota.
  unfold bind at 1, getPresence at 1. rewrite Hps.
  destruct (Presence.inflightSeq ps =? Envelope.seq ack); [|reflexivity].
  unfold bind at 1 2. rewrite (modifyPresence_run _ _ _ Hps).
  erewrite modifyPresence_run by reflexivity.
  unfold acked, bind at 1 2.
  destruct (Presence.inflight ps) as [callbacks|]; simpl default.
  - unfold _callEach.
    destruct callbacks as [|cb callbacks], err as [e|];
      unfold outgoing, ret; simpl; rewrite ?app_nil_r; reflexivity.
  - unfold ret at 1. destruct err as [e|]; unfold outgoing, ret; simpl;
      rewrite ?app_nil_r; reflexivity.
Qed.

(** X8. The acknowledgment of the inflight submission (a message without
    [src] whose sequence is [inflightSeq]), handled while the document is
    subscribed, resets the handshake, calls every continuation of the
    inflight batch once, in the order of the batch, with the error the
    acknowledgment carries, emits the error when there is one and no
    continuation took it, then flushes (which sends the pending batch, if
    there is one and no write is pending) and emits that nothing is
    pending. *)
Theorem ack_resolves_inflight (now : Z) (err : option ShareDBError.t)
    (ack : Envelope.t Data) (d : doc) ps :
  Doc.subscribed d = true ->
  no_src (Envelope.src ack) = true ->
  Doc.presence d = Some ps ->
  Presence.inflightSeq ps = Envelope.seq ack ->
  let ps1 := Presence.set_inflightSeq 0 (Presence.set_inflight None ps) in
  let d1 := acked err d ps in
  let d2 := if flushFires d1 ps1 then flushed d1 ps1 else d1 in
  _handlePresence now err ack d
  = Return tt (Doc.set_events (Doc.events d2 ++ [EEmitNothingPending]) d2)
  /\ Doc.events d1
     = Doc.events d
       ++ map (fun cb => ECall cb err) (default [] (Presence.inflight ps))
       ++ match err, default [] (Presence.inflight ps) with
          | Some e, [] => [EEmitError e]
          | _, _ => []
          end
  /\ (flushFires d1 ps1 = true <->
      is_Some (Presence.pending ps) /\ hasWritePending d1 = false).
Proof.
  intros Hsub Hsrc Hps Hseq ps1 d1 d2.
  rewrite (ack_run now err ack d ps Hsub Hsrc Hps), Hseq, Z.eqb_refl.
  split; [|split; [reflexivity|]].
  - unfold bind. rewrite (flush_run (acked err d ps) ps1 eq_refl). reflexivity.
  - unfold flushFires, d1, ps1. simpl. rewrite Hsub.
    destruct (Presence.pending ps), (hasWritePending (acked err d ps));
      simpl;
      (split;
       [intros H; first [discriminate H|split; [by eexists|reflexivity]]
       |intros [[x Hx] Hw];
        first [discriminate Hx|discriminate Hw|reflexivity]]).
Qed.

Lemma ack_mismatch (now : Z) (err : option ShareDBError.t)
    (ack : Envelope.t Data) (d : doc) ps :
  no_src (Envelope.src ack) = true ->
  Doc.presence d = Some ps ->
  Presence.inflightSeq ps <> Envelope.seq ack ->
  _handlePresence now err ack d = Return tt d.
Proof.
  intros Hsrc Hps Hseq. unfold _handlePresence, bind at 1, get at 1.
  destruct (Doc.subscribed d); [|reflexivity]. rewrite Hsrc.
  change (negb true) with false. cbv iota.
  unfold bind at 1, getPresence at 1. rewrite Hps.
  destruct (Z.eqb_spec (Presence.inflightSeq ps) (Envelope.seq ack)); done.
Qed.

Lemma hardRollback_run (d : doc) ps :
  Doc.presence d = Some ps ->
  _hardRollbackPresence d
  = Return
      (match Presence.inflight ps with Some b => [b] | None => [] end
       ++ match Presence.pending ps with Some b => [b] | None => [] end)
      (withTicks
         (match keys (Presence.current ps) with
          | [] => []
          | srcList => [TEmitPresence srcList false]
          end)
         (withPresence
            (Presence.mk ∅ ∅ (Presence.receivedTimeout ps) true []
               (Presence.cachedOpsTimeout ps) 0 None None) d)).
Proof.
  intros Hps.
  unfold _hardRollbackPresence, bind at 1, getPresence at 1. rewrite Hps.
  unfold bind.
  rewrite (modifyPresence_run _ _ _ Hps).
  do 5 (erewrite modifyPresence_run by reflexivity).
  unfold getPresence. simpl Doc.presence. cbv iota beta.
  erewrite clear_each_run;
    [|reflexivity|apply NoDup_keys|intros k Hk; by apply elem_of_keys in Hk].
  simpl Presence.current. rewrite delete_all_keys.
  unfold _emitPresence.
  destruct (keys (Presence.current ps)) as [|a l]; unfold ret; simpl.
  - by rewrite withTicks_nil.
  - reflexivity.
Qed.

(** X9. An acknowledgment that arrives late is ignored: after a hard
    rollback, and after a pause of a document that keeps the handshake
    invariant, an acknowledgment with a sequence other than 0 changes
    nothing and calls nothing, so the continuations that the rollback
    returned are not called a second time and those that the pause moved to
    [pending] are not resolved early. *)
Theorem late_ack_ignored (now : Z) (err : option ShareDBError.t)
    (ack : Envelope.t Data) (d : doc) ps :
  Doc.presence d = Some ps ->
  no_src (Envelope.src ack) = true ->
  Envelope.seq ack <> 0 ->
  _handlePresence now err ack (state_of (_hardRollbackPresence d))
  = Return tt (state_of (_hardRollbackPresence d))
  /\ (handshake_ok d ->
      _handlePresence now err ack (state_of (pause d))
      = Return tt (state_of (pause d))).
Proof.
  intros Hps Hsrc Hseq. split.
  - rewrite (hardRollback_run d ps Hps). simpl state_of.
    eapply ack_mismatch; [exact Hsrc|reflexivity|]. simpl. congruence.
  - intros Hok. rewrite (pause_run d ps Hps). simpl state_of.
    eapply ack_mismatch; [exact Hsrc|reflexivity|]. simpl.
    destruct (Presence.inflight ps) eqn:Hinfl; [congruence|].
    apply (Hok ps Hps) in Hinfl. congruence.
Qed.

(** *** Reconciliation of one source, all cases at once *)

Lemma processReceived_run (now : Z) (src : string) (emit : bool) (d : doc) ps :
  Doc.presence d = Some ps ->
  exists changed current' received',
    _processReceivedPresence now src emit d
    = Return changed
        (withTicks (if emit && changed then [TEmitPresence [src] true] else [])
           (withPresence
              (Presence.set_current current'
                 (Presence.set_received received' ps)) d))
    /\ (forall k, k <> src -> current' !! k = Presence.current ps !! k)
    /\ (forall k, k <> src -> received' !! k = Presence.received ps !! k)
    /\ (changed = true <-> current' !! src <> Presence.current ps !! src)
    /\ reconciled now (Presence.receivedTimeout ps) src
         (Presence.current ps !! src) (Presence.received ps !! src)
         (current' !! src) (received' !! src).
Proof.
  intros Hps.
  assert (Hsame : forall rcv,
    withPresence (Presence.set_received rcv ps) d
    = withTicks (if emit && false then [TEmitPresence [src] true] else [])
        (withPresence
           (Presence.set_current (Presence.current ps)
              (Presence.set_received rcv ps)) d)).
  { intros rcv. rewrite andb_false_r, withTicks_nil. by destruct ps. }
  assert (Hid : d
    = withTicks (if emit && false then [TEmitPresence [src] true] else [])
        (withPresence
           (Presence.set_current (Presence.current ps)
              (Presence.set_received (Presence.received ps) ps)) d)).
  { rewrite <- Hsame. unfold withPresence.
    replace (Presence.set_received (Presence.received ps) ps) with ps
      by by destruct ps.
    by rewrite set_presence_same. }
  assert (Hnothing :
    _processReceivedPresence now src emit d = Return false d ->
    reconciled now (Presence.receivedTimeout ps) src
      (Presence.current ps !! src) (Presence.received ps !! src)
      (Presence.current ps !! src) (Presence.received ps !! src) ->
    exists changed current' received',
      _processReceivedPresence now src emit d
      = Return changed
          (withTicks (if emit && changed then [TEmitPresence [src] true] else [])
             (withPresence
                (Presence.set_current current'
                   (Presence.set_received received' ps)) d))
      /\ (forall k, k <> src -> current' !! k = Presence.current ps !! k)
      /\ (forall k, k <> src -> received' !! k = Presence.received ps !! k)
      /\ (changed = true <-> current' !! src <> Presence.current ps !! src)
      /\ reconciled now (Presence.receivedTimeout ps) src
           (Presence.current ps !! src) (Presence.received ps !! src)
           (current' !! src) (received' !! src)).
  { intros -> Hrec.
    exists false, (Presence.current ps), (Presence.received ps).
    split; [by rewrite <- Hid|].
    split; [done|]. split; [done|]. split; [|exact Hrec].
    split; [done|]. intros H; by destruct H. }
  unfold reconciled in *.
  destruct (decide (src = "")) as [Hsrc|Hsrc].
  { apply Hnothing.
    - unfold _processReceivedPresence. by rewrite bool_decide_true.
    - rewrite bool_decide_true by done.
      by destruct (Presence.received ps !! src). }
  rewrite bool_decide_false in * by done.
  destruct (Presence.received ps !! src) as [e|] eqn:He.
  2:{ apply Hnothing; [|done].
      unfold _processReceivedPresence. rewrite bool_decide_false by done.
      unfold bind at 1, getPresence at 1. by rewrite Hps, He. }
  destruct (Envelope.processedAt e) as [t|] eqn:Hproc.
  { assert (Hrun : _processReceivedPresence now src emit d
      = Return false
          (if now >=? t + Presence.receivedTimeout ps
           then withPresence
                  (Presence.set_received (delete src (Presence.received ps)) ps)
                  d
           else d)).
    { unfold _processReceivedPresence. rewrite bool_decide_false by done.
      unfold bind at 1, getPresence at 1. rewrite Hps, He, Hproc. unfold bind.
      destruct (now >=? t + Presence.receivedTimeout ps); [|reflexivity].
      by rewrite (modifyPresence_run _ _ _ Hps). }
    destruct (now >=? t + Presence.receivedTimeout ps) eqn:Hexp.
    - rewrite Hrun.
      exists false, (Presence.current ps),
        (delete src (Presence.received ps)).
      split; [by rewrite <- Hsame|].
      split; [done|]. split; [intros k Hk; by apply lookup_delete_ne|].
      split; [split; [done|intros H; by destruct H]|].
      split; [done|apply lookup_delete_eq].
    - apply Hnothing; [exact Hrun|done]. }
  assert (Hwaiting :
    Doc.version d = None
    \/ (exists version, Doc.version d = Some version
                        /\ version < to_number (Envelope.v e)) ->
    _processReceivedPresence now src emit d = Return false d).
  { intros Hbehind. unfold _processReceivedPresence.
    rewrite bool_decide_false by done.
    unfold bind at 1, getPresence at 1. rewrite Hps, He, Hproc.
    unfold bind, get.
    destruct Hbehind as [->|(version & -> & Hlt)]; [done|].
    destruct (Z.ltb_spec version (to_number (Envelope.v e))); [done|lia]. }
  destruct (Doc.version d) as [version|] eqn:Hver;
    [|apply Hnothing; [apply Hwaiting; by left|by left]].
  destruct (Z.lt_ge_cases version (to_number (Envelope.v e))) as [Hlt|Hle].
  { apply Hnothing; [|by left]. apply Hwaiting. right. by exists version. }
  destruct (processReceived_cases now src emit d ps e version
              Hsrc Hps He Hproc Hver Hle)
    as [[_ Hout]|(raw & type & cp & tp & Hp & Hty & Hcp & Htp & _ & _ & _ & _
                  & Hout)].
  - rewrite Hout. unfold rejected, cleared.
    exists (bool_decide (is_Some (Presence.current ps !! src))),
      (delete src (Presence.current ps)),
      (<[src := Envelope.set_processedAt now e]> (Presence.received ps)).
    split; [by destruct ps|].
    split; [intros k Hk; by apply lookup_delete_ne|].
    split; [intros k Hk; by apply lookup_insert_ne|].
    split; [|right; apply lookup_insert_eq].
    rewrite lookup_delete_eq, bool_decide_eq_true.
    destruct (Presence.current ps !! src) as [x|].
    + split; [done|]. intros _. by eexists.
    + split; [by intros [? ?]|done].
  - rewrite Hout.
    match goal with
    | |- context [_setPresence src ?data emit ?d1] =>
        destruct (setPresence_run src data emit d1 _ type eq_refl Hty)
          as (changed & current' & Hrun & _ & Hothers & Hchanged)
    end.
    rewrite Hrun.
    exists changed, current',
      (<[src := Envelope.set_processedAt now e]> (Presence.received ps)).
    split; [by destruct ps|].
    split; [exact Hothers|].
    split; [intros k Hk; by apply lookup_insert_ne|].
    split; [exact Hchanged|].
    right. apply lookup_insert_eq.
Qed.

(** X10. On a document with a presence state, reconciliation of one source
    never throws. It touches nothing but [current[src]] and
    [received[src]]: the entries of the other sources, the continuations
    that wait, the handshake, the cached operations and the reply flag stay
    as they were, and nothing leaves the module. It returns [true] exactly
    when [current[src]] changed, hands a change notification to
    [process.nextTick] exactly when [emit] is set and it returns [true],
    and what it leaves for [src] is what [reconciled] allows. *)
Theorem processReceived_local (now : Z) (src : string) (emit : bool)
    (d : doc) ps :
  Doc.presence d = Some ps ->
  exists changed ps',
    _processReceivedPresence now src emit d
    = Return changed
        (withTicks (if emit && changed then [TEmitPresence [src] true] else [])
           (withPresence ps' d))
    /\ (forall k, k <> src ->
          Presence.current ps' !! k = Presence.current ps !! k
          /\ Presence.received ps' !! k = Presence.received ps !! k)
    /\ (changed = true
        <-> Presence.current ps' !! src <> Presence.current ps !! src)
    /\ reconciled now (Presence.receivedTimeout ps) src
         (Presence.current ps !! src) (Presence.received ps !! src)
         (Presence.current ps' !! src) (Presence.received ps' !! src)
    /\ handshake ps' = handshake ps
    /\ Presence.pending ps' = Presence.pending ps
    /\ Presence.cachedOps ps' = Presence.cachedOps ps
    /\ Presence.requestReply ps' = Presence.requestReply ps
    /\ Doc.events (withPresence ps' d) = Doc.events d.
Proof.
  intros Hps.
  destruct (processReceived_run now src emit d ps Hps)
    as (changed & current' & received' & Hrun & Hcur & Hrcv & Hchanged & Hrec).
  exists changed,
    (Presence.set_current current' (Presence.set_received received' ps)).
  split; [exact Hrun|]. simpl.
  split; [intros k Hk; split; [by apply Hcur|by apply Hrcv]|].
  split; [exact Hchanged|]. split; [exact Hrec|]. by destruct ps.
Qed.

(** *** [_processAllReceivedPresence] *)

Lemma processEach_run (now_of : string -> Z) (l : list string) :
  forall (d : doc) ps,
  Doc.presence d = Some ps ->
  NoDup l ->
  exists changedSrcList current' received',
    collectChanged
      (fun src => _processReceivedPresence (now_of src) src false) l d
    = Return changedSrcList
        (withPresence
           (Presence.set_current current'
              (Presence.set_received received' ps)) d)
    /\ (forall k, k ∉ l ->
          current' !! k = Presence.current ps !! k
          /\ received' !! k = Presence.received ps !! k)
    /\ (forall k, k ∈ l ->
          reconciled (now_of k) (Presence.receivedTimeout ps) k
            (Presence.current ps !! k) (Presence.received ps !! k)
            (current' !! k) (received' !! k))
    /\ NoDup changedSrcList
    /\ (forall k,
          k ∈ changedSrcList
          <-> k ∈ l /\ current' !! k <> Presence.current ps !! k).
Proof.
  induction l as [|a l IH]; intros d ps Hps Hnd.
  - exists [], (Presence.current ps), (Presence.received ps).
    split.
    { simpl. unfold ret, withPresence.
      replace (Presence.set_current (Presence.current ps)
                 (Presence.set_received (Presence.received ps) ps)) with ps
        by by destruct ps.
      by rewrite set_presence_same. }
    split; [done|]. split; [by intros k ?%elem_of_nil|].
    split; [constructor|].
    intros k. split; [by intros ?%elem_of_nil|by intros [?%elem_of_nil _]].
  - apply NoDup_cons in Hnd as [Ha Hnd].
    rewrite collectChanged_cons.
    destruct (processReceived_run (now_of a) a false d ps Hps)
      as (changed & cur1 & rcv1 & Hrun & Hcur1 & Hrcv1 & Hchanged & Hrec).
    rewrite Hrun. simpl andb. cbv iota. rewrite withTicks_nil.
    destruct (IH (withPresence
                    (Presence.set_current cur1
                       (Presence.set_received rcv1 ps)) d)
                 (Presence.set_current cur1 (Presence.set_received rcv1 ps))
                 eq_refl Hnd)
      as (changedSrcList & current' & received' & Hrest & Hout & Hin & Hnd'
          & Hch).
    rewrite Hrest.
    replace (Presence.receivedTimeout
               (Presence.set_current cur1 (Presence.set_received rcv1 ps)))
      with (Presence.receivedTimeout ps) in Hin by by destruct ps.
    simpl Presence.current in *. simpl Presence.received in *.
    destruct (Hout a Ha) as [Hcur_a Hrcv_a].
    assert (Hk_l : forall k, k ∈ l ->
      cur1 !! k = Presence.current ps !! k
      /\ rcv1 !! k = Presence.received ps !! k).
    { intros k Hk. assert (k <> a) by by intros ->.
      split; [by apply Hcur1|by apply Hrcv1]. }
    exists (if changed then a :: changedSrcList else changedSrcList),
      current', received'.
    split; [by destruct ps|]. split; [|split; [|split]].
    + intros k Hk. apply not_elem_of_cons in Hk as [Hne Hk].
      destruct (Hout k Hk) as [-> ->].
      split; [by apply Hcur1|by apply Hrcv1].
    + intros k [->|Hk]%elem_of_cons.
      * by rewrite Hcur_a, Hrcv_a.
      * destruct (Hk_l k Hk) as [<- <-]. by apply Hin.
    + destruct changed; [|exact Hnd'].
      apply NoDup_cons. split; [|exact Hnd'].
      intros Hin_a%Hch. by destruct Hin_a.
    + intros k. destruct changed.
      * rewrite elem_of_cons, Hch, elem_of_cons. split.
        -- intros [->|[Hk Hneq]].
           ++ split; [by left|]. rewrite Hcur_a. by apply Hchanged.
           ++ split; [by right|]. by destruct (Hk_l k Hk) as [<- _].
        -- intros [[->|Hk] Hneq]; [by left|right].
           split; [exact Hk|]. by destruct (Hk_l k Hk) as [-> _].
      * rewrite Hch, elem_of_cons. split.
        -- intros [Hk Hneq]. split; [by right|].
           by destruct (Hk_l k Hk) as [<- _].
        -- intros [[->|Hk] Hneq].
           ++ exfalso. rewrite Hcur_a in Hneq. apply Hchanged in Hneq. done.
           ++ split; [exact Hk|]. by destruct (Hk_l k Hk) as [-> _].
Qed.

(** X11. On a document with a presence state, reconciliation of all
    sources never throws and nothing leaves the module. Every entry of
    [received] is treated as [reconciled] says, each at the time of its own
    turn: a processed entry is deleted once [receivedTimeout] has passed
    since it was processed and is kept until then, and an entry that is not
    processed waits or is marked processed. The presence of a source
    without an entry, the local presence among them, is left alone, as are
    the continuations that wait, the handshake, the cached operations and
    the reply flag. One change notification, flagged [true], is handed to
    [process.nextTick] for the sources whose presence changed, each named
    once, and none when no presence changed. *)
Theorem processAll_collects (now_of : string -> Z) (d : doc) ps :
  Doc.presence d = Some ps ->
  exists changedSrcList ps',
    _processAllReceivedPresence now_of d
    = Return tt
        (withTicks
           (match changedSrcList with
            | [] => []
            | _ => [TEmitPresence changedSrcList true]
            end)
           (withPresence ps' d))
    /\ (forall src,
          reconciled (now_of src) (Presence.receivedTimeout ps) src
            (Presence.current ps !! src) (Presence.received ps !! src)
            (Presence.current ps' !! src) (Presence.received ps' !! src))
    /\ NoDup changedSrcList
    /\ (forall src,
          src ∈ changedSrcList
          <-> Presence.current ps' !! src <> Presence.current ps !! src)
    /\ handshake ps' = handshake ps
    /\ Presence.pending ps' = Presence.pending ps
    /\ Presence.cachedOps ps' = Presence.cachedOps ps
    /\ Presence.requestReply ps' = Presence.requestReply ps
    /\ Doc.events (withPresence ps' d) = Doc.events d.
Proof.
  intros Hps.
  destruct (processEach_run now_of (keys (Presence.received ps)) d ps Hps
              (NoDup_keys _))
    as (changedSrcList & current' & received' & Hrun & Hout & Hin & Hnd & Hch).
  exists changedSrcList,
    (Presence.set_current current' (Presence.set_received received' ps)).
  split.
  { unfold _processAllReceivedPresence, bind at 1, get at 1. rewrite Hps.
    unfold bind. rewrite Hrun. unfold _emitPresence.
    destruct changedSrcList; unfold ret, defer; simpl.
    - by rewrite withTicks_nil.
    - reflexivity. }
  simpl.
  split.
  { intros src.
    destruct (decide (src ∈ keys (Presence.received ps))) as [Hk|Hk].
    - by apply Hin.
    - destruct (Hout src Hk) as [-> ->].
      assert (Presence.received ps !! src = None) as ->.
      { destruct (Presence.received ps !! src) eqn:He; [|done].
        exfalso. apply Hk, elem_of_keys. by eexists. }
      done. }
  split; [exact Hnd|].
  split.
  { intros src. rewrite Hch. split; [by intros [_ ?]|].
    intros Hneq. split; [|exact Hneq].
    destruct (decide (src ∈ keys (Presence.received ps))) as [Hk|Hk]; [done|].
    by destruct (Hout src Hk) as [? _]. }
  by destruct ps.
Qed.

(** *** [_handlePresence], a message of another client *)

Lemma reply_run (r : bool) (d : doc) ps :
  Doc.presence d = Some ps ->
  bind getPresence (fun ps =>
    if r && is_null (Presence.pending ps)
    then bind (modifyPresence (Presence.set_pending (Some [])))
              (fun _ => flush)
    else ret tt) d
  = Return tt (replied r d ps).
Proof.
  intros Hps. unfold bind at 1, getPresence at 1, replied. rewrite Hps.
  destruct (r && is_null (Presence.pending ps)); [|reflexivity].
  unfold bind. rewrite (modifyPresence_run _ _ _ Hps).
  by erewrite flush_run by reflexivity.
Qed.

Lemma replied_frame (r : bool) (d : doc) ps :
  Doc.presence d = Some ps ->
  exists ps1,
    Doc.presence (replied r d ps) = Some ps1
    /\ Presence.current ps1 = Presence.current ps
    /\ Presence.received ps1 = Presence.received ps
    /\ Presence.cachedOps ps1 = Presence.cachedOps ps
    /\ Presence.receivedTimeout ps1 = Presence.receivedTimeout ps
    /\ Doc.version (replied r d ps) = Doc.version d
    /\ Doc.type (replied r d ps) = Doc.type d
    /\ Doc.nextTick (replied r d ps) = Doc.nextTick d
    /\ (Doc.events (replied r d ps) = Doc.events d
        \/ Doc.events (replied r d ps)
           = Doc.events d
             ++ [ESendPresence (Presence.current ps !! "")
                   (Presence.requestReply ps)]).
Proof.
  intros Hps. unfold replied.
  destruct (r && is_null (Presence.pending ps));
    [|exists ps; repeat split; try done; by left].
  cbv zeta.
  destruct (flushFires _ _); eexists; (split; [reflexivity|]); simpl;
    repeat split; try done; first [by left|by right].
Qed.

(** X12. When a subscribed document takes a message of another client that
    carries no version (the server sends one for a client that went away)
    and is not older than the entry already there for its source, the
    message is stored marked processed at [now] and the presence of the
    source is cleared, whatever the version of the document, its type and
    its cached operations are: nothing is fetched and the payload is never
    looked at. A change notification for the source is handed to
    [process.nextTick] exactly when there was presence to clear. Before
    that, the reply flag is dealt with; this touches neither [current] nor
    [received], and sends at most the local presence. *)
Theorem handlePresence_null_version (now : Z) (presence : Envelope.t Data)
    (d : doc) ps src :
  Doc.subscribed d = true ->
  Doc.presence d = Some ps ->
  Envelope.src presence = Some src ->
  src <> "" ->
  Envelope.v presence = None ->
  (forall old, Presence.received ps !! src = Some old ->
               Envelope.seq old <= Envelope.seq presence) ->
  exists ps1,
    Doc.presence (replied (Envelope.r presence) d ps) = Some ps1
    /\ Presence.current ps1 = Presence.current ps
    /\ Presence.received ps1 = Presence.received ps
    /\ (Doc.events (replied (Envelope.r presence) d ps) = Doc.events d
        \/ Doc.events (replied (Envelope.r presence) d ps)
           = Doc.events d
             ++ [ESendPresence (Presence.current ps !! "")
                   (Presence.requestReply ps)])
    /\ _handlePresence now None presence d
       = Return tt
           (withTicks
              (if bool_decide (is_Some (Presence.current ps !! src))
               then [TEmitPresence [src] true] else [])
              (withPresence (cleared now src presence ps1)
                 (replied (Envelope.r presence) d ps))).
Proof.
  intros Hsub Hps Hsrc Hne Hv Hfresh.
  destruct (replied_frame (Envelope.r presence) d ps Hps)
    as (ps1 & Hps1 & Hcur & Hrcv & _ & _ & _ & _ & _ & Hev).
  exists ps1. split; [exact Hps1|]. split; [exact Hcur|].
  split; [exact Hrcv|]. split; [exact Hev|].
  unfold _handlePresence, bind at 1, get at 1. rewrite Hsub, Hsrc.
  change (negb true) with false. unfold no_src.
  rewrite bool_decide_false by done.
  change (default "" (Some src)) with src. unfold bind at 1.
  rewrite (reply_run _ _ _ Hps).
  unfold bind at 1, getPresence at 1. rewrite Hps1, Hrcv, Hv.
  assert (Hnot_stale :
    match Presence.received ps !! src with
    | Some old =>
        (Envelope.seq old >? Envelope.seq presence)
        || ((Envelope.seq old =? Envelope.seq presence) && negb (is_null (@None Z)))
    | None => false
    end = false).
  { destruct (Presence.received ps !! src) as [old|] eqn:Hold; [|done].
    specialize (Hfresh old eq_refl). simpl. rewrite andb_false_r, orb_false_r.
    rewrite Z.gtb_ltb. apply Z.ltb_ge. lia. }
  rewrite Hnot_stale. unfold bind at 1.
  rewrite (modifyPresence_run _ _ _ Hps1). unfold bind at 1.
  unfold markProcessed. erewrite modifyPresence_run by reflexivity.
  unfold bind at 1. erewrite setPresence_clear_run by reflexivity.
  simpl. rewrite insert_insert_eq, Hcur, Hrcv. unfold cleared.
  rewrite Hcur, Hrcv.
  destruct (Presence.current ps !! src) as [x|] eqn:Hx.
  - rewrite bool_decide_true by by eexists. unfold ret. by destruct ps1.
  - rewrite bool_decide_false by by intros [? ?].
    unfold ret. rewrite withTicks_nil, delete_id by done.
    rewrite <- Hcur. by destruct ps1.
Qed.

(** X13. When a subscribed document takes a message of another client that
    carries a version and is newer than the entry already there for its
    source, the message is stored as it came. If the document has no
    version or is behind the version of the message, the missing
    operations are fetched and nothing else happens: [current] stays as it
    was and nothing is handed to [process.nextTick]. Otherwise the stored
    message is reconciled at once, with a notification asked for. *)
Theorem handlePresence_stores (now : Z) (presence : Envelope.t Data)
    (d : doc) ps src v :
  Doc.subscribed d = true ->
  Doc.presence d = Some ps ->
  Envelope.src presence = Some src ->
  src <> "" ->
  Envelope.v presence = Some v ->
  (forall old, Presence.received ps !! src = Some old ->
               Envelope.seq old < Envelope.seq presence) ->
  exists ps1,
    let d1 := replied (Envelope.r presence) d ps in
    let stored :=
      withPresence
        (Presence.set_received (<[src := presence]> (Presence.received ps)) ps1)
        d1 in
    Doc.presence d1 = Some ps1
    /\ Presence.current ps1 = Presence.current ps
    /\ Presence.received ps1 = Presence.received ps
    /\ Doc.nextTick d1 = Doc.nextTick d
    /\ (Doc.version d = None
        \/ (exists version, Doc.version d = Some version /\ version < v) ->
        _handlePresence now None presence d
        = Return tt (Doc.set_events (Doc.events d1 ++ [EFetch]) stored))
    /\ (forall version,
          Doc.version d = Some version -> v <= version ->
          _handlePresence now None presence d
          = bind (_processReceivedPresence now src true) (fun _ => ret tt)
              stored).
Proof.
  intros Hsub Hps Hsrc Hne Hv Hfresh.
  destruct (replied_frame (Envelope.r presence) d ps Hps)
    as (ps1 & Hps1 & Hcur & Hrcv & _ & _ & Hver & _ & Htick & _).
  exists ps1. cbv zeta. split; [exact Hps1|]. split; [exact Hcur|].
  split; [exact Hrcv|]. split; [exact Htick|].
  assert (Hrun : _handlePresence now None presence d
    = (let stored :=
         withPresence
           (Presence.set_received
              (<[src := presence]> (Presence.received ps)) ps1)
           (replied (Envelope.r presence) d ps) in
       if match Doc.version d with
          | None => true
          | Some version => version <? v
          end
       then outgoing EFetch stored
       else bind (_processReceivedPresence now src true) (fun _ => ret tt)
              stored)).
  { unfold _handlePresence, bind at 1, get at 1. rewrite Hsub, Hsrc.
    change (negb true) with false. unfold no_src.
    rewrite bool_decide_false by done.
    change (default "" (Some src)) with src. unfold bind at 1.
    rewrite (reply_run _ _ _ Hps).
    unfold bind at 1, getPresence at 1. rewrite Hps1, Hrcv, Hv.
    assert (Hnot_stale :
      match Presence.received ps !! src with
      | Some old =>
          (Envelope.seq old >? Envelope.seq presence)
          || ((Envelope.seq old =? Envelope.seq presence)
              && negb (is_null (Some v)))
      | None => false
      end = false).
    { destruct (Presence.received ps !! src) as [old|] eqn:Hold; [|done].
      specialize (Hfresh old eq_refl). simpl. rewrite andb_true_r.
      apply orb_false_iff. split.
      - rewrite Z.gtb_ltb. apply Z.ltb_ge. lia.
      - apply Z.eqb_neq. lia. }
    rewrite Hnot_stale. unfold bind at 1.
    rewrite (modifyPresence_run _ _ _ Hps1). unfold bind at 1, get at 1.
    change (Doc.version (withPresence ?x ?y)) with (Doc.version y).
    rewrite Hver, Hrcv. by destruct (Doc.version d) as [version|];
      [destruct (version <? v)|]. }
  rewrite Hrun. cbv zeta. split.
  - intros [->|(version & -> & Hlt)]; [reflexivity|].
    destruct (Z.ltb_spec version v); [reflexivity|lia].
  - intros version -> Hle.
    destruct (Z.ltb_spec version v); [lia|reflexivity].
Qed.

(** *** [submitPresence], the data is taken *)

Lemma submitPresence_run (data data' : option Data)
    (callback : option Callback) (d : doc) ps type :
  Doc.presence d = Some ps ->
  Doc.type d = Some type ->
  match data with
  | None => data' = None
  | Some raw =>
      exists createPresence transformPresence,
        PType.createPresence type = Some createPresence
        /\ PType.transformPresence type = Some transformPresence
        /\ data' = createPresence raw
  end ->
  exists changed current',
    let queued :=
      changed || bool_decide (is_Some (Presence.pending ps))
              || bool_decide (is_Some (Presence.inflight ps)) in
    submitPresence data callback d
    = Return tt
        (withTicks
           ((if changed then [TEmitPresence [""] true] else [])
            ++ (if queued then []
                else match callback with
                     | Some cb => [TCallback cb]
                     | None => []
                     end)
            ++ [TFlush])
           (withPresence
              (Presence.set_pending
                 (if queued
                  then Some (default [] (Presence.pending ps)
                             ++ match callback with
                                | Some cb => [cb]
                                | None => []
                                end)
                  else None)
                 (Presence.set_current current' ps)) d))
    /\ current' !! "" = afterSetPresence type (Presence.current ps !! "") data'
    /\ (forall k, k <> "" -> current' !! k = Presence.current ps !! k)
    /\ (changed = true <-> current' !! "" <> Presence.current ps !! "").
Proof.
  intros Hps Hty Hdata.
  destruct (setPresence_run "" data' true d ps type Hps Hty)
    as (changed & current' & Hrun & Hat & Hothers & Hchanged).
  exists changed, current'. cbv zeta.
  split; [|by repeat split; try apply Hchanged].
  assert (Hcontinue :
    submitPresence data callback d
    = bind (_setPresence "" data' true) (fun changed =>
        bind getPresence (fun ps =>
          bind
            (if changed || bool_decide (is_Some (Presence.pending ps))
                        || bool_decide (is_Some (Presence.inflight ps))
             then
               bind
                 (match Presence.pending ps with
                  | None => modifyPresence (Presence.set_pending (Some []))
                  | Some _ => ret tt
                  end)
                 (fun _ =>
                    match callback with
                    | Some cb =>
                        modifyPresence (fun ps =>
                          Presence.set_pending
                            (Some (default [] (Presence.pending ps) ++ [cb])) ps)
                    | None => ret tt
                    end)
             else
               match callback with
               | Some cb => defer (TCallback cb)
               | None => ret tt
               end)
            (fun _ => defer TFlush))) d).
  { unfold submitPresence, bind at 1, get at 1.
    destruct data as [raw|].
    - destruct Hdata as (cp & tp & Hcp & Htp & ->). by rewrite Hty, Hcp, Htp.
    - by rewrite Hdata. }
  rewrite Hcontinue. unfold bind at 1. rewrite Hrun.
  unfold bind at 1, getPresence at 1. simpl Doc.presence. cbv iota beta.
  simpl Presence.pending. simpl Presence.inflight. rewrite andb_true_l.
  destruct changed, (Presence.pending ps) as [pending|] eqn:Hpend,
    (Presence.inflight ps) as [inflight|] eqn:Hinfl, callback as [cb|];
    simpl;
    unfold bind, modifyPresence, getPresence, defer, ret, withTicks,
      withPresence;
    simpl; rewrite ?Hpend, ?app_nil_r, <- ?app_assoc; simpl;
    first [reflexivity|destruct ps; simpl in *; subst; reflexivity].
Qed.

(** X14. When [submitPresence] takes the data (null data, or data for a
    type that provides [createPresence] and [transformPresence]), it never
    throws and calls nothing right away: no continuation is invoked and
    nothing is sent before the call returns. The local presence is put in
    place by [_setPresence], with a notification. The continuation is
    appended to the pending batch when the presence changed or a batch is
    already pending or inflight (the batch is created if need be);
    otherwise it is handed to [process.nextTick], and no batch is created.
    A [flush] is handed to [process.nextTick] last in every case. *)
Theorem submitPresence_queues (data data' : option Data)
    (callback : option Callback) (d : doc) ps type :
  Doc.presence d = Some ps ->
  Doc.type d = Some type ->
  match data with
  | None => data' = None
  | Some raw =>
      exists createPresence transformPresence,
        PType.createPresence type = Some createPresence
        /\ PType.transformPresence type = Some transformPresence
        /\ data' = createPresence raw
  end ->
  exists changed current',
    let queued :=
      changed || bool_decide (is_Some (Presence.pending ps))
              || bool_decide (is_Some (Presence.inflight ps)) in
    submitPresence data callback d
    = Return tt
        (withTicks
           ((if changed then [TEmitPresence [""] true] else [])
            ++ (if queued then []
                else match callback with
                     | Some cb => [TCallback cb]
                     | None => []
                     end)
            ++ [TFlush])
           (withPresence
              (Presence.set_pending
                 (if queued
                  then Some (default [] (Presence.pending ps)
                             ++ match callback with
                                | Some cb => [cb]
                                | None => []
                                end)
                  else None)
                 (Presence.set_current current' ps)) d))
    /\ current' !! "" = afterSetPresence type (Presence.current ps !! "") data'
    /\ (forall k, k <> "" -> current' !! k = Presence.current ps !! k)
    /\ (changed = true <-> current' !! "" <> Presence.current ps !! "")
    /\ Doc.events (state_of (submitPresence data callback d)) = Doc.events d
    /\ last (Doc.nextTick (state_of (submitPresence data callback d)))
       = Some TFlush.
Proof.
  intros Hps Hty Hdata.
  destruct (submitPresence_run data data' callback d ps type Hps Hty Hdata)
    as (changed & current' & Hrun & Hat & Hothers & Hchanged).
  exists changed, current'. cbv zeta in *.
  split; [exact Hrun|]. split; [exact Hat|]. split; [exact Hothers|].
  split; [exact Hchanged|]. rewrite Hrun. simpl.
  split; [reflexivity|]. by rewrite !app_assoc, last_snoc.
Qed.

(** X15. [submitPresence] followed by the [flush] it asked for: when the
    data is taken and changes the local presence of a subscribed document
    that has no batch inflight and no write pending, the flush sends the new
    local presence with the reply flag as it stood, and the batch that now
    is inflight ends with the continuation just given. For a new presence
    state ([_initializePresence]) the first message sent asks the other
    clients for a reply. *)
Theorem submit_then_flush_sends (raw : Data) (x : Data)
    (callback : option Callback) (d : doc) ps type createPresence
    transformPresence :
  Doc.presence d = Some ps ->
  Doc.type d = Some type ->
  PType.createPresence type = Some createPresence ->
  PType.transformPresence type = Some transformPresence ->
  createPresence raw = Some x ->
  afterSetPresence type (Presence.current ps !! "") (Some x) = Some x ->
  Presence.current ps !! "" <> Some x ->
  Doc.subscribed d = true ->
  Presence.inflight ps = None ->
  hasWritePending (state_of (submitPresence (Some raw) callback d)) = false ->
  exists d' ps',
    bind (submitPresence (Some raw) callback) (fun _ => flush) d
    = Return tt d'
    /\ Doc.presence d' = Some ps'
    /\ Doc.events d'
       = Doc.events d ++ [ESendPresence (Some x) (Presence.requestReply ps)]
    /\ Presence.current ps' !! "" = Some x
    /\ Presence.inflight ps'
       = Some (default [] (Presence.pending ps)
               ++ match callback with Some cb => [cb] | None => [] end)
    /\ Presence.inflightSeq ps' = Doc.connection_seq d
    /\ Presence.pending ps' = None
    /\ Presence.requestReply ps' = false
    /\ (ps = _initializePresence ->
        Doc.events d' = Doc.events d ++ [ESendPresence (Some x) true]).
Proof.
  intros Hps Hty Hcp Htp Hraw Hafter Hnew Hsub Hinfl Hwrite.
  destruct (submitPresence_run (Some raw) (Some x) callback d ps type Hps Hty)
    as (changed & current' & Hrun & Hat & Hothers & Hchanged).
  { exists createPresence, transformPresence. by rewrite Hraw. }
  cbv zeta in Hrun. rewrite Hafter in Hat.
  assert (changed = true) as ->.
  { apply Hchanged. rewrite Hat. congruence. }
  simpl orb in Hrun. cbv iota in Hrun.
  unfold bind. rewrite Hrun in Hwrite |- *.
  match goal with
  | |- context [flush ?s] => set (d1 := s) in *
  end.
  change (hasWritePending d1 = false) in Hwrite.
  erewrite (flush_run d1) by reflexivity.
  unfold flushFires. rewrite Hwrite. subst d1. simpl.
  rewrite Hsub, Hinfl. simpl.
  eexists _, _. split; [reflexivity|]. simpl. rewrite Hat.
  repeat split; try done.
  intros ->. reflexivity.
Qed.

(** *** [_transformAllPresence], a type without [transformPresence] *)

(** X16. When the document has no type, or a type without
    [transformPresence], an operation with a non-null [op] makes
    [_transformAllPresence] throw at the first source, before any presence
    is changed or any notification is handed over; only when [current] is
    empty does it return, having done nothing. *)
Theorem transformAll_unsupported (op : Op.t OT) (d : doc) ps :
  Doc.presence d = Some ps ->
  is_Some (Op.op op) ->
  match Doc.type d with
  | None => True
  | Some type => PType.transformPresence type = None
  end ->
  _transformAllPresence op d
  = if bool_decide (Presence.current ps = ∅) then Return tt d else Throw d.
Proof.
  intros Hps [o Ho] Hty.
  unfold _transformAllPresence, bind at 1, get at 1. rewrite Hps.
  unfold keys.
  destruct (map_to_list (Presence.current ps)) as [|[a x] l] eqn:Hl.
  - apply map_to_list_empty_iff in Hl.
    by rewrite bool_decide_true.
  - rewrite bool_decide_false.
    2:{ intros Hempty. rewrite Hempty, map_to_list_empty in Hl. done. }
    unfold bind at 1. simpl fmap. rewrite collectChanged_cons.
    assert (_transformPresence a op d = Throw d) as ->; [|reflexivity].
    unfold _transformPresence, bind at 1, getPresence at 1. rewrite Hps, Ho.
    unfold bind, get.
    destruct (Doc.type d) as [type|]; [|reflexivity]. by rewrite Hty.
Qed.

(** *** [destroy] *)

(** X17. On a document with a presence state [destroy] empties
    [received] and [cachedOps] and changes nothing else: the presence of
    every source, the continuations that wait, the handshake, the reply
    flag and the two timeouts are kept, and nothing is handed to
    [process.nextTick] or leaves the module. On a document without a
    presence state it throws and leaves the document as it is. It is
    idempotent, and after it a reconciliation of all sources finds nothing
    to do. *)
Theorem destroy_idempotent (now_of : string -> Z) (d : doc) :
  (forall ps,
     Doc.presence d = Some ps ->
     exists ps',
       destroy d = Return tt (withPresence ps' d)
       /\ Presence.received ps' = ∅
       /\ Presence.cachedOps ps' = []
       /\ Presence.current ps' = Presence.current ps
       /\ Presence.pending ps' = Presence.pending ps
       /\ Presence.inflight ps' = Presence.inflight ps
       /\ Presence.inflightSeq ps' = Presence.inflightSeq ps
       /\ Presence.requestReply ps' = Presence.requestReply ps
       /\ Presence.receivedTimeout ps' = Presence.receivedTimeout ps
       /\ Presence.cachedOpsTimeout ps' = Presence.cachedOpsTimeout ps)
  /\ (Doc.presence d = None -> destroy d = Throw d)
  /\ destroy (state_of (destroy d)) = destroy d
  /\ _processAllReceivedPresence now_of (state_of (destroy d))
     = Return tt (state_of (destroy d))
  /\ keeps Presence.current destroy
  /\ keeps Presence.pending destroy
  /\ keeps handshake destroy
  /\ (destroy d = Throw d <-> Doc.presence d = None).
Proof.
  assert (Hkeeps : forall X (g : presence_state -> X),
    (forall rcv ps, g (Presence.set_received rcv ps) = g ps) ->
    (forall ops ps, g (Presence.set_cachedOps ops ps) = g ps) ->
    keeps g destroy).
  { intros X g H1 H2. unfold destroy.
    apply keeps_bind; [|intros _]; by apply keeps_modifyPresence. }
  assert (Hsome : forall ps, Doc.presence d = Some ps ->
    destroy d
    = Return tt
        (withPresence
           (Presence.set_cachedOps [] (Presence.set_received ∅ ps)) d)).
  { intros ps Hps. unfold destroy, bind.
    rewrite (modifyPresence_run _ _ _ Hps).
    by erewrite modifyPresence_run by reflexivity. }
  assert (Hnone : Doc.presence d = None -> destroy d = Throw d).
  { intros Hps. unfold destroy, bind, modifyPresence, bind, getPresence.
    by rewrite Hps. }
  split.
  { intros ps Hps.
    exists (Presence.set_cachedOps [] (Presence.set_received ∅ ps)).
    split; [by apply Hsome|]. by destruct ps. }
  split; [exact Hnone|].
  destruct (Doc.presence d) as [ps|] eqn:Hps.
  - rewrite (Hsome ps eq_refl). simpl state_of.
    split.
    { unfold destroy, bind. erewrite modifyPresence_run by reflexivity.
      by erewrite modifyPresence_run by reflexivity. }
    split.
    { unfold _processAllReceivedPresence, bind at 1, get at 1. simpl.
      unfold keys. rewrite map_to_list_empty. reflexivity. }
    split; [by apply Hkeeps|]. split; [by apply Hkeeps|].
    split; [by apply Hkeeps|]. split; [|done].
    intros [=].
  - rewrite (Hnone eq_refl). simpl state_of. split; [exact (Hnone eq_refl)|].
    split.
    { unfold _processAllReceivedPresence, bind, get. by rewrite Hps. }
    split; [by apply Hkeeps|]. split; [by apply Hkeeps|].
    split; [by apply Hkeeps|]. done.
Qed.
End Model.


Arguments Return {Data OT Callback A} a d.
Arguments Throw {Data OT Callback A} d.

(** ** The properties at the sample documents *)

Import Sample.

(** Witness of C1, at two documents: while the document is at version 1 the
    entry of version 2 stays queued; at version 3 the withdrawal of B is
    marked processed and clears the cursor of B. *)
Lemma processReceived_defers_or_rejects_witness :
  _processReceivedPresence 1000 "B" true docBehind = Return false docBehind
  /\ _processReceivedPresence 1000 "B" true docWithdrawn
     = rejected 1000 "B" true clearB psWithdrawn docWithdrawn
  /\ Presence.received (cleared 1000 "B" clearB psWithdrawn) !! "B"
     = Some (Envelope.set_processedAt 1000 clearB)
  /\ Presence.current (cleared 1000 "B" clearB psWithdrawn) !! "B" = None.
Proof.
  split.
  - destruct (processReceived_defers_or_rejects 1000 "B" true docBehind
                psBehind fromB eq_refl eq_refl) as [Hdefer _].
    destruct Hdefer as (ps' & Hrun & _ & Hsame).
    + right. exists 1. split; reflexivity.
    + rewrite Hrun, (Hsame eq_refl). reflexivity.
  - destruct (processReceived_defers_or_rejects 1000 "B" true docWithdrawn
                psWithdrawn clearB eq_refl eq_refl) as (_ & Hreject & _).
    apply (Hreject ltac:(discriminate) eq_refl 3 eq_refl ltac:(simpl; lia)).
    left. reflexivity.
Defined.

(** Counterexample to C1 as it is stated. It fails at an entry that is
    already marked processed: B's message of version 2 was processed at time
    50000; at time 70000 the document is at version 9 and [cachedOps] holds
    one operation, fewer than the 7 between the versions. Reconciliation
    reports "no change" and the cursor of B stays. It fails, too, where the
    document is behind the entry and the payload of the entry is null: the
    entry is deferred, not marked processed, and the cursor of B stays. *)
Lemma processReceived_processed_entry_counterexample :
  (Presence.received psProcessed !! "B"
     = Some (Envelope.set_processedAt 50000 fromB)
   /\ Z.of_nat (length (Presence.cachedOps psProcessed)) < 9 - 2
   /\ _processReceivedPresence 70000 "B" true docProcessed
      = Return false docProcessed
   /\ Presence.current psProcessed !! "B" = Some 40)
  /\ (Presence.received psBehindWithdrawn !! "B" = Some clearB
      /\ Envelope.p clearB = None
      /\ _processReceivedPresence 1000 "B" true docBehindWithdrawn
         = Return false docBehindWithdrawn
      /\ Presence.current psBehindWithdrawn !! "B" = Some 30).
Proof. repeat split; vm_compute; reflexivity. Defined.

(** Witness of C2, at two documents of version 3 with an operation of 10
    characters inflight and one of 100 characters pending. At [docBridge]
    the cursor 40 of B was captured at version 1: it passes the operation
    of A (1 character, not B's own: 41), the operation of B itself (its
    own: 41), the inflight one (51) and the pending one (151); 151 replaces
    the cursor 30 that was there, the entry is marked processed and the
    change is notified. At [docReconcile] the cursor was captured at
    version 2: it passes the operation of B only, then the local ones, and
    150 is installed where nothing was. *)
Lemma processReceived_transforms_witness :
  _processReceivedPresence 1000 "B" true docBridge
  = Return true
      (withTicks [TEmitPresence ["B"] true]
         (withPresence
            (Presence.set_current {[ "B" := 151 ]}
               (Presence.set_received
                  {[ "B" := Envelope.set_processedAt 1000 earlyB ]} psBridge))
            docBridge))
  /\ _processReceivedPresence 1000 "B" false docReconcile
     = Return true
         (withPresence
            (Presence.set_current {[ "B" := 150 ]}
               (Presence.set_received
                  {[ "B" := Envelope.set_processedAt 1000 fromB ]} psReconcile))
            docReconcile).
Proof.
  split.
  - destruct (processReceived_transforms 1000 "B" true docBridge psBridge
                earlyB 3 40 textType (fun raw => Some raw) shift
                ltac:(discriminate) eq_refl eq_refl eq_refl eq_refl
                ltac:(simpl; lia) eq_refl eq_refl eq_refl eq_refl
                ltac:(intros o Ho; injection Ho as <-; discriminate)
                ltac:(repeat constructor; discriminate)
                ltac:(simpl; lia)
                ltac:(repeat constructor; discriminate))
      as (changed & current' & Hrun & Hat & _ & Hothers & Hchanged & _).
    assert (changed = true) as ->.
    { apply Hchanged. rewrite Hat. vm_compute. discriminate. }
    assert (current' = {[ "B" := 151 ]}) as ->.
    { apply map_eq. intros k. destruct (decide (k = "B")) as [->|Hk].
      - rewrite Hat. reflexivity.
      - rewrite (Hothers k Hk). simpl. by rewrite !lookup_singleton_ne. }
    rewrite Hrun. reflexivity.
  - destruct (processReceived_transforms 1000 "B" false docReconcile psReconcile
                fromB 3 40 textType (fun raw => Some raw) shift
                ltac:(discriminate) eq_refl eq_refl eq_refl eq_refl
                ltac:(simpl; lia) eq_refl eq_refl eq_refl eq_refl
                ltac:(intros o Ho; injection Ho as <-; discriminate)
                ltac:(repeat constructor; discriminate)
                ltac:(simpl; lia)
                ltac:(repeat constructor; discriminate))
      as (changed & current' & Hrun & Hat & _ & Hothers & Hchanged & _).
    assert (changed = true) as ->.
    { apply Hchanged. rewrite Hat. vm_compute. discriminate. }
    assert (current' = {[ "B" := 150 ]}) as ->.
    { apply map_eq. intros k. destruct (decide (k = "B")) as [->|Hk].
      - rewrite Hat. reflexivity.
      - rewrite (Hothers k Hk). simpl.
        by rewrite lookup_empty, lookup_singleton_ne. }
    rewrite Hrun. reflexivity.
Defined.

(** Witness of C3, at [docSubscribed], which holds B's message of sequence
    1: an older message is discarded, and the withdrawal with the same
    sequence and a null version replaces the entry. *)
Lemma handlePresence_ordering_witness :
  (exists ps',
     Doc.presence (state_of (_handlePresence hasWritePending sendPresence_seq
                               200 None staleB docSubscribed)) = Some ps'
     /\ Presence.received ps' = Presence.received psSubscribed)
  /\ (exists ps',
        Doc.presence (state_of (_handlePresence hasWritePending
                                  sendPresence_seq 200 None withdrawB
                                  docSubscribed)) = Some ps'
        /\ Presence.received ps'
           = <["B" := Envelope.set_processedAt 200 withdrawB]>
               (Presence.received psSubscribed)).
Proof.
  split.
  - destruct (handlePresence_ordering hasWritePending sendPresence_seq 200
                staleB docSubscribed psSubscribed "B"
                eq_refl eq_refl eq_refl ltac:(discriminate) eq_refl)
      as (ps' & Hps' & Hstale & _).
    exists ps'. split; [exact Hps'|]. apply Hstale.
    eexists. split; [reflexivity|]. left. reflexivity.
  - destruct (handlePresence_ordering hasWritePending sendPresence_seq 200
                withdrawB docSubscribed psSubscribed "B"
                eq_refl eq_refl eq_refl ltac:(discriminate) eq_refl)
      as (ps' & Hps' & _ & _ & Heq).
    exists ps'. split; [exact Hps'|].
    apply (Heq (Envelope.set_processedAt 100 fromB)); reflexivity.
Defined.

(** Counterexample to C3 as it is stated. It fails when the document is not
    subscribed: [received] holds nothing for B, yet B's message is
    discarded. It fails, too, when the message comes with an error: the
    error is emitted and the message is dropped. *)
Lemma handlePresence_unsubscribed_discards_counterexample :
  (Presence.received psUnsubscribed !! "B" = None
   /\ _handlePresence hasWritePending sendPresence_seq 200 None fromB
        docUnsubscribed
      = Return tt docUnsubscribed)
  /\ (Presence.received psPlain !! "B" = None
      /\ _handlePresence hasWritePending sendPresence_seq 200
           (Some protocolError) fromB docPlain
         = Return tt (Doc.set_events [EEmitError protocolError] docPlain)).
Proof. repeat split; reflexivity. Defined.

(** Witness of C4, at a document that was not created and at one whose type
    has no presence. *)
Lemma submitPresence_fails_async_witness :
  (exists message,
     submitPresence (Some 9) (Some "cb") docNotCreated
     = Return tt
         (withTicks [TFail (Some "cb") (ShareDBError.mk 4015 message)]
            docNotCreated))
  /\ (exists message,
        submitPresence (Some 9) (Some "cb") docPlain
        = Return tt
            (withTicks [TFail (Some "cb") (ShareDBError.mk 4027 message)]
               docPlain)).
Proof.
  split.
  - apply (submitPresence_fails_async hasWritePending sendPresence_seq 9
             (Some "cb") docNotCreated). reflexivity.
  - destruct (submitPresence_fails_async hasWritePending sendPresence_seq 9
                (Some "cb") docPlain) as (_ & Hunsupported & _).
    apply (Hunsupported plainType eq_refl). left. reflexivity.
Defined.

(** Counterexample to C4 as it is stated. It fails for a null data argument:
    withdrawing the local presence before the document is created raises no
    error; the local presence 5 is cleared, the continuation is queued on
    [pending], and a change notification and a flush are deferred. *)
Lemma submitPresence_null_counterexample :
  Doc.type docNotCreated = None
  /\ Presence.current psNotCreated !! "" = Some 5
  /\ submitPresence None (Some "cb") docNotCreated
     = Return tt
         (withTicks [TEmitPresence [""] true; TFlush]
            (withPresence
               (Presence.set_pending (Some ["cb"])
                  (Presence.set_current ∅ psNotCreated)) docNotCreated)).
Proof. repeat split; vm_compute; reflexivity. Defined.

(** Witness of C5, at [docInflight]. *)
Lemma hardRollback_clears_witness :
  exists ps',
    _hardRollbackPresence docInflight
    = Return [["cb1"]; ["cb2"]]
        (withTicks [TEmitPresence (keys (Presence.current psInflight)) false]
           (withPresence ps' docInflight))
    /\ Presence.inflight ps' = None
    /\ Presence.inflightSeq ps' = 0
    /\ Presence.pending ps' = None
    /\ Presence.current ps' = ∅.
Proof.
  destruct (hardRollback_clears docInflight psInflight eq_refl)
    as (ps' & Hrun & Hinfl & Hseq & Hpend & _ & _ & _ & Hcur & _).
  exists ps'. split; [exact Hrun|]. by repeat split.
Defined.

(** Witness of C6, at [docInflight], where the local cursor is 5 and B's is
    9: the operation of B that inserts 2 characters moves the local cursor
    to 7 and leaves B's, and the delete clears both. *)
Lemma transformAll_transforms_witness :
  _transformAllPresence opDel docInflight
  = Return tt
      (withTicks [TEmitPresence (keys (Presence.current psInflight)) false]
         (withPresence (Presence.set_current ∅ psInflight) docInflight))
  /\ exists changedSrcList current',
       _transformAllPresence opB docInflight
       = Return tt
           (withTicks [TEmitPresence changedSrcList false]
              (withPresence (Presence.set_current current' psInflight)
                 docInflight))
       /\ current' !! "" = Some 7
       /\ current' !! "B" = Some 9.
Proof.
  destruct (transformAll_transforms opDel docInflight psInflight eq_refl)
    as [Hdel _].
  split; [exact (Hdel eq_refl)|].
  destruct (transformAll_transforms opB docInflight psInflight eq_refl)
    as [_ Hop].
  destruct (Hop textType shift (ex_intro _ 2 eq_refl) eq_refl eq_refl)
    as (changedSrcList & current' & Hrun & Hlook & _ & Hchanged).
  exists changedSrcList, current'.
  pose proof (Hlook "") as Hlocal. pose proof (Hlook "B") as HB.
  split; [|split; [exact Hlocal|exact HB]].
  destruct changedSrcList as [|src rest]; [|exact Hrun].
  exfalso. apply (elem_of_nil ""), Hchanged. rewrite Hlocal. discriminate.
Defined.

(** Counterexample to C6 as it is stated. It fails at the local source: the
    operation of B moves the local cursor from 5 to 7. *)
Lemma transformAll_local_counterexample :
  Presence.current psInflight !! "" = Some 5
  /\ _transformAllPresence opB docInflight
     = Return tt
         (withTicks [TEmitPresence [""] false]
            (withPresence
               (Presence.set_current {[ "" := 7; "B" := 9 ]} psInflight)
               docInflight)).
Proof. split; vm_compute; reflexivity. Defined.

(** Witness of C7, at a cache in the order of its timestamps: at time 200000
    the entry of time 100000 is removed. *)
Lemma cacheOp_prunes_witness :
  exists ps' k,
    _cacheOp 200000 (Op.mk (Some 3) None 200000) docCached
    = Return tt (withPresence ps' docCached)
    /\ Presence.cachedOps ps'
       = drop k (Presence.cachedOps psCached) ++ [Op.mk (Some 3) None 200000]
    /\ Forall (fun o => 200000 - 60000 <= Op.time o) (Presence.cachedOps ps').
Proof.
  destruct (cacheOp_prunes 200000 (Op.mk (Some 3) None 200000) docCached
              psCached eq_refl) as (ps' & k & Hrun & Hcached & Hfresh).
  exists ps', k. split; [exact Hrun|]. split; [exact Hcached|].
  apply Hfresh; [|simpl; lia].
  repeat constructor; simpl; lia.
Defined.

(** Counterexample to C7 as it is stated. It fails at a cache that is not in
    the order of its timestamps (the clock was set back between two
    operations): the entry of time 100000 stands behind one of time 150000
    and stays, though it is older than 200000 - 60000. It fails, too, for an
    operation that carries an old timestamp: it is appended as it is. *)
Lemma cacheOp_unordered_counterexample :
  (Presence.cachedOps
     <$> Doc.presence
           (state_of (_cacheOp 200000 (Op.mk (Some 3) None 200000)
                        docClockStepped))
   = Some [Op.mk (Some 1) (Some "A") 150000;
           Op.mk (Some 2) (Some "B") 100000;
           Op.mk (Some 3) None 200000]
   /\ 100000 < 200000 - Presence.cachedOpsTimeout psClockStepped)
  /\ (Presence.cachedOps
        <$> Doc.presence
              (state_of (_cacheOp 200000 (Op.mk (Some 3) None 100000) docPlain))
      = Some [Op.mk (Some 3) None 100000]
      /\ 100000 < 200000 - Presence.cachedOpsTimeout psPlain).
Proof. repeat split; vm_compute; reflexivity. Defined.

(** Witness of C8, at [docInflight]: the acknowledgment of the inflight
    submission resets the handshake and the flush that follows starts the
    next one. *)
Lemma inflightSeq_invariant_witness :
  handshake_ok docInflight
  /\ Doc.connection_seq docInflight <> 0
  /\ handshake_ok
       (state_of (call hasWritePending sendPresence_seq
                    (CHandlePresence 100 None ack7) docInflight)).
Proof.
  assert (Hok : handshake_ok docInflight).
  { intros ps Hps. injection Hps as <-. split; discriminate. }
  assert (Hseq : Doc.connection_seq docInflight <> 0) by discriminate.
  split; [exact Hok|]. split; [exact Hseq|].
  apply (proj2 (inflightSeq_invariant hasWritePending sendPresence_seq));
    assumption.
Defined.

(** Witness of C9, at [docStructural]: the only cached operation between
    version 2 and version 3 is a delete, and B's cursor is cleared. *)
Lemma processReceived_rejects_structural_cached_witness :
  _processReceivedPresence 1000 "B" true docStructural
  = rejected 1000 "B" true fromB psStructural docStructural
  /\ Presence.received (cleared 1000 "B" fromB psStructural) !! "B"
     = Some (Envelope.set_processedAt 1000 fromB)
  /\ Presence.current (cleared 1000 "B" fromB psStructural) !! "B" = None.
Proof.
  apply (processReceived_rejects_structural_cached 1000 "B" true docStructural
           psStructural fromB 3 1%nat opDel);
    try reflexivity; try discriminate; simpl; lia.
Defined.

(** Witness of C10, at [docUnsubscribed]: the acknowledgment numbered 7
    arrives after the document was unsubscribed, and the inflight batch of
    sequence 7 stays. *)
Lemma handlePresence_unsubscribed_witness :
  Doc.subscribed docUnsubscribed = false
  /\ Presence.inflightSeq psUnsubscribed = Envelope.seq ack7
  /\ _handlePresence hasWritePending sendPresence_seq 100 None ack7
       docUnsubscribed
     = Return tt docUnsubscribed.
Proof.
  split; [reflexivity|]. split; [reflexivity|].
  apply handlePresence_unsubscribed. reflexivity.
Defined.

(** ** The further properties at the sample documents *)

(** Witness of X1, at [docSubscribed]: the cursor of B moves from 40 to
    41. *)
Lemma setPresence_reports_change_witness :
  exists changed current',
    _setPresence "B" (Some 41) true docSubscribed
    = Return changed
        (withTicks (if true && changed then [TEmitPresence ["B"] true] else [])
           (withPresence (Presence.set_current current' psSubscribed)
              docSubscribed))
    /\ current' !! "B"
       = afterSetPresence textType (Presence.current psSubscribed !! "B")
           (Some 41)
    /\ (forall k, k <> "B" ->
          current' !! k = Presence.current psSubscribed !! k)
    /\ (changed = true <-> current' <> Presence.current psSubscribed).
Proof.
  exact (setPresence_reports_change "B" (Some 41) true docSubscribed
           psSubscribed textType eq_refl eq_refl).
Defined.

(** Witness of X2, at [docCached] at time 200000: the operation stamped
    100000 is older than a minute, the one stamped 150000 is not. *)
Lemma cacheOp_removes_only_old_witness :
  exists k,
    _cacheOp 200000 opLate docCached
    = Return tt
        (withPresence
           (Presence.set_cachedOps
              (drop k (Presence.cachedOps psCached) ++ [opLate]) psCached)
           docCached)
    /\ Forall (fun o => Op.time o < 200000 - Presence.cachedOpsTimeout psCached)
         (take k (Presence.cachedOps psCached))
    /\ forall o, o ∈ Presence.cachedOps psCached ->
         200000 - Presence.cachedOpsTimeout psCached <= Op.time o ->
         o ∈ drop k (Presence.cachedOps psCached).
Proof.
  exact (cacheOp_removes_only_old 200000 opLate docCached psCached eq_refl).
Defined.

(** Witness of X3, at [docCached]: two operations arrive, at the times
    200000 and 230000, each stamped with the time of its arrival. *)
Lemma cacheAll_ordered_fresh_witness :
  exists cachedOps',
    cacheAll [(200000, opLate); (230000, opLater)] docCached
    = Return tt
        (withPresence (Presence.set_cachedOps cachedOps' psCached) docCached)
    /\ Sorted (fun a b => Op.time a <= Op.time b) cachedOps'
    /\ forall now op,
         last [(200000, opLate); (230000, opLater)] = Some (now, op) ->
         Forall (fun o => now - Presence.cachedOpsTimeout psCached <= Op.time o)
           cachedOps'.
Proof.
  apply (cacheAll_ordered_fresh [(200000, opLate); (230000, opLater)]
           docCached psCached eq_refl).
  - simpl. lia.
  - repeat constructor; simpl; lia.
  - intros o p Ho Hp.
    apply list_elem_of_In in Ho. apply list_elem_of_In in Hp.
    simpl in Ho, Hp. intuition subst; simpl; lia.
  - repeat constructor; simpl; lia.
  - repeat constructor.
Defined.

(** Witness of X5, at [docPending], where the flush fires. *)
Lemma flush_conserves_witness :
  exists ps',
    flush hasWritePending sendPresence_seq docPending
    = Return tt
        (if flushFires hasWritePending docPending psPending
         then Doc.set_connection_seq
                (sendPresence_seq (Doc.connection_seq docPending))
                (Doc.set_events
                   (Doc.events docPending
                    ++ [ESendPresence (Presence.current psPending !! "")
                          (Presence.requestReply psPending)])
                   (withPresence ps' docPending))
         else docPending)
    /\ outstanding ps' = outstanding psPending
    /\ Presence.current ps' = Presence.current psPending
    /\ Presence.received ps' = Presence.received psPending
    /\ Presence.cachedOps ps' = Presence.cachedOps psPending
    /\ (flushFires hasWritePending docPending psPending = true ->
        Presence.inflight ps' = Presence.pending psPending
        /\ Presence.pending ps' = None
        /\ Presence.inflightSeq ps' = Doc.connection_seq docPending
        /\ Presence.requestReply ps' = false)
    /\ (flushFires hasWritePending docPending psPending = false ->
        ps' = psPending).
Proof.
  exact (flush_conserves hasWritePending sendPresence_seq docPending psPending
           eq_refl).
Defined.

(** Witness of X6, at [docInflight]: the cursor of B is cleared, the local
    one stays, and the inflight batch goes in front of the pending one. *)
Lemma pause_resets_witness :
  exists ps' srcList,
    pause docInflight
    = Return tt
        (withTicks
           (match srcList with
            | [] => []
            | _ => [TEmitPresence srcList false]
            end)
           (withPresence ps' docInflight))
    /\ (forall k,
          Presence.current ps' !! k
          = if decide (k = "") then Presence.current psInflight !! "" else None)
    /\ (forall k,
          k ∈ srcList
          <-> k <> "" /\ is_Some (Presence.current psInflight !! k))
    /\ Presence.received ps' = ∅
    /\ Presence.requestReply ps' = true
    /\ Presence.inflight ps' = None
    /\ Presence.inflightSeq ps' = 0
    /\ default [] (Presence.pending ps') = ["cb1"; "cb2"]
    /\ (is_Some (Presence.pending ps')
        <-> is_Some (Presence.inflight psInflight)
            \/ is_Some (Presence.pending psInflight)
            \/ is_Some (Presence.current psInflight !! ""))
    /\ Presence.cachedOps ps' = Presence.cachedOps psInflight.
Proof.
  exact (pause_resets docInflight psInflight eq_refl).
Defined.

(** Witness of X7, at [docInflight]: after the pause the flush sends the
    local cursor 5 again, asks for replies, and both continuations are
    inflight under the sequence 7 of the connection. *)
Lemma pause_then_flush_resends_witness :
  exists d' ps',
    flush hasWritePending sendPresence_seq (state_of (pause docInflight))
    = Return tt d'
    /\ Doc.events d' = Doc.events docInflight ++ [ESendPresence (Some 5) true]
    /\ Doc.presence d' = Some ps'
    /\ Presence.inflight ps' = Some ["cb1"; "cb2"]
    /\ Presence.inflightSeq ps' = 7
    /\ Presence.pending ps' = None
    /\ Presence.requestReply ps' = false.
Proof.
  apply (pause_then_flush_resends hasWritePending sendPresence_seq docInflight
           psInflight eq_refl eq_refl eq_refl).
  left. by eexists.
Defined.

(** Witness of X8, at [docInflight], whose batch is inflight under the
    sequence 7: the acknowledgment calls [cb1], the pending batch is flushed
    and "nothing pending" is checked last. *)
Lemma ack_resolves_inflight_witness :
  Doc.events
    (state_of (_handlePresence hasWritePending sendPresence_seq 1000 None ack7
                 docInflight))
  = [ECall "cb1" None; ESendPresence (Some 5) false; EEmitNothingPending]
  /\ Doc.events (acked None docInflight psInflight) = [ECall "cb1" None].
Proof.
  destruct (ack_resolves_inflight hasWritePending sendPresence_seq 1000 None
              ack7 docInflight psInflight eq_refl eq_refl eq_refl eq_refl)
    as (Hrun & Hevents & _).
  split; [by rewrite Hrun|by rewrite Hevents].
Defined.

(** Witness of X9, at [docInflight]: the acknowledgment of the submission
    numbered 7 arrives after the hard rollback. *)
Lemma late_ack_ignored_witness :
  _handlePresence hasWritePending sendPresence_seq 1000 None ack7
    (state_of (_hardRollbackPresence docInflight))
  = Return tt (state_of (_hardRollbackPresence docInflight))
  /\ (handshake_ok docInflight ->
      _handlePresence hasWritePending sendPresence_seq 1000 None ack7
        (state_of (pause docInflight))
      = Return tt (state_of (pause docInflight))).
Proof.
  apply (late_ack_ignored hasWritePending sendPresence_seq 1000 None ack7
           docInflight psInflight eq_refl eq_refl).
  simpl. lia.
Defined.

(** Witness of X10, at [docWithdrawn], for the source B. *)
Lemma processReceived_local_witness :
  exists changed ps',
    _processReceivedPresence 1000 "B" true docWithdrawn
    = Return changed
        (withTicks (if true && changed then [TEmitPresence ["B"] true] else [])
           (withPresence ps' docWithdrawn))
    /\ (forall k, k <> "B" ->
          Presence.current ps' !! k = Presence.current psWithdrawn !! k
          /\ Presence.received ps' !! k = Presence.received psWithdrawn !! k)
    /\ (changed = true
        <-> Presence.current ps' !! "B" <> Presence.current psWithdrawn !! "B")
    /\ reconciled 1000 (Presence.receivedTimeout psWithdrawn) "B"
         (Presence.current psWithdrawn !! "B")
         (Presence.received psWithdrawn !! "B")
         (Presence.current ps' !! "B") (Presence.received ps' !! "B")
    /\ handshake ps' = handshake psWithdrawn
    /\ Presence.pending ps' = Presence.pending psWithdrawn
    /\ Presence.cachedOps ps' = Presence.cachedOps psWithdrawn
    /\ Presence.requestReply ps' = Presence.requestReply psWithdrawn
    /\ Doc.events (withPresence ps' docWithdrawn) = Doc.events docWithdrawn.
Proof.
  exact (processReceived_local 1000 "B" true docWithdrawn psWithdrawn eq_refl).
Defined.

(** Witness of X11, at [docProcessed] at time 120000: the message of B was
    processed at 50000, more than a minute ago. *)
Lemma processAll_collects_witness :
  exists changedSrcList ps',
    _processAllReceivedPresence (fun _ => 120000) docProcessed
    = Return tt
        (withTicks
           (match changedSrcList with
            | [] => []
            | _ => [TEmitPresence changedSrcList true]
            end)
           (withPresence ps' docProcessed))
    /\ (forall src,
          reconciled 120000 (Presence.receivedTimeout psProcessed) src
            (Presence.current psProcessed !! src)
            (Presence.received psProcessed !! src)
            (Presence.current ps' !! src) (Presence.received ps' !! src))
    /\ NoDup changedSrcList
    /\ (forall src,
          src ∈ changedSrcList
          <-> Presence.current ps' !! src <> Presence.current psProcessed !! src)
    /\ handshake ps' = handshake psProcessed
    /\ Presence.pending ps' = Presence.pending psProcessed
    /\ Presence.cachedOps ps' = Presence.cachedOps psProcessed
    /\ Presence.requestReply ps' = Presence.requestReply psProcessed
    /\ Doc.events (withPresence ps' docProcessed) = Doc.events docProcessed.
Proof.
  exact (processAll_collects (fun _ => 120000) docProcessed psProcessed
           eq_refl).
Defined.

(** Witness of X12, at [docSubscribed]: the server withdraws B with the
    sequence of the entry that is there; the cursor of B is cleared. *)
Lemma handlePresence_null_version_witness :
  _handlePresence hasWritePending sendPresence_seq 1000 None withdrawB
    docSubscribed
  = Return tt
      (withTicks [TEmitPresence ["B"] true]
         (withPresence (cleared 1000 "B" withdrawB psSubscribed)
            docSubscribed)).
Proof.
  destruct (handlePresence_null_version hasWritePending sendPresence_seq 1000
              withdrawB docSubscribed psSubscribed "B"
              eq_refl eq_refl eq_refl ltac:(discriminate) eq_refl)
    as (ps1 & Hps1 & _ & _ & _ & Hrun).
  - intros old Hold. vm_compute in Hold. injection Hold as <-. simpl. lia.
  - injection Hps1 as <-. exact Hrun.
Defined.

(** Witness of X13, at [docSubscribed], which is at version 3: a message
    of B of version 5 is stored and the missing operations are fetched. *)
Lemma handlePresence_stores_witness :
  _handlePresence hasWritePending sendPresence_seq 1000 None aheadB
    docSubscribed
  = Return tt
      (Doc.set_events [EFetch]
         (withPresence
            (Presence.set_received
               (<["B" := aheadB]> (Presence.received psSubscribed))
               psSubscribed) docSubscribed)).
Proof.
  destruct (handlePresence_stores hasWritePending sendPresence_seq 1000
              aheadB docSubscribed psSubscribed "B" 5
              eq_refl eq_refl eq_refl ltac:(discriminate) eq_refl)
    as (ps1 & Hps1 & _ & _ & _ & Hfetch & _).
  - intros old Hold. vm_compute in Hold. injection Hold as <-. simpl. lia.
  - injection Hps1 as <-. apply Hfetch. right. exists 3. split; [reflexivity|lia].
Defined.

(** Witness of X14, at [docInflight]: the local cursor moves from 5 to 6
    while a batch is inflight; the continuation joins the pending batch. *)
Lemma submitPresence_queues_witness :
  submitPresence (Some 6) (Some "cb3") docInflight
  = Return tt
      (withTicks [TEmitPresence [""] true; TFlush]
         (withPresence
            (Presence.set_pending (Some ["cb2"; "cb3"])
               (Presence.set_current {[ "" := 6; "B" := 9 ]} psInflight))
            docInflight))
  /\ Doc.events (state_of (submitPresence (Some 6) (Some "cb3") docInflight))
     = Doc.events docInflight.
Proof.
  destruct (submitPresence_queues (Some 6) (Some 6) (Some "cb3") docInflight
              psInflight textType eq_refl eq_refl)
    as (changed & current' & _ & _ & _ & _ & Hevents & _).
  - exists (fun raw => Some raw), shift. repeat split.
  - split; [reflexivity|exact Hevents].
Defined.

(** Witness of X15, at [docNew]: the first submission, of the cursor 6, is
    sent with the request for replies. *)
Lemma submit_then_flush_sends_witness :
  exists d' ps',
    bind (submitPresence (Some 6) (Some "cb")) (fun _ =>
            flush hasWritePending sendPresence_seq) docNew
    = Return tt d'
    /\ Doc.presence d' = Some ps'
    /\ Doc.events d' = Doc.events docNew ++ [ESendPresence (Some 6) true]
    /\ Presence.current ps' !! "" = Some 6
    /\ Presence.inflight ps' = Some ["cb"]
    /\ Presence.inflightSeq ps' = 7
    /\ Presence.pending ps' = None
    /\ Presence.requestReply ps' = false.
Proof.
  destruct (submit_then_flush_sends hasWritePending sendPresence_seq 6 6
              (Some "cb") docNew psNew textType (fun raw => Some raw) shift
              eq_refl eq_refl eq_refl eq_refl eq_refl eq_refl
              ltac:(discriminate) eq_refl eq_refl eq_refl)
    as (d' & ps' & Hrun & Hps' & Hev & Hcur & Hinfl & Hseq & Hpend & Hreq & _).
  exists d', ps'. repeat split; assumption.
Defined.

(** Witness of X16, at [docNotCreated], which has no type and holds the
    local cursor 5: the operation of A makes the transformation throw. *)
Lemma transformAll_unsupported_witness :
  _transformAllPresence opA docNotCreated = Throw docNotCreated.
Proof.
  rewrite (transformAll_unsupported opA docNotCreated psNotCreated eq_refl);
    [reflexivity|by eexists|exact I].
Defined.

(** Witness of X17, at [docInflight], which holds a message of B and two
    cached operations: both are dropped, and the cursors, the two batches
    and the sequence 7 of the inflight one stay. *)
Lemma destroy_idempotent_witness :
  destroy docInflight
  = Return tt
      (withPresence
         (presenceWith {[ "" := 5; "B" := 9 ]} ∅ [] 7 (Some ["cb2"])
            (Some ["cb1"]))
         docInflight)
  /\ destroy (state_of (destroy docInflight)) = destroy docInflight.
Proof.
  destruct (destroy_idempotent (fun _ => 0) docInflight)
    as (Hsome & _ & Hagain & _).
  split; [|exact Hagain].
  destruct (Hsome psInflight eq_refl)
    as (ps' & Hrun & Hrcv & Hops & Hcur & Hpend & Hinfl & Hseq & Hreq & Hrt
        & Hct).
  rewrite Hrun. destruct ps'. simpl in *. subst. reflexivity.
Defined.
